(** * Cross-modal retrieval with a triplet network: evaluation and training scripts

    A shallow embedding of [src/evaluate_text_to_image_methods.py] and
    [src/task_Resnet_BERT_text_to_Image.py].

    The scripts are glue around numpy, torch and faiss.  The parts of those
    libraries the scripts rely on (array shapes, slice assignment, the
    batching of a DataLoader, a flat L2 index) are modelled by what they do
    to shapes and indices; scalars, the network and the distance are
    parameters of the development. *)

From Stdlib Require Import ZArith QArith Lia Lqa ZifyNat.
From stdpp Require Import base option list gmap strings pretty.

Local Open Scope nat_scope.

(** ** Python exceptions and fallible computations *)

Inductive exn : Type :=
  | FileNotFoundError (path : string)
  | UnpicklingError (path : string)
  | JSONDecodeError (path : string)
  | ValueError
  | RuntimeError
  | KeyError
  | IndexError
  | AssertionError.

Inductive result (A : Type) : Type :=
  | Ok (a : A)
  | Raise (e : exn).
Arguments Ok {A} a.
Arguments Raise {A} e.

Global Instance result_ret : MRet result := fun A a => Ok a.
Global Instance result_bind : MBind result := fun A B f m =>
  match m with
  | Ok a => f a
  | Raise e => Raise e
  end.

Definition aborts {A} (r : result A) : Prop := exists e, r = Raise e.

(** A Python [for] loop whose body may raise: the state is threaded through
    the iterations and the first exception ends the loop. *)
Fixpoint for_each {S X : Type} (body : S -> X -> result S) (xs : list X) (s : S)
  : result S :=
  match xs with
  | [] => Ok s
  | x :: xs' =>
      match body s x with
      | Ok s' => for_each body xs' s'
      | Raise e => Raise e
      end
  end.

(** Python indexing [l[i]] of a list by an integer: a negative index counts
    from the end, an index out of range raises [IndexError]. *)
Definition py_index {A : Type} (l : list A) (i : Z) : result A :=
  let n := Z.of_nat (length l) in
  let j := if (i <? 0)%Z then (n + i)%Z else i in
  if (j <? 0)%Z then Raise IndexError
  else match l !! Z.to_nat j with
       | Some x => Ok x
       | None => Raise IndexError
       end.

(** ** numpy arrays of two dimensions *)

Section Arrays.
Context {F : Type}.
Variable zero : F.

  (** A tensor of rank 2 or 3 as the rows it is made of. *)
Definition tensor2 : Type := list (list F).
Definition tensor3 : Type := list (list (list F)).

  (** A numpy array of rank 2, with its second dimension kept apart from the
      rows (an array of no rows still has a column count). *)
Record ndarray : Type := mk_ndarray {
    shape1 : nat;
    rows : list (list F)
  }.

Definition shape0 (a : ndarray) : nat := length (rows a).

  (** [np.zeros((n, c))] *)
Definition np_zeros (n c : nat) : ndarray :=
    mk_ndarray c (replicate n (replicate c zero)).

  (** Broadcasting one row of a value to [c] columns: the row has [c]
      entries, or one entry that is repeated. *)
Definition broadcast_row (c : nat) (r : list F) : result (list F) :=
    if length r =? c then Ok r
    else match r with
         | [x] => Ok (replicate c x)
         | _ => Raise ValueError
         end.

  (** The rows of a value, each broadcast to [c] columns. *)
Fixpoint broadcast_rows (c : nat) (v : tensor2) : result tensor2 :=
    match v with
    | [] => Ok []
    | r :: v' =>
        match broadcast_row c r with
        | Ok r' =>
            match broadcast_rows c v' with
            | Ok w => Ok (r' :: w)
            | Raise e => Raise e
            end
        | Raise e => Raise e
        end
    end.

  (** Broadcasting the second dimension of a value to [c] columns: the
      value has [c] columns or one, whether or not it has rows (numpy
      compares the shapes: a value of shape [(0, 4096)] is not broadcast to
      1024 columns). *)
Definition broadcast_cols (c : nat) (v : ndarray) : result tensor2 :=
    if (shape1 v =? c) || (shape1 v =? 1) then broadcast_rows c (rows v)
    else Raise ValueError.

  (** Broadcasting a value to the shape [(m, c)] of the slice it is
      assigned to: the value has [c] columns or one, and [m] rows or one; a
      single column or row is repeated; any other shape is numpy's "could
      not broadcast input array" [ValueError]. *)
Definition broadcast_to (m c : nat) (v : ndarray) : result tensor2 :=
    match broadcast_cols c v with
    | Ok w =>
        if length w =? m then Ok w
        else match w with
             | [r] => Ok (replicate m r)
             | _ => Raise ValueError
             end
    | Raise e => Raise e
    end.

  (** [a[lo:hi] = v]: the slice is clipped to the rows the array has and the
      value is broadcast to the clipped slice. *)
Definition np_setslice (a : ndarray) (lo hi : nat) (v : ndarray) : result ndarray :=
    let n := shape0 a in
    let lo' := lo `min` n in
    let hi' := (hi `min` n) `max` lo' in
    match broadcast_to (hi' - lo') (shape1 a) v with
    | Ok w => Ok (mk_ndarray (shape1 a) (take lo' (rows a) ++ w ++ drop hi' (rows a)))
    | Raise e => Raise e
    end.

  (** [t.reshape(n, c)] of a rank-3 tensor: the elements in row-major order,
      cut into [n] rows of [c]; torch raises when the element count is not
      [n * c]. *)
Fixpoint chunks (fuel c : nat) (l : list F) : list (list F) :=
    match fuel with
    | 0 => []
    | S fuel' => take c l :: chunks fuel' c (drop c l)
    end.

Definition reshape (n c : nat) (t : tensor3) : result tensor2 :=
    let flat := concat (concat t) in
    if length flat =? n * c then Ok (chunks n c flat) else Raise RuntimeError.

Definition well_shaped (a : ndarray) : Prop :=
    Forall (fun r => length r = shape1 a) (rows a).
End Arrays.

Arguments ndarray F : clear implicits.
Arguments tensor2 F : clear implicits.
Arguments tensor3 F : clear implicits.

(** ** extract_embeddings *)

Inductive target : Type := ImageRows | TextRows.

Global Instance target_eq_dec : EqDecision target.
Proof. solve_decision. Defined.

(** One slice assignment of the loop: the array written and the bounds
    [lo:hi] asked for. *)
Record slice_write : Type := mk_write {
  w_target : target;
  w_lo : nat;
  w_hi : nat
}.

Definition covers (t : target) (i : nat) (w : slice_write) : bool :=
  bool_decide (w_target w = t) && (w_lo w <=? i) && (i <? w_hi w).

(** How many of the logged slice assignments write row [i] of array [t]. *)
Definition writes_to (t : target) (i : nat) (log : list slice_write) : nat :=
  length (filter (fun w => covers t i w = true) log).

Section ExtractEmbeddings.
Context {F M : Type}.
Variable zero : F.
  (** [torch.cuda.is_available()], read once at import time. *)
Variable cuda : bool.
  (** [model.get_embedding_pair(images, text_batch)], from the repository's
      model classes: the image and the text embeddings of a batch, as the
      arrays that [.data.cpu().numpy()] makes of them. *)
Variable get_embedding_pair : M -> tensor2 F -> tensor2 F -> result (ndarray F * ndarray F).

Abbreviation batch := (tensor2 F * tensor3 F)%type.

  (** The variables of the loop; [writes] is a log of the slice assignments
      done so far and is not read by the code. *)
Record loop_state : Type := mk_loop {
    image_embeddings : ndarray F;
    text_embeddings : ndarray F;
    k : nat;
    writes : list slice_write
  }.

  (** Lines 35-44, one batch of the dataloader. *)
Definition extract_batch (model : M) (num_samples : nat) (st : loop_state) (b : batch)
    : result loop_state :=
    let '(images, texts) := b in
    let images := take num_samples images in
    let texts := take num_samples texts in
    text_batch ← reshape (length texts * 5) 300 texts;
    '(im_emb, text_emb) ← get_embedding_pair model images text_batch;
    ie ← np_setslice (image_embeddings st) (k st) (k st + length images) im_emb;
    te ← np_setslice (text_embeddings st) (k st) (k st + length texts * 5) text_emb;
    Ok (mk_loop ie te (k st + length images)
          (writes st ++ [mk_write ImageRows (k st) (k st + length images);
                         mk_write TextRows (k st) (k st + length texts * 5)])).

  (** Lines 28-44: [model.to('cuda')] raises when there is no device; the
      arrays are allocated with 1024 columns whatever [out_size] is. *)
Definition extract_loop (dataloader : list batch) (model : M) (out_size : nat)
      (model_id : string) (num_samples : nat) : result loop_state :=
    if cuda then
      for_each (fun st b => extract_batch model num_samples st b) dataloader
        (mk_loop (np_zeros zero num_samples 1024) (np_zeros zero (num_samples * 5) 1024) 0 [])
    else Raise RuntimeError.

Definition extract_embeddings (dataloader : list batch) (model : M) (out_size : nat)
      (model_id : string) (num_samples : nat) : result (ndarray F * ndarray F) :=
    st ← extract_loop dataloader model out_size model_id num_samples;
    Ok (image_embeddings st, text_embeddings st).
End ExtractEmbeddings.

(** The shape both arrays have from their allocation on. *)
Definition shaped {F : Type} (num_samples : nat) (st : loop_state (F:=F)) : Prop :=
  (shape1 (image_embeddings st) = 1024 /\ shape0 (image_embeddings st) = num_samples /\
   well_shaped (image_embeddings st)) /\
  (shape1 (text_embeddings st) = 1024 /\ shape0 (text_embeddings st) = num_samples * 5 /\
   well_shaped (text_embeddings st)).


(** A stand-in network for running the loop on small inputs: one row of
    [width] ones for every image and for every sentence of the batch. *)
Definition constant_encoder (width : nat) (model : unit) (images text_batch : tensor2 Z)
  : result (ndarray Z * ndarray Z) :=
  Ok (mk_ndarray width (map (fun _ => replicate width 1%Z) images),
      mk_ndarray width (map (fun _ => replicate width 1%Z) text_batch)).

(** A batch of [n] items: images of one feature, five sentences of 300
    features for each. *)
Definition toy_batch (n : nat) : tensor2 Z * tensor3 Z :=
  (replicate n [0%Z], replicate n (replicate 5 (replicate 300 0%Z))).

(** ** Ground truth of the evaluation script (lines 85-107) *)

(** An entry of [test.json]: an image file name and its captions. *)
Record sentence : Type := mk_sentence { raw : string }.
Record item : Type := mk_item {
  filename : string;
  sentences : list sentence
}.

(** A Python dict keeps its keys in insertion order; [d[key] = v] on a key
    already there replaces the value and keeps the key where it is. *)
Fixpoint dict_set {V : Type} (d : list (string * V)) (key : string) (v : V)
  : list (string * V) :=
  match d with
  | [] => [(key, v)]
  | (key', v') :: d' =>
      if decide (key' = key) then (key', v) :: d'
      else (key', v') :: dict_set d' key v
  end.

(** [list(d)]: the keys, in insertion order. *)
Definition dict_keys {V : Type} (d : list (string * V)) : list string := map fst d.

Record gt_state : Type := mk_gt {
  gt : list (string * list string);
  dict_sentences : gmap nat string;
  count : nat
}.

(** Lines 98-99. *)
Definition add_sentence (st : gt_state) (s : sentence) : gt_state :=
  mk_gt (gt st) (<[count st := raw s]> (dict_sentences st)) (count st + 1).

(** Lines 96-99. *)
Definition add_item (st : gt_state) (it : item) : gt_state :=
  let st' := mk_gt (dict_set (gt st) (filename it) (map raw (sentences it)))
                   (dict_sentences st) (count st) in
  foldl add_sentence st' (sentences it).

(** Lines 92-99. *)
Definition ground_truth (data : list item) : gt_state :=
  foldl add_item (mk_gt [] ∅ 0) data.

(** Line 105: [[i for i in range(1, len(data) + 1)]]. *)
Definition image_labels (data : list item) : list nat :=
  map (fun i => i) (seq 1 (length data)).

(** Line 106: [[j for j in range(1, len(data) + 1) for i in range(5)]]. *)
Definition text_labels (data : list item) : list nat :=
  flat_map (fun j => map (fun i => j) (seq 0 5)) (seq 1 (length data)).

(** Line 134: [[[i] for i in text_labels]]. *)
Definition t_labels (data : list item) : list (list nat) :=
  map (fun i => [i]) (text_labels data).

(** Lines 129-132: the retrieved indices turned into labels. *)
Definition labels_pred (image_labels : list nat) (I : list (list Z))
  : result (list (list nat)) :=
  for_each (fun acc k_predictions =>
              k_labels_pred ← for_each (fun row i => x ← py_index image_labels i;
                                                     Ok (row ++ [x]))
                                       k_predictions [];
              Ok (acc ++ [k_labels_pred]))
           I [].

(** Lines 89-90 and 111. *)
Definition num_samples : nat := 1000.
Definition knn_k : nat := 5.

(** The captions of the annotation in file order, as the loop of lines
    95-99 meets them. *)
Definition all_sentences (data : list item) : list sentence :=
  concat (map sentences data).

(** What the two dictionaries hold after the captions [done] have been
    met. *)
Definition gt_inv (st : gt_state) (done : list sentence) : Prop :=
  dict_sentences st = map_seq 0 (raw <$> done) /\ count st = length done.

(** A small annotation for running the derivation: [n] items, the item
    [i] named [i].jpg with five captions. *)
Definition toy_item (i : nat) : item :=
  mk_item (pretty i +:+ ".jpg")
          (map (fun c => mk_sentence ("caption " +:+ pretty c +:+ " of " +:+ pretty i))
               (seq 0 5)).
Definition toy_data (n : nat) : list item := map toy_item (seq 0 n).

(** ** The flat L2 index of faiss (lines 113-118) *)

Section Faiss.
Context {F : Type}.
(** The squared L2 distance of two vectors and the order on distances, in
    the arithmetic of the index; the claims about the search do not depend
    on them. *)
Variable l2sqr : list F -> list F -> F.
Variable fle : F -> F -> bool.

(** A flat index: the dimension and the vectors added so far, in order. *)
Record index : Type := mk_index {
  index_d : nat;
  index_xb : list (list F)
}.

Definition ntotal (ix : index) : nat := length (index_xb ix).

(** [faiss.IndexFlatL2(d)] *)
Definition IndexFlatL2 (d : nat) : index := mk_index d [].

(** [index.add(x)]: the rows of [x] are appended; faiss asserts that [x] has
    the dimension of the index. *)
Definition index_add (ix : index) (x : ndarray F) : result index :=
  if shape1 x =? index_d ix then Ok (mk_index (index_d ix) (index_xb ix ++ rows x))
  else Raise AssertionError.

(** Insertion of a numbered vector into a list ordered by distance to the
    query; of two vectors at the same distance the one inserted last comes
    first. *)
Fixpoint insert_by_distance (q : list F) (c : nat * list F) (l : list (nat * list F))
  : list (nat * list F) :=
  match l with
  | [] => [c]
  | c' :: l' =>
      if fle (l2sqr q (snd c)) (l2sqr q (snd c')) then c :: c' :: l'
      else c' :: insert_by_distance q c l'
  end.

(** The stored vectors, numbered from 0 and ordered by distance to [q]. *)
Definition ranked (ix : index) (q : list F) : list (nat * list F) :=
  foldr (insert_by_distance q) [] (zip (seq 0 (ntotal ix)) (index_xb ix)).

(** The labels of one query: the positions of the [k] nearest vectors, and
    -1 in the places left when the index holds fewer than [k] vectors. *)
Definition search_one (ix : index) (k : nat) (q : list F) : list Z :=
  let found := take k (map (fun c => Z.of_nat (fst c)) (ranked ix q)) in
  found ++ replicate (k - length found) (-1)%Z.

(** [index.search(xq, k)]: the labels [I], one row for each query; the
    distances [D] are not read by the script. *)
Definition index_search (ix : index) (xq : ndarray F) (k : nat) : result (list (list Z)) :=
  if shape1 xq =? index_d ix then Ok (map (search_one ix k) (rows xq))
  else Raise AssertionError.
End Faiss.

Arguments index F : clear implicits.

(** ** mAP@k *)

(** Modelled from the spec: [mapk] of the module [evaluation_metrics], which
    the evaluation script imports and which is not among the sources.  The
    spec gives "mean average precision computed over the top-k retrieved
    results per query": the average precision of a query is taken over its
    first [k] predictions, a prediction counts when it is relevant and was
    not predicted before, and is divided by the number of hits possible,
    [min(len(actual), k)]; a query with nothing to find scores 0.  The mean
    of no query at all has no value. *)
Fixpoint apk_loop (actual seen : list nat) (i num_hits : nat) (score : Q)
    (predicted : list nat) : Q :=
  match predicted with
  | [] => score
  | p :: rest =>
      if bool_decide (p ∈ actual) && negb (bool_decide (p ∈ seen)) then
        apk_loop actual (seen ++ [p]) (S i) (S num_hits)
          (score + (Z.of_nat (S num_hits) # Pos.of_succ_nat i))%Q rest
      else apk_loop actual (seen ++ [p]) (S i) num_hits score rest
  end.

Definition apk (actual predicted : list nat) (k : nat) : Q :=
  let possible := length actual `min` k in
  if possible =? 0 then 0%Q
  else (apk_loop actual [] 0 0 0%Q (take k predicted) / inject_Z (Z.of_nat possible))%Q.

Definition Qsum (l : list Q) : Q := foldr Qplus 0%Q l.

Definition mapk (actual predicted : list (list nat)) (k : nat) : option Q :=
  let scores := zip_with (fun a p => apk a p k) actual predicted in
  match scores with
  | [] => None
  | _ => Some (Qsum scores / inject_Z (Z.of_nat (length scores)))%Q
  end.

(** ** Files *)

(** A checkpoint as the training run writes it: model state, optimizer
    state and epoch counter. *)
Record checkpoint (M O : Type) : Type := mk_checkpoint {
  model_state_dict : M;
  optimizer : O;
  epoch : nat
}.
Arguments mk_checkpoint {M O} _ _ _.
Arguments model_state_dict {M O} _.
Arguments optimizer {M O} _.
Arguments epoch {M O} _.

(** What a path of the file system holds. *)
Inductive file (F M O : Type) : Type :=
  | ImageFeatures (x : tensor2 F)
  | TextFeatures (x : tensor3 F)
  | Annotation (data : list item)
  | CheckpointFile (c : checkpoint M O)
  | Jpeg
  | Directory
  | Garbage.
Arguments ImageFeatures {F M O} x.
Arguments TextFeatures {F M O} x.
Arguments Annotation {F M O} data.
Arguments CheckpointFile {F M O} c.
Arguments Jpeg {F M O}.
Arguments Directory {F M O}.
Arguments Garbage {F M O}.

Section Files.
Context {F M O : Type}.
Implicit Type fs : gmap string (file F M O).

(** [os.path.exists] *)
Definition path_exists fs (p : string) : bool := bool_decide (is_Some (fs !! p)).

(** [torch.load] *)
Definition torch_load fs (p : string) : result (checkpoint M O) :=
  match fs !! p with
  | None => Raise (FileNotFoundError p)
  | Some (CheckpointFile c) => Ok c
  | Some _ => Raise (UnpicklingError p)
  end.

(** [json.load(open(p))] *)
Definition json_load fs (p : string) : result (list item) :=
  match fs !! p with
  | None => Raise (FileNotFoundError p)
  | Some (Annotation data) => Ok data
  | Some _ => Raise (JSONDecodeError p)
  end.

(** [plt.imread] *)
Definition imread fs (p : string) : result unit :=
  match fs !! p with
  | None => Raise (FileNotFoundError p)
  | Some Jpeg => Ok ()
  | Some _ => Raise (UnpicklingError p)
  end.

Definition load_image_features fs (p : string) : result (tensor2 F) :=
  match fs !! p with
  | None => Raise (FileNotFoundError p)
  | Some (ImageFeatures x) => Ok x
  | Some _ => Raise (UnpicklingError p)
  end.

Definition load_text_features fs (p : string) : result (tensor3 F) :=
  match fs !! p with
  | None => Raise (FileNotFoundError p)
  | Some (TextFeatures x) => Ok x
  | Some _ => Raise (UnpicklingError p)
  end.

(** Modelled from the spec: the dataset class [Flickr30k] of [datasets.py],
    which is not among the sources.  The spec has the scripts "load
    precomputed feature pickles": the image features and the text features
    are read when the dataset is built, and item [i] pairs image [i] with
    the features of its sentences. *)
Definition Flickr30k fs (img_path text_path : string)
  : result (list (list F * list (list F))) :=
  imgs ← load_image_features fs img_path;
  txts ← load_text_features fs text_path;
  Ok (zip imgs txts).

(** Modelled from the spec: the dataset class [Flickr30kEndToEnd] of
    [datasets.py], which is not among the sources; of its inputs the
    precomputed text features are read when the dataset is built. *)
Definition Flickr30kEndToEnd fs (root text_path split : string) : result (tensor3 F) :=
  load_text_features fs text_path.

(** [torch.utils.data.DataLoader(dataset, batch_size, shuffle=False)]: the
    items in order, [batch_size] to a batch and the rest in a last one, each
    batch collated into an image tensor and a text tensor; a batch size of 0
    is refused when the loader is built. *)
Definition collate (b : list (list F * list (list F))) : tensor2 F * tensor3 F :=
  (map fst b, map snd b).

Definition DataLoader (dataset : list (list F * list (list F))) (batch_size : nat)
  : result (list (tensor2 F * tensor3 F)) :=
  if batch_size =? 0 then Raise ValueError
  else Ok (map collate
             (chunks ((length dataset + batch_size - 1) / batch_size) batch_size dataset)).
End Files.

(** ** The evaluation script *)

(** What the script has computed when it prints the score (line 136): the
    model used, the evaluated part of the annotation, the index searched and
    the labels it returned, the two lists passed to [mapk], and the
    score. *)
Record eval_scores (F M : Type) : Type := mk_eval_scores {
  q_model : M;
  q_data : list item;
  q_index : index F;
  q_I : list (list Z);
  q_t_labels : list (list nat);
  q_labels_pred : list (list nat);
  q_map_k : option Q
}.
Arguments mk_eval_scores {F M} _ _ _ _ _ _ _.
Arguments q_model {F M} _.
Arguments q_data {F M} _.
Arguments q_index {F M} _.
Arguments q_I {F M} _.
Arguments q_t_labels {F M} _.
Arguments q_labels_pred {F M} _.
Arguments q_map_k {F M} _.

(** What a run of [main] leaves: the model used, the evaluated part of the
    annotation, the index searched and the labels it returned, the labels
    passed to [mapk], the score printed, and the image files of each figure
    shown. *)
Record eval_out (F M : Type) : Type := mk_eval_out {
  eo_model : M;
  eo_data : list item;
  eo_index : index F;
  eo_I : list (list Z);
  eo_t_labels : list (list nat);
  eo_labels_pred : list (list nat);
  eo_map_k : option Q;
  eo_figures : list (list string)
}.
Arguments mk_eval_out {F M} _ _ _ _ _ _ _ _.
Arguments eo_model {F M} _.
Arguments eo_data {F M} _.
Arguments eo_index {F M} _.
Arguments eo_I {F M} _.
Arguments eo_t_labels {F M} _.
Arguments eo_labels_pred {F M} _.
Arguments eo_map_k {F M} _.
Arguments eo_figures {F M} _.

(** [d[key]] of a dict keyed by integers. *)
Definition dict_get {V : Type} (d : gmap nat V) (key : nat) : result V :=
  match d !! key with
  | Some v => Ok v
  | None => Raise KeyError
  end.

(** [mapM] over a list, stopping at the first exception. *)
Fixpoint for_list {X Y : Type} (f : X -> result Y) (xs : list X) : result (list Y) :=
  match xs with
  | [] => Ok []
  | x :: xs' =>
      match f x with
      | Ok y =>
          match for_list f xs' with
          | Ok ys => Ok (y :: ys)
          | Raise e => Raise e
          end
      | Raise e => Raise e
      end
  end.

Module Evaluation.
Section Main.
Context {F M O : Type}.
Variable zero : F.
Variable cuda : bool.
Variable get_embedding_pair : M -> tensor2 F -> tensor2 F -> result (ndarray F * ndarray F).
(** [np.float32] on one scalar. *)
Variable float32 : F -> F.
Variable l2sqr : list F -> list F -> F.
Variable fle : F -> F -> bool.
(** The [TripletTextImage] built at lines 74-77, before any checkpoint is
    loaded. *)
Variable fresh_model : M.
(** [np.random.choice(population, size, replace=False)] *)
Variable random_choice : list nat -> nat -> result (list nat).

Implicit Type fs : gmap string (file F M O).

(** Lines 51-65. *)
Definition ROOT_PATH : string := "../../data/".
Definition TEST_IMG_EMB : string := ROOT_PATH +:+ "Flickr30k/test_FasterRCNN_features.pkl".
Definition TEST_TEXT_EMB : string := ROOT_PATH +:+ "Flickr30k/test_fasttext_features.pkl".
Definition base : string := "TextToImage".
Definition text_aggregation : string := "mean".
Definition image_features : string := "FasterRCNN".
Definition out_size : nat := 4096.
Definition info : string := "out_size_" +:+ pretty out_size.
Definition model_id : string :=
  base +:+ "_" +:+ image_features +:+ "_" +:+ text_aggregation +:+ "_textagg_" +:+ info.
Definition PATH_MODEL : string := "models/".
Definition CHECKPOINT : string := PATH_MODEL +:+ model_id +:+ ".pth".
Definition TEST_JSON : string := ROOT_PATH +:+ "Flickr30k/test.json".
Definition IMAGES_DIR : string := ROOT_PATH +:+ "Flickr30k/flickr30k-images/".

Definition np_float32 (a : ndarray F) : ndarray F :=
  mk_ndarray (shape1 a) (map (map float32) (rows a)).

(** Lines 79-83: the checkpoint is loaded when its file exists. *)
Definition load_model fs : result M :=
  if path_exists fs CHECKPOINT then
    checkpoint ← torch_load fs CHECKPOINT;
    Ok (model_state_dict checkpoint)
  else Ok fresh_model.

(** Lines 113-118. *)
Definition search (image_embeddings text_embeddings : ndarray F)
  : result (index F * list (list Z)) :=
  let index := IndexFlatL2 (shape1 image_embeddings) in
  index ← index_add index (np_float32 image_embeddings);
  let text_embeddings := np_float32 text_embeddings in
  I ← index_search l2sqr fle index text_embeddings knn_k;
  Ok (index, I).

(** Lines 144-167, one sample: the image files read for its figure. *)
Definition show_example fs (st : gt_state) (text_labels : list nat) (I : list (list Z))
    (sample : nat) : result (list string) :=
  query ← dict_get (dict_sentences st) sample;
  gt_image_id ← py_index text_labels (Z.of_nat sample);
  gt_image_filename ← py_index (dict_keys (gt st)) (Z.of_nat gt_image_id - 1);
  _ ← imread fs (IMAGES_DIR +:+ gt_image_filename);
  predictions ← py_index I (Z.of_nat sample);
  shown ← for_list (fun pred => filename ← py_index (dict_keys (gt st)) pred;
                                _ ← imread fs (IMAGES_DIR +:+ filename);
                                Ok filename) predictions;
  Ok (gt_image_filename :: shown).

(** Lines 85-136, from the annotation to the score that is printed. *)
Definition quantitative fs (test_loader : list (tensor2 F * tensor3 F)) (model : M)
  : result (eval_scores F M) :=
  data ← json_load fs TEST_JSON;
  let data := take num_samples data in
  let st := ground_truth data in
  '(image_embeddings, text_embeddings) ←
    extract_embeddings zero cuda get_embedding_pair test_loader model out_size model_id
      num_samples;
  let image_labels := image_labels data in
  let text_labels := text_labels data in
  found ← search image_embeddings text_embeddings;
  let index := fst found in
  let I := snd found in
  image_labels_pred ← labels_pred image_labels I;
  let t_labels := map (fun i => [i]) text_labels in
  let map_k := mapk t_labels image_labels_pred knn_k in
  Ok (mk_eval_scores model data index I t_labels image_labels_pred map_k).

(** Lines 138-167: the figures of twenty sentences drawn at random. *)
Definition qualitative fs (q : eval_scores F M) : result (list (list string)) :=
  random_samples ← random_choice (seq 0 (length (q_data q) * 5)) 20;
  for_list (show_example fs (ground_truth (q_data q)) (text_labels (q_data q)) (q_I q))
    random_samples.

(** Lines 85-167. *)
Definition evaluate fs (test_loader : list (tensor2 F * tensor3 F)) (model : M)
  : result (eval_out F M) :=
  q ← quantitative fs test_loader model;
  figures ← qualitative fs q;
  Ok (mk_eval_out (q_model q) (q_data q) (q_index q) (q_I q) (q_t_labels q)
        (q_labels_pred q) (q_map_k q) figures).

(** Lines 50-83: the dataloader and the model. *)
Definition setup fs : result (list (tensor2 F * tensor3 F) * M) :=
  test_dataset ← Flickr30k fs TEST_IMG_EMB TEST_TEXT_EMB;
  test_loader ← DataLoader test_dataset (length test_dataset);
  model ← load_model fs;
  Ok (test_loader, model).

(** Lines 49-136: [main] up to the score. *)
Definition main_scores fs : result (eval_scores F M) :=
  '(test_loader, model) ← setup fs;
  quantitative fs test_loader model.

(** Lines 49-167. *)
Definition main fs : result (eval_out F M) :=
  '(test_loader, model) ← setup fs;
  evaluate fs test_loader model.
End Main.
End Evaluation.

(** ** The training script *)

(** The arguments of the call to [fit] that ends [main]. *)
Record fit_call (F M O : Type) : Type := mk_fit_call {
  fit_train_dataset : tensor3 F;
  fit_test_dataset : tensor3 F;
  fit_model : M;
  fit_optimizer : O;
  fit_n_epochs : nat;
  fit_cuda : bool;
  fit_log_interval : nat;
  fit_model_id : string;
  fit_start_epoch : nat
}.
Arguments mk_fit_call {F M O} _ _ _ _ _ _ _ _ _.
Arguments fit_train_dataset {F M O} _.
Arguments fit_test_dataset {F M O} _.
Arguments fit_model {F M O} _.
Arguments fit_optimizer {F M O} _.
Arguments fit_n_epochs {F M O} _.
Arguments fit_cuda {F M O} _.
Arguments fit_log_interval {F M O} _.
Arguments fit_model_id {F M O} _.
Arguments fit_start_epoch {F M O} _.

Module Training.
Section Main.
Context {F M O : Type}.
Variable cuda : bool.
(** The [TripletTextImage] of lines 78-80 and the Adam optimizer of line 87,
    as they are constructed. *)
Variable fresh_model : M.
Variable fresh_optimizer : O.

Implicit Type fs : gmap string (file F M O).

(** Lines 38-59. *)
Definition OUTPUT_MODEL_DIR : string := "./models/".
Definition ROOT_PATH : string := "../../data/".
Definition TRAIN_TEXT_EMB : string := ROOT_PATH +:+ "Flickr30k/train_bert_features.pkl".
Definition TEST_TEXT_EMB : string := ROOT_PATH +:+ "Flickr30k/val_bert_features.pkl".
Definition base : string := "TextToImage".
Definition text_aggregation : string := "BERT".
Definition image_features : string := "Resnet".
Definition out_size : nat := 1000.
Definition info : string := "out_size_" +:+ pretty out_size.
Definition model_id : string :=
  base +:+ "_" +:+ image_features +:+ "_" +:+ text_aggregation +:+ "_textagg_" +:+ info.
Definition CHECKPOINT : string := OUTPUT_MODEL_DIR +:+ model_id +:+ ".pth".

(** Lines 40-42: the output directory is made when it is not there. *)
Definition make_output_dir fs : gmap string (file F M O) :=
  if negb (path_exists fs OUTPUT_MODEL_DIR) then <[OUTPUT_MODEL_DIR := Directory]> fs
  else fs.

(** Lines 89-96: model, optimizer and first epoch, from the checkpoint when
    its file exists. *)
Definition resume fs : result (M * O * nat) :=
  let model := fresh_model in
  let optimizer_ := fresh_optimizer in
  let start_epoch := 0 in
  if path_exists fs CHECKPOINT then
    checkpoint ← torch_load fs CHECKPOINT;
    let model := model_state_dict checkpoint in
    let optimizer_ := optimizer checkpoint in
    let start_epoch := epoch checkpoint in
    Ok (model, optimizer_, start_epoch)
  else Ok (model, optimizer_, start_epoch).

(** Lines 26-113: the file system as [main] leaves it and the call to
    [fit]. *)
Definition main fs : result (gmap string (file F M O) * fit_call F M O) :=
  let fs := make_output_dir fs in
  train_dataset ← Flickr30kEndToEnd fs ROOT_PATH TRAIN_TEXT_EMB "train";
  test_dataset ← Flickr30kEndToEnd fs ROOT_PATH TEST_TEXT_EMB "test";
  '(model, optimizer_, start_epoch) ← resume fs;
  let n_epochs := 20 in
  let log_interval := 5 in
  Ok (fs, mk_fit_call train_dataset test_dataset model optimizer_ n_epochs cuda
            log_interval model_id start_epoch).
End Main.
End Training.

(** ** Triplets *)

(** Modelled from the spec: the sampling of
    [TripletFlickr30kTextToImgEndToEnd] in [datasets.py], which is not among
    the sources.  The spec gives a triplet as "(anchor, positive, negative)
    tuple where anchor and positive share a semantic label (same
    image-caption pairing) and negative does not": the anchor is a caption of
    item [index], the positive is the image of the same item, the negative is
    the image of an item drawn among the others; the label of a sample is the
    number of the item it comes from. *)
Record labelled (A : Type) : Type := mk_labelled {
  sample : A;
  label : nat
}.
Arguments mk_labelled {A} _ _.
Arguments sample {A} _.
Arguments label {A} _.

Record triplet (T I : Type) : Type := mk_triplet {
  anchor : labelled T;
  positive : labelled I;
  negative : labelled I
}.
Arguments mk_triplet {T I} _ _ _.
Arguments anchor {T I} _.
Arguments positive {T I} _.
Arguments negative {T I} _.

Definition triplet_getitem {T I : Type} (dataset : list (I * list T)) (index : nat)
    (draw_caption draw_negative : nat) : option (triplet T I) :=
  '(image, captions) ← dataset !! index;
  caption ← captions !! (draw_caption mod length captions);
  let others := filter (fun j => j ≠ index) (seq 0 (length dataset)) in
  negative_index ← others !! (draw_negative mod length others);
  '(negative_image, _) ← dataset !! negative_index;
  Some (mk_triplet (mk_labelled caption index)
                   (mk_labelled image index)
                   (mk_labelled negative_image negative_index)).

(** ** Small file systems for running the scripts *)

(** The two text-feature pickles of the training script, empty, and
    nothing else. *)
Definition training_inputs : gmap string (file Z nat nat) :=
  {[ Training.TRAIN_TEXT_EMB := TextFeatures [];
     Training.TEST_TEXT_EMB := TextFeatures [] ]}.

(** The same with a checkpoint saved after epoch 7. *)
Definition training_inputs_resumed : gmap string (file Z nat nat) :=
  <[Training.CHECKPOINT := CheckpointFile (mk_checkpoint 41 42 7)]> training_inputs.

(** ** Shape contracts used to state what the loop does *)

(** A network that returns one row of [width] components for each image and
    for each sentence it is given. *)
Definition emits_rows {F M : Type}
    (get_embedding_pair : M -> tensor2 F -> tensor2 F -> result (ndarray F * ndarray F))
    (model : M) (width : nat) : Prop :=
  forall images text_batch, exists im_emb text_emb,
    get_embedding_pair model images text_batch = Ok (im_emb, text_emb) /\
    (shape1 im_emb = width /\ shape0 im_emb = length images /\ well_shaped im_emb) /\
    (shape1 text_emb = width /\ shape0 text_emb = length text_batch /\
     well_shaped text_emb).

(** Text features as the loop reshapes them: five sentences of 300 features
    for each item. *)
Definition five_by_300 {F : Type} (texts : tensor3 F) : Prop :=
  Forall (fun t => length (concat t) = 5 * 300) texts.

(** The images of a small annotation, in place. *)
Definition toy_images (n : nat) : gmap string (file Z unit nat) :=
  list_to_map (map (fun it => (Evaluation.IMAGES_DIR +:+ filename it, Jpeg)) (toy_data n)).

(** A test set of [n] items behind the paths the evaluation script reads,
    with the annotation, the images and a checkpoint. *)
Definition toy_test_set (n : nat) : gmap string (file Z unit nat) :=
  <[Evaluation.CHECKPOINT := CheckpointFile (mk_checkpoint () 0 0)]>
  (<[Evaluation.TEST_IMG_EMB := ImageFeatures (fst (toy_batch n))]>
  (<[Evaluation.TEST_TEXT_EMB := TextFeatures (snd (toy_batch n))]>
  (<[Evaluation.TEST_JSON := Annotation (toy_data n)]> (toy_images n)))).

(** An annotation in which a file name comes twice. *)
Definition repeated_names : list item :=
  [mk_item "a.jpg" []; mk_item "a.jpg" []; mk_item "b.jpg" []].

(** The two feature files of the evaluation script with one item, and
    nothing else. *)
Definition features_only : gmap string (file Z unit nat) :=
  {[ Evaluation.TEST_IMG_EMB := ImageFeatures (fst (toy_batch 1));
     Evaluation.TEST_TEXT_EMB := TextFeatures (snd (toy_batch 1)) ]}.

(** The image features alone. *)
Definition image_features_only : gmap string (file Z unit nat) :=
  {[ Evaluation.TEST_IMG_EMB := ImageFeatures (fst (toy_batch 1)) ]}.

(** The test set with the image of its first item missing. *)
Definition toy_test_set_image_missing (n : nat) : gmap string (file Z unit nat) :=
  delete (Evaluation.IMAGES_DIR +:+ filename (toy_item 0)) (toy_test_set n).

(** The image of the first of two items, and nothing else. *)
Definition first_image_only : gmap string (file Z unit nat) :=
  {[ Evaluation.IMAGES_DIR +:+ filename (toy_item 0) := Jpeg ]}.

(** The training text features alone. *)
Definition training_features_only : gmap string (file Z nat nat) :=
  {[ Training.TRAIN_TEXT_EMB := TextFeatures [] ]}.
(** ** Shapes kept by slice assignment *)

Section ArrayFacts.
Context {F : Type}.
Implicit Types (r : list F) (w : tensor2 F) (a : ndarray F).

Lemma broadcast_row_length c r r' :
  broadcast_row c r = Ok r' -> length r' = c.
Proof.
  unfold broadcast_row. destruct (length r =? c) eqn:E.
  - intros [= <-]. by apply Nat.eqb_eq.
  - destruct r as [|x [|y r]]; intros [= <-]. by rewrite length_replicate.
Qed.

Lemma broadcast_row_fits c r :
  length r = c -> broadcast_row c r = Ok r.
Proof. intros H. unfold broadcast_row. by rewrite (proj2 (Nat.eqb_eq _ _) H). Qed.

Lemma broadcast_rows_spec c v w :
  broadcast_rows c v = Ok w ->
  length w = length v /\ Forall (fun r => length r = c) w.
Proof.
  revert w. induction v as [|r v IH]; simpl; intros w.
  - intros [= <-]. split; [done | constructor].
  - destruct (broadcast_row c r) as [r'|] eqn:Er; [|done].
    destruct (broadcast_rows c v) as [w'|] eqn:Ev; [|done].
    intros [= <-]. destruct (IH w' eq_refl) as [Hl Hw]. split.
    + simpl. by rewrite Hl.
    + constructor; [by eapply broadcast_row_length | done].
Qed.

Lemma broadcast_rows_fits c v :
  Forall (fun r => length r = c) v -> broadcast_rows c v = Ok v.
Proof.
  induction 1 as [|r v Hr _ IH]; simpl; [done|].
  by rewrite (broadcast_row_fits _ _ Hr), IH.
Qed.

Lemma broadcast_to_spec m c (v : ndarray F) w :
  broadcast_to m c v = Ok w ->
  length w = m /\ Forall (fun r => length r = c) w.
Proof.
  unfold broadcast_to, broadcast_cols. destruct (_ || _); [|done].
  destruct (broadcast_rows c (rows v)) as [u|] eqn:Eu; [|done].
  destruct (broadcast_rows_spec _ _ _ Eu) as [_ Hu].
  destruct (length u =? m) eqn:E.
  - intros [= <-]. split; [by apply Nat.eqb_eq | done].
  - destruct u as [|r [|r2 u]]; intros [= <-].
    split; [by rewrite length_replicate|].
    apply Forall_replicate. by inversion Hu.
Qed.

Lemma broadcast_to_fits m c (v : ndarray F) :
  shape1 v = c -> shape0 v = m -> well_shaped v -> broadcast_to m c v = Ok (rows v).
Proof.
  intros Hc Hm Hv. unfold broadcast_to, broadcast_cols.
  rewrite Hc, Nat.eqb_refl. cbn [orb].
  unfold well_shaped in Hv. rewrite Hc in Hv. rewrite (broadcast_rows_fits _ _ Hv).
  unfold shape0 in Hm. by rewrite (proj2 (Nat.eqb_eq _ _) Hm).
Qed.

(** A value whose column count is neither that of the array nor 1 is
    refused, whatever its rows, and also when it has none. *)
Lemma broadcast_to_width m c (v : ndarray F) :
  shape1 v <> c -> shape1 v <> 1 -> broadcast_to m c v = Raise ValueError.
Proof.
  intros Hc H1. unfold broadcast_to, broadcast_cols.
  destruct (Nat.eqb_spec (shape1 v) c) as [?|_]; [done|].
  by destruct (Nat.eqb_spec (shape1 v) 1) as [?|_].
Qed.

Lemma np_setslice_shape a lo hi (v : ndarray F) a' :
  np_setslice a lo hi v = Ok a' ->
  shape1 a' = shape1 a /\ shape0 a' = shape0 a /\
  (well_shaped a -> well_shaped a').
Proof.
  unfold np_setslice, shape0, well_shaped.
  destruct (broadcast_to _ _ v) as [w|] eqn:Ew; [|done].
  destruct (broadcast_to_spec _ _ _ _ Ew) as [Hl Hw].
  intros [= <-]. simpl. split; [done|]. split.
  - rewrite !length_app, length_take, length_drop, Hl. lia.
  - intros Ha. rewrite !Forall_app. split_and!;
      [by apply Forall_take | done | by apply Forall_drop].
Qed.

(** A value that has the shape of the slice, written to a slice that lies
    inside the array, replaces exactly the rows [lo .. hi-1]. *)
Lemma np_setslice_fits a lo hi (v : ndarray F) :
  lo <= hi -> hi <= shape0 a -> shape0 v = hi - lo ->
  shape1 v = shape1 a -> well_shaped v ->
  np_setslice a lo hi v =
    Ok (mk_ndarray (shape1 a) (take lo (rows a) ++ rows v ++ drop hi (rows a))).
Proof.
  intros Hlo Hhi Hv Hc Hw. unfold np_setslice.
  replace (lo `min` shape0 a) with lo by lia.
  replace ((hi `min` shape0 a) `max` lo) with hi by lia.
  by rewrite broadcast_to_fits.
Qed.

Lemma np_setslice_width a lo hi (v : ndarray F) :
  shape1 v <> shape1 a -> shape1 v <> 1 -> np_setslice a lo hi v = Raise ValueError.
Proof. intros Hc H1. unfold np_setslice. by rewrite broadcast_to_width. Qed.

Lemma ndarray_eta (a : ndarray F) c : shape1 a = c -> mk_ndarray c (rows a) = a.
Proof. intros <-. by destruct a. Qed.

Lemma np_zeros_well_shaped (z : F) n c : well_shaped (np_zeros z n c).
Proof.
  unfold well_shaped, np_zeros. simpl.
  apply Forall_replicate. by rewrite length_replicate.
Qed.

Lemma np_zeros_shape0 (z : F) n c : shape0 (np_zeros z n c) = n.
Proof. unfold shape0, np_zeros. simpl. by rewrite length_replicate. Qed.
End ArrayFacts.

(** ** The loop of extract_embeddings *)

Lemma for_each_invariant {S X : Type} (P : S -> Prop) (body : S -> X -> result S) xs :
  (forall s x s', P s -> body s x = Ok s' -> P s') ->
  forall s s', P s -> for_each body xs s = Ok s' -> P s'.
Proof.
  intros Hbody. induction xs as [|x xs IH]; simpl; intros s s' Hs.
  - by intros [= <-].
  - destruct (body s x) as [s1|] eqn:E; [|done]. eauto.
Qed.

Lemma bind_Ok {A B : Type} (m : result A) (f : A -> result B) b :
  m ≫= f = Ok b -> exists a, m = Ok a /\ f a = Ok b.
Proof. destruct m as [a|e]; [|done]. intros H. by exists a. Qed.

Section ExtractFacts.
Context {F M : Type}.
Variable zero : F.
Variable cuda : bool.
Variable get_embedding_pair : M -> tensor2 F -> tensor2 F -> result (ndarray F * ndarray F).

Lemma extract_batch_shaped model num_samples st b st' :
  shaped num_samples st ->
  extract_batch get_embedding_pair model num_samples st b = Ok st' ->
  shaped num_samples st'.
Proof.
  intros [(Hi1 & Hi0 & Hiw) (Ht1 & Ht0 & Htw)]. unfold extract_batch.
  destruct b as [images texts].
  intros H. apply bind_Ok in H as (tb & _ & H).
  apply bind_Ok in H as ([im_emb text_emb] & _ & H).
  apply bind_Ok in H as (ie & Hie & H).
  apply bind_Ok in H as (te & Hte & H).
  injection H as <-. simpl.
  apply np_setslice_shape in Hie as (? & ? & ?).
  apply np_setslice_shape in Hte as (? & ? & ?).
  split; split_and!; simpl; try congruence; auto.
Qed.

Lemma extract_loop_shaped dataloader model out_size model_id num_samples st :
  extract_loop zero cuda get_embedding_pair dataloader model out_size model_id num_samples
    = Ok st ->
  shaped num_samples st.
Proof.
  unfold extract_loop. destruct cuda; [|done].
  apply (for_each_invariant (shaped num_samples)).
  - intros s x s' Hs Hb. by eapply extract_batch_shaped.
  - split; simpl; split_and!; auto using np_zeros_well_shaped, np_zeros_shape0.
Qed.

Lemma extract_embeddings_shape dataloader model out_size model_id num_samples img txt :
  extract_embeddings zero cuda get_embedding_pair dataloader model out_size model_id
    num_samples = Ok (img, txt) ->
  (shape1 img = 1024 /\ shape0 img = num_samples /\ well_shaped img) /\
  (shape1 txt = 1024 /\ shape0 txt = num_samples * 5 /\ well_shaped txt).
Proof.
  unfold extract_embeddings. intros H. apply bind_Ok in H as (st & Hst & [= <- <-]).
  by apply extract_loop_shaped in Hst.
Qed.

(** C1. Whatever [out_size] is passed, each row of the two arrays
    [extract_embeddings] returns has 1024 components: the arrays are
    allocated with the literal 1024 and [out_size] is never read, so with
    the [out_size = 4096] of [main] the rows do not have [out_size]
    components. *)
Theorem extract_embeddings_columns_1024 dataloader model out_size model_id num_samples :
  match extract_embeddings zero cuda get_embedding_pair dataloader model out_size
          model_id num_samples with
  | Ok (img, txt) =>
      shape1 img = 1024 /\ Forall (fun r => length r = 1024) (rows img) /\
      shape1 txt = 1024 /\ Forall (fun r => length r = 1024) (rows txt)
  | Raise _ => True
  end.
Proof.
  destruct (extract_embeddings _ _ _ _ _ _ _ _) as [[img txt]|] eqn:E; [|done].
  apply extract_embeddings_shape in E as [(Hi & _ & Hiw) (Ht & _ & Htw)].
  unfold well_shaped in *. rewrite Hi in Hiw. rewrite Ht in Htw. done.
Qed.
End ExtractFacts.

(** ** One batch holding the whole dataset *)

Section SingleBatch.
Context {F M : Type}.
Variable zero : F.
Variable get_embedding_pair : M -> tensor2 F -> tensor2 F -> result (ndarray F * ndarray F).

(** The first batch, written at offset 0 into arrays that have room for
    it: its rows replace the first rows of both arrays. *)
Lemma extract_batch_from_0 model images texts num_samples n text_batch im_emb text_emb st :
  length (take num_samples images) = n ->
  length (take num_samples texts) = n ->
  reshape (n * 5) 300 (take num_samples texts) = Ok text_batch ->
  get_embedding_pair model (take num_samples images) text_batch = Ok (im_emb, text_emb) ->
  shape1 im_emb = 1024 -> shape0 im_emb = n -> well_shaped im_emb ->
  shape1 text_emb = 1024 -> shape0 text_emb = n * 5 -> well_shaped text_emb ->
  k st = 0 ->
  shape1 (image_embeddings st) = 1024 -> shape0 (image_embeddings st) = num_samples ->
  shape1 (text_embeddings st) = 1024 -> shape0 (text_embeddings st) = num_samples * 5 ->
  extract_batch get_embedding_pair model num_samples st (images, texts) =
    Ok (mk_loop
          (mk_ndarray 1024 (rows im_emb ++ drop n (rows (image_embeddings st))))
          (mk_ndarray 1024 (rows text_emb ++ drop (n * 5) (rows (text_embeddings st))))
          n
          (writes st ++ [mk_write ImageRows 0 n; mk_write TextRows 0 (n * 5)])).
Proof.
  intros Hi Ht Hre Hgep Hi1' Hi0' Hiw Ht1' Ht0' Htw Hk Hi1 Hi0 Ht1 Ht0.
  assert (n <= num_samples) by (rewrite <- Hi, length_take; lia).
  unfold extract_batch. rewrite Hi, Ht, Hk.
  rewrite Hre. cbn [mbind result_bind]. rewrite Hgep. cbn [mbind result_bind].
  rewrite !Nat.add_0_l.
  rewrite (np_setslice_fits (image_embeddings st))
    by (rewrite ?Hi1, ?Hi0; first [lia | done]).
  cbn [mbind result_bind].
  rewrite (np_setslice_fits (text_embeddings st))
    by (rewrite ?Ht1, ?Ht0; first [lia | done]).
  cbn [mbind result_bind]. by rewrite !take_0, Hi1, Ht1.
Qed.

Lemma writes_to_two t i w1 w2 :
  writes_to t i [w1; w2] =
    (if covers t i w1 then 1 else 0) + (if covers t i w2 then 1 else 0).
Proof.
  unfold writes_to. rewrite !filter_cons, filter_nil.
  destruct (covers t i w1), (covers t i w2); reflexivity.
Qed.

(** C10, amended. When the dataloader yields one batch and the network
    returns one row of 1024 components for each image and for each sentence
    of the truncated batch, of [n] items, the run succeeds and every slice
    assigned lies inside its array; rows [0 .. n-1] of the image array and
    [0 .. 5n-1] of the text array are written exactly once and hold the
    embeddings in order, the rows after them are never written and keep the
    zeros of the allocation.  So every row is written exactly once when the
    batch has at least [num_samples] items, and the arrays returned are then
    exactly the image and the text embeddings. *)
Theorem extract_embeddings_single_batch model images texts out_size model_id
    num_samples n text_batch im_emb text_emb :
  length (take num_samples images) = n ->
  length (take num_samples texts) = n ->
  reshape (n * 5) 300 (take num_samples texts) = Ok text_batch ->
  get_embedding_pair model (take num_samples images) text_batch = Ok (im_emb, text_emb) ->
  shape1 im_emb = 1024 -> shape0 im_emb = n -> well_shaped im_emb ->
  shape1 text_emb = 1024 -> shape0 text_emb = n * 5 -> well_shaped text_emb ->
  exists st,
    extract_loop zero true get_embedding_pair [(images, texts)] model out_size model_id
      num_samples = Ok st /\
    extract_embeddings zero true get_embedding_pair [(images, texts)] model out_size
      model_id num_samples = Ok (image_embeddings st, text_embeddings st) /\
    image_embeddings st =
      mk_ndarray 1024 (rows im_emb ++ replicate (num_samples - n) (replicate 1024 zero)) /\
    text_embeddings st =
      mk_ndarray 1024
        (rows text_emb ++ replicate (num_samples * 5 - n * 5) (replicate 1024 zero)) /\
    writes st = [mk_write ImageRows 0 n; mk_write TextRows 0 (n * 5)] /\
    (forall i, writes_to ImageRows i (writes st) = if i <? n then 1 else 0) /\
    (forall j, writes_to TextRows j (writes st) = if j <? n * 5 then 1 else 0) /\
    Forall (fun w => w_hi w <= match w_target w with
                               | ImageRows => shape0 (image_embeddings st)
                               | TextRows => shape0 (text_embeddings st)
                               end) (writes st) /\
    (num_samples <= length images ->
     extract_embeddings zero true get_embedding_pair [(images, texts)] model out_size
       model_id num_samples = Ok (im_emb, text_emb)).
Proof.
  intros Hi Ht Hre Hgep Hi1 Hi0 Hiw Ht1 Ht0 Htw.
  assert (Hn : n <= num_samples) by (rewrite <- Hi, length_take; lia).
  set (img := mk_ndarray 1024
                (rows im_emb ++ replicate (num_samples - n) (replicate 1024 zero))).
  set (txt := mk_ndarray 1024
                (rows text_emb ++
                 replicate (num_samples * 5 - n * 5) (replicate 1024 zero))).
  assert (Hrun : extract_loop zero true get_embedding_pair [(images, texts)] model
            out_size model_id num_samples
          = Ok (mk_loop img txt n [mk_write ImageRows 0 n; mk_write TextRows 0 (n * 5)])).
  { unfold extract_loop. cbn [for_each].
    rewrite (extract_batch_from_0 model images texts num_samples n text_batch im_emb
               text_emb); try done; try apply np_zeros_shape0.
    unfold np_zeros. cbn [image_embeddings text_embeddings rows writes app].
    by rewrite !drop_replicate. }
  assert (Hemb : extract_embeddings zero true get_embedding_pair [(images, texts)] model
            out_size model_id num_samples = Ok (img, txt)).
  { unfold extract_embeddings. by rewrite Hrun. }
  eexists. split; [exact Hrun|]. cbn [image_embeddings text_embeddings writes].
  split_and!; try done.
  - intros i. rewrite writes_to_two. unfold covers. cbn [w_target w_lo w_hi].
    rewrite bool_decide_eq_true_2, bool_decide_eq_false_2 by done.
    cbn [andb]. destruct (i <? n); reflexivity.
  - intros j. rewrite writes_to_two. unfold covers. cbn [w_target w_lo w_hi].
    rewrite bool_decide_eq_false_2, bool_decide_eq_true_2 by done.
    cbn [andb]. destruct (j <? n * 5); reflexivity.
  - unfold shape0, img, txt in *. cbn [rows].
    repeat constructor; cbn [w_target w_hi];
      rewrite length_app, length_replicate; lia.
  - intros Hall. rewrite Hemb. unfold img, txt.
    assert (n = num_samples) as -> by (rewrite <- Hi, length_take; lia).
    rewrite !Nat.sub_diag. cbn [replicate]. rewrite !app_nil_r.
    by rewrite !ndarray_eta.
Qed.
End SingleBatch.

Lemma extract_embeddings_single_batch_witness :
  exists st,
    extract_loop 0%Z true (constant_encoder 1024) [toy_batch 2] tt 4096
      "TextToImage_FasterRCNN_mean_textagg_out_size_4096" 3 = Ok st /\
    writes st = [mk_write ImageRows 0 2; mk_write TextRows 0 10] /\
    writes_to ImageRows 1 (writes st) = 1 /\
    writes_to ImageRows 2 (writes st) = 0 /\
    writes_to TextRows 9 (writes st) = 1 /\
    writes_to TextRows 10 (writes st) = 0.
Proof.
  destruct (extract_embeddings_single_batch 0%Z (constant_encoder 1024) tt
              (fst (toy_batch 2)) (snd (toy_batch 2)) 4096
              "TextToImage_FasterRCNN_mean_textagg_out_size_4096" 3 2
              (replicate 10 (replicate 300 0%Z))
              (mk_ndarray 1024 (replicate 2 (replicate 1024 1%Z)))
              (mk_ndarray 1024 (replicate 10 (replicate 1024 1%Z))))
    as (st & Hrun & _ & _ & _ & Hlog & Hi & Ht & _).
  - reflexivity.
  - reflexivity.
  - vm_compute. reflexivity.
  - vm_compute. reflexivity.
  - reflexivity.
  - reflexivity.
  - apply Forall_replicate. apply length_replicate.
  - reflexivity.
  - reflexivity.
  - apply Forall_replicate. apply length_replicate.
  - exists st. split; [exact Hrun|]. split; [exact Hlog|].
    rewrite !Hi, !Ht. vm_compute. repeat split.
Defined.

(** C10 as stated fails on a dataset shorter than [num_samples]: the one
    batch holds the whole dataset of one item, the call asks for two
    samples, and row 1 of the image array and rows 5..9 of the text array
    are never written (they keep the zeros of the allocation). *)
Lemma extract_embeddings_short_batch_unwritten :
  exists st,
    extract_loop 0%Z true (constant_encoder 1024) [toy_batch 1] tt 4096
      "TextToImage_FasterRCNN_mean_textagg_out_size_4096" 2 = Ok st /\
    writes st = [mk_write ImageRows 0 1; mk_write TextRows 0 5] /\
    writes_to ImageRows 1 (writes st) = 0 /\
    writes_to TextRows 5 (writes st) = 0 /\
    rows (image_embeddings st) !! 1 = Some (replicate 1024 0%Z).
Proof.
  eexists. split; [vm_compute; reflexivity|].
  split_and!; vm_compute; reflexivity.
Qed.

(** With two batches the text slice starts at the image offset: the second
    batch of one item is written to text rows 1..5, over four rows of the
    first batch, and text rows 6..9 are never written. *)
Lemma extract_embeddings_two_batches_overlap :
  exists st,
    extract_loop 0%Z true (constant_encoder 1024) [toy_batch 1; toy_batch 1] tt 4096
      "TextToImage_FasterRCNN_mean_textagg_out_size_4096" 2 = Ok st /\
    writes st = [mk_write ImageRows 0 1; mk_write TextRows 0 5;
                 mk_write ImageRows 1 2; mk_write TextRows 1 6] /\
    writes_to TextRows 1 (writes st) = 2 /\
    writes_to TextRows 6 (writes st) = 0.
Proof.
  eexists. split; [vm_compute; reflexivity|].
  split_and!; vm_compute; reflexivity.
Qed.

(** At the [out_size = 4096] of [main], with a network whose embeddings have
    [out_size] components, the first slice assignment cannot broadcast rows
    of 4096 into rows of 1024 and the call raises. *)
Lemma extract_embeddings_out_size_4096_raises :
  extract_embeddings 0%Z true (constant_encoder 4096) [toy_batch 2] tt 4096
    "TextToImage_FasterRCNN_mean_textagg_out_size_4096" 2 = Raise ValueError.
Proof. vm_compute. reflexivity. Qed.

(** The width is checked also when no row is written: with
    [num_samples = 0] the arrays have no rows, the batch is cut to nothing,
    and embeddings of 4096 components still cannot be broadcast into rows
    of 1024. *)
Lemma extract_embeddings_no_samples_4096_raises :
  extract_embeddings 0%Z true (constant_encoder 4096) [toy_batch 2] tt 4096
    "TextToImage_FasterRCNN_mean_textagg_out_size_4096" 0 = Raise ValueError.
Proof. vm_compute. reflexivity. Qed.

(** A value of no rows is refused when its width is another one. *)
Lemma broadcast_cols_empty_other_width :
  broadcast_cols 1024 (mk_ndarray 4096 ([] : list (list Z))) = Raise ValueError /\
  broadcast_cols 1024 (mk_ndarray 1024 ([] : list (list Z))) = Ok [] /\
  broadcast_to 0 1024 (mk_ndarray 4096 ([] : list (list Z))) = Raise ValueError /\
  broadcast_to 0 1024 (mk_ndarray 1024 ([] : list (list Z))) = Ok [].
Proof. split_and!; vm_compute; reflexivity. Qed.

(** ** Ground truth and labels *)

Ltac Zify.zify_post_hook ::= Z.to_euclidean_division_equations.

Lemma map_seq_size {A : Type} (l : list A) start :
  size (map_seq start l : gmap nat A) = length l.
Proof.
  revert start. induction l as [|x l IH]; intros start; simpl.
  - apply map_size_empty.
  - rewrite map_size_insert_None, IH; [done|].
    apply lookup_map_seq_None. lia.
Qed.

Lemma add_sentences_inv ss st done :
  gt_inv st done -> gt_inv (foldl add_sentence st ss) (done ++ ss).
Proof.
  revert st done. induction ss as [|s ss IH]; intros st done [Hd Hc]; simpl.
  - by rewrite app_nil_r.
  - replace (done ++ s :: ss) with ((done ++ [s]) ++ ss) by by rewrite <- app_assoc.
    apply IH. unfold add_sentence, gt_inv. simpl. split.
    + rewrite fmap_app. cbn [fmap list_fmap].
      rewrite map_seq_snoc, Hd, Hc, length_fmap. done.
    + rewrite length_app. simpl. lia.
Qed.

Lemma ground_truth_inv_from data st done :
  gt_inv st done -> gt_inv (foldl add_item st data) (done ++ all_sentences data).
Proof.
  revert st done. induction data as [|it data IH]; intros st done H; simpl.
  - unfold all_sentences. simpl. by rewrite app_nil_r.
  - unfold all_sentences. simpl. rewrite app_assoc. apply IH.
    unfold add_item. by apply add_sentences_inv.
Qed.

Lemma ground_truth_inv data : gt_inv (ground_truth data) (all_sentences data).
Proof. apply (ground_truth_inv_from data (mk_gt [] ∅ 0) []). done. Qed.

Lemma all_sentences_length data :
  Forall (fun it => length (sentences it) = 5) data ->
  length (all_sentences data) = 5 * length data.
Proof.
  unfold all_sentences. induction 1 as [|it data Hit _ IH]; simpl; [done|].
  rewrite length_app, Hit, IH. lia.
Qed.

Lemma all_sentences_lookup data m :
  Forall (fun it => length (sentences it) = 5) data ->
  m < 5 * length data ->
  exists it s, data !! (m / 5) = Some it /\ sentences it !! (m mod 5) = Some s /\
               all_sentences data !! m = Some s.
Proof.
  unfold all_sentences. intros H. revert m.
  induction H as [|it data Hit _ IH]; cbn [map concat length]; intros m Hm; [lia|].
  destruct (decide (m < 5)) as [Hlt|Hge].
  - destruct (lookup_lt_is_Some_2 (sentences it) m) as [s Hs]; [lia|].
    exists it, s. rewrite Nat.div_small, Nat.mod_small by done.
    split_and!; [done | done |]. by rewrite lookup_app_l by lia.
  - destruct (IH (m - 5)) as (it' & s & Hd & Hs & Ha); [lia|].
    exists it', s.
    replace (m / 5) with (S ((m - 5) / 5)) by lia.
    replace (m mod 5) with ((m - 5) mod 5) by lia.
    split_and!; [done | done |].
    rewrite lookup_app_r by lia. by rewrite Hit.
Qed.

Lemma flat_map_seq_lookup s n m :
  m < 5 * n ->
  flat_map (fun j => map (fun i : nat => j) (seq 0 5)) (seq s n) !! m = Some (s + m / 5).
Proof.
  revert s m. induction n as [|n IH]; intros s m Hm; [lia|].
  cbn [seq flat_map]. destruct (decide (m < 5)) as [Hlt|Hge].
  - rewrite lookup_app_l by (simpl; lia).
    rewrite Nat.div_small, Nat.add_0_r by done.
    do 5 (destruct m as [|m]; [done|]). lia.
  - rewrite lookup_app_r by (simpl; lia). cbn [map seq length].
    rewrite IH by lia. f_equal. lia.
Qed.

Lemma flat_map_seq_length s n :
  length (flat_map (fun j => map (fun i : nat => j) (seq 0 5)) (seq s n)) = 5 * n.
Proof.
  revert s. induction n as [|n IH]; intros s; [done|].
  cbn [seq flat_map]. rewrite length_app, IH. simpl. lia.
Qed.

Lemma image_labels_seq data : image_labels data = seq 1 (length data).
Proof. unfold image_labels. apply map_id. Qed.

Lemma text_labels_lookup data m :
  m < 5 * length data -> text_labels data !! m = Some (m / 5 + 1).
Proof.
  intros Hm. unfold text_labels. rewrite flat_map_seq_lookup by done. f_equal. lia.
Qed.

(** C6. When each of the first [num_samples] entries of the annotation has
    five sentences, the image labels are 1..len(data), the sentence
    dictionary has 5*len(data) entries, and the text labels are 5*len(data)
    labels of which entry [m] is [m / 5 + 1]; the sentence stored under key
    [m] is a caption of entry [m / 5] of the data, the image of that
    label. *)
Theorem ground_truth_five_sentences (file : list item) :
  Forall (fun it => length (sentences it) = 5) (take num_samples file) ->
  let data := take num_samples file in
  image_labels data = seq 1 (length data) /\
  size (dict_sentences (ground_truth data)) = 5 * length data /\
  length (text_labels data) = 5 * length data /\
  (forall m, m < 5 * length data -> text_labels data !! m = Some (m / 5 + 1)) /\
  (forall m, m < 5 * length data ->
     exists it s, data !! (m / 5) = Some it /\ sentences it !! (m mod 5) = Some s /\
                  dict_sentences (ground_truth data) !! m = Some (raw s)).
Proof.
  intros H data. fold data in H.
  destruct (ground_truth_inv data) as [Hd Hc].
  split_and!.
  - apply image_labels_seq.
  - by rewrite Hd, map_seq_size, length_fmap, all_sentences_length.
  - apply flat_map_seq_length.
  - apply text_labels_lookup.
  - intros m Hm. destruct (all_sentences_lookup data m H Hm) as (it & s & ? & ? & Hs).
    exists it, s. split_and!; [done | done |].
    by rewrite Hd, lookup_map_seq_0, list_lookup_fmap, Hs.
Qed.

Lemma ground_truth_five_sentences_witness :
  let data := take num_samples (toy_data 3) in
  image_labels data = seq 1 (length data) /\
  size (dict_sentences (ground_truth data)) = 5 * length data /\
  length (text_labels data) = 5 * length data /\
  (forall m, m < 5 * length data -> text_labels data !! m = Some (m / 5 + 1)) /\
  (forall m, m < 5 * length data ->
     exists it s, data !! (m / 5) = Some it /\ sentences it !! (m mod 5) = Some s /\
                  dict_sentences (ground_truth data) !! m = Some (raw s)).
Proof.
  apply (ground_truth_five_sentences (toy_data 3)).
  vm_compute. repeat constructor.
Defined.

(** ** The flat index *)

Section FaissFacts.
Context {F : Type}.
Variable l2sqr : list F -> list F -> F.
Variable fle : F -> F -> bool.

Lemma insert_by_distance_perm q c l :
  insert_by_distance l2sqr fle q c l ≡ₚ c :: l.
Proof.
  induction l as [|c' l IH]; simpl; [done|].
  destruct (fle _ _); [done|].
  rewrite IH. apply Permutation_swap.
Qed.

Lemma ranked_perm (ix : index F) q :
  ranked l2sqr fle ix q ≡ₚ zip (seq 0 (ntotal ix)) (index_xb ix).
Proof.
  unfold ranked. induction (zip _ _) as [|c l IH]; simpl; [done|].
  by rewrite insert_by_distance_perm, IH.
Qed.

Lemma ranked_positions (ix : index F) q :
  map fst (ranked l2sqr fle ix q) ≡ₚ seq 0 (ntotal ix).
Proof.
  rewrite ranked_perm. unfold ntotal.
  change (map fst ?l) with (l.*1). rewrite fst_zip; [done|].
  by rewrite length_seq.
Qed.

Lemma search_one_length (ix : index F) k q :
  length (search_one l2sqr fle ix k q) = k.
Proof.
  unfold search_one. rewrite length_app, length_replicate, length_take. lia.
Qed.

(** When the index holds at least [k] vectors, each label of a query is the
    position of a stored vector, and no position is returned twice. *)
Lemma search_one_valid (ix : index F) k q :
  k <= ntotal ix ->
  Forall (fun i => (0 <= i < Z.of_nat (ntotal ix))%Z) (search_one l2sqr fle ix k q) /\
  NoDup (search_one l2sqr fle ix k q).
Proof.
  intros Hk. unfold search_one.
  assert (Hlen : length (map (fun c : nat * list F => Z.of_nat (fst c))
                             (ranked l2sqr fle ix q)) = ntotal ix).
  { rewrite length_map, <- (length_map fst), ranked_positions. apply length_seq. }
  rewrite length_take, Hlen, Nat.min_l, Nat.sub_diag by done. simpl.
  rewrite app_nil_r.
  assert (Hmap : map (fun c : nat * list F => Z.of_nat (fst c)) (ranked l2sqr fle ix q)
                 ≡ₚ map Z.of_nat (seq 0 (ntotal ix))).
  { rewrite <- ranked_positions, map_map. done. }
  split.
  - apply Forall_take. rewrite Hmap. apply Forall_forall. intros i Hi.
    apply list_elem_of_fmap in Hi as (j & -> & Hj).
    apply elem_of_seq in Hj. lia.
  - eapply sublist_NoDup; [|apply sublist_take]. rewrite Hmap.
    apply (NoDup_fmap_2 Z.of_nat). apply NoDup_seq.
Qed.
End FaissFacts.

(** ** The search of the evaluation script *)

Lemma knn_k_le_num_samples : knn_k <= num_samples.
Proof. unfold knn_k, num_samples. lia. Qed.

Section SearchFacts.
Context {F M : Type}.
Variable zero : F.
Variable cuda : bool.
Variable get_embedding_pair : M -> tensor2 F -> tensor2 F -> result (ndarray F * ndarray F).
Variable float32 : F -> F.
Variable l2sqr : list F -> list F -> F.
Variable fle : F -> F -> bool.

(** The search on arrays of the same column count: the index holds exactly
    the image rows, and there is one row of labels for each text row. *)
Lemma search_spec (img txt : ndarray F) :
  shape1 txt = shape1 img ->
  let ix := mk_index (shape1 img) (rows (Evaluation.np_float32 float32 img)) in
  Evaluation.search float32 l2sqr fle img txt =
    Ok (ix, map (search_one l2sqr fle ix knn_k) (rows (Evaluation.np_float32 float32 txt))).
Proof.
  intros Hs ix. unfold Evaluation.search, IndexFlatL2, index_add, index_search.
  cbn [shape1 Evaluation.np_float32 index_d index_xb app].
  rewrite Nat.eqb_refl. cbn [mbind result_bind index_d].
  rewrite Hs, Nat.eqb_refl. done.
Qed.

(** C2. On the arrays [extract_embeddings] returns, the script builds a flat
    L2 index that holds exactly the image embeddings (converted to float32)
    and searches it once with all the text embeddings at [k = 5]; the search
    returns one row for each text embedding, each row has exactly [k]
    labels, and each label is a 0-based position of an indexed image
    embedding. *)
Theorem search_returns_k_valid_indices dataloader model img txt :
  extract_embeddings zero cuda get_embedding_pair dataloader model Evaluation.out_size
    Evaluation.model_id num_samples = Ok (img, txt) ->
  exists ix labels,
    Evaluation.search float32 l2sqr fle img txt = Ok (ix, labels) /\
    index_xb ix = rows (Evaluation.np_float32 float32 img) /\
    ntotal ix = num_samples /\
    knn_k = 5 /\
    length labels = shape0 txt /\
    Forall (fun row => length row = knn_k /\
                       Forall (fun i => (0 <= i < Z.of_nat (ntotal ix))%Z) row) labels.
Proof.
  intros H. apply extract_embeddings_shape in H as [(Hi1 & Hi0 & _) (Ht1 & Ht0 & _)].
  eexists _, _. split; [apply search_spec; congruence|].
  assert (Hn : ntotal (mk_index (shape1 img) (rows (Evaluation.np_float32 float32 img)))
               = num_samples).
  { unfold ntotal. cbn [index_xb Evaluation.np_float32 rows].
    rewrite length_map. exact Hi0. }
  split_and!; [done | exact Hn | done | |].
  - unfold shape0. cbn [Evaluation.np_float32 rows]. by rewrite !length_map.
  - apply Forall_forall. intros row Hrow.
    apply list_elem_of_fmap in Hrow as (q & -> & _). split.
    + apply search_one_length.
    + apply search_one_valid. rewrite Hn. apply knn_k_le_num_samples.
Qed.
End SearchFacts.

Lemma search_returns_k_valid_indices_witness :
  exists ix labels,
    Evaluation.search (fun x : Z => x) (fun _ _ => 0%Z) Z.leb
      (np_zeros 0%Z num_samples 1024) (np_zeros 0%Z (num_samples * 5) 1024)
      = Ok (ix, labels) /\
    ntotal ix = num_samples /\
    Forall (fun row => length row = 5 /\
                       Forall (fun i => (0 <= i < Z.of_nat (ntotal ix))%Z) row) labels.
Proof.
  destruct (search_returns_k_valid_indices 0%Z true (constant_encoder 1024)
              (fun x : Z => x) (fun _ _ => 0%Z) Z.leb [] tt
              (np_zeros 0%Z num_samples 1024) (np_zeros 0%Z (num_samples * 5) 1024))
    as (ix & labels & Hs & _ & Hn & _ & _ & Hv).
  - reflexivity.
  - exists ix, labels. split; [exact Hs|]. split; [exact Hn|]. exact Hv.
Defined.

(** ** Labels and positions *)

Lemma py_index_nat {A : Type} (l : list A) (i : nat) x :
  l !! i = Some x -> py_index l (Z.of_nat i) = Ok x.
Proof.
  intros H. unfold py_index.
  destruct (Z.ltb_spec (Z.of_nat i) 0) as [?|_]; [lia|].
  destruct (Z.ltb_spec (Z.of_nat i) 0) as [?|_]; [lia|].
  by rewrite Nat2Z.id, H.
Qed.

Lemma image_labels_lookup data i :
  i < length data -> image_labels data !! i = Some (i + 1).
Proof.
  intros H. rewrite image_labels_seq. rewrite lookup_seq_lt by done. f_equal. lia.
Qed.

Lemma dict_set_keys {V : Type} (d : list (string * V)) key v :
  dict_keys (dict_set d key v) =
    if bool_decide (key ∈ dict_keys d) then dict_keys d else dict_keys d ++ [key].
Proof.
  unfold dict_keys. induction d as [|[key' v'] d IH]; cbn [dict_set map fst].
  - rewrite bool_decide_eq_false_2 by apply not_elem_of_nil. done.
  - destruct (decide (key' = key)) as [->|Hne]; cbn [map fst].
    + rewrite bool_decide_eq_true_2 by apply list_elem_of_here. done.
    + rewrite IH. destruct (decide (key ∈ map fst d)) as [Hin|Hin].
      * rewrite !bool_decide_eq_true_2; [done | by apply list_elem_of_further | done].
      * rewrite !bool_decide_eq_false_2; [done | | done].
        intros [?|?]%elem_of_cons; congruence.
Qed.

Lemma add_sentences_gt ss st : gt (foldl add_sentence st ss) = gt st.
Proof. revert st. induction ss as [|s ss IH]; intros st; simpl; [done|]. by rewrite IH. Qed.

(** With file names that differ, the keys of the ground truth are the file
    names of the data in order. *)
Lemma ground_truth_keys_from data st :
  NoDup (dict_keys (gt st) ++ map filename data) ->
  dict_keys (gt (foldl add_item st data)) = dict_keys (gt st) ++ map filename data.
Proof.
  revert st. induction data as [|it data IH]; intros st Hnd; simpl.
  - by rewrite app_nil_r.
  - assert (Hk : dict_keys (gt (add_item st it)) = dict_keys (gt st) ++ [filename it]).
    { unfold add_item. rewrite add_sentences_gt. simpl. rewrite dict_set_keys.
      rewrite bool_decide_eq_false_2; [done|].
      simpl in Hnd. apply NoDup_app in Hnd as (_ & Hnd & _).
      intros Hin. apply (Hnd _ Hin). apply list_elem_of_here. }
    rewrite IH; rewrite Hk, <- app_assoc; [done|]. exact Hnd.
Qed.

Lemma ground_truth_keys data :
  NoDup (map filename data) ->
  dict_keys (gt (ground_truth data)) = map filename data.
Proof. intros H. by apply (ground_truth_keys_from data (mk_gt [] ∅ 0)). Qed.

(** C9 as stated fails when a file name is repeated: the ground truth then
    has fewer keys than the annotation has entries, the key found for the
    label of entry 1 is the file of entry 2, and the lookup for the label of
    entry 2 raises. *)
Lemma repeated_file_name_breaks_round_trip :
  py_index (image_labels repeated_names) 1 = Ok 2 /\
  filename <$> repeated_names !! 1 = Some "a.jpg" /\
  py_index (dict_keys (gt (ground_truth repeated_names))) (Z.of_nat 2 - 1) = Ok "b.jpg" /\
  py_index (image_labels repeated_names) 2 = Ok 3 /\
  py_index (dict_keys (gt (ground_truth repeated_names))) (Z.of_nat 3 - 1)
    = Raise IndexError.
Proof. split_and!; vm_compute; reflexivity. Qed.

(** C9, amended. When the file names of the annotation are pairwise
    distinct, for a position [i] of the indexed image set the predicted
    label [image_labels[i]] is [i + 1]; the key of the ground truth at
    position [L - 1], for [L = i + 1], is the file name of entry [i], the
    same key the display loop reads at the retrieved position [i]; and the
    label of position [L - 1] is [L] again. *)
Theorem index_label_round_trip (data : list item) (i : nat) :
  NoDup (map filename data) ->
  i < length data ->
  exists it,
    data !! i = Some it /\
    py_index (image_labels data) (Z.of_nat i) = Ok (i + 1) /\
    py_index (dict_keys (gt (ground_truth data))) (Z.of_nat (i + 1) - 1)
      = Ok (filename it) /\
    py_index (dict_keys (gt (ground_truth data))) (Z.of_nat i) = Ok (filename it) /\
    py_index (image_labels data) (Z.of_nat (i + 1) - 1) = Ok (i + 1).
Proof.
  intros Hnd Hi. destruct (lookup_lt_is_Some_2 data i Hi) as [it Hit].
  exists it. assert (Hz : (Z.of_nat (i + 1) - 1)%Z = Z.of_nat i) by lia.
  rewrite Hz, (ground_truth_keys data Hnd).
  assert (Hl : py_index (image_labels data) (Z.of_nat i) = Ok (i + 1))
    by (apply py_index_nat; by apply image_labels_lookup).
  assert (Hk : py_index (map filename data) (Z.of_nat i) = Ok (filename it)).
  { apply py_index_nat. change (map filename data) with (filename <$> data).
    by rewrite list_lookup_fmap, Hit. }
  done.
Qed.

Lemma index_label_round_trip_witness :
  exists it,
    toy_data 3 !! 1 = Some it /\
    py_index (image_labels (toy_data 3)) (Z.of_nat 1) = Ok (1 + 1) /\
    py_index (dict_keys (gt (ground_truth (toy_data 3)))) (Z.of_nat (1 + 1) - 1)
      = Ok (filename it) /\
    filename it = "1.jpg".
Proof.
  destruct (index_label_round_trip (toy_data 3) 1) as (it & Hit & H1 & H2 & _).
  - apply (bool_decide_unpack _). vm_compute. reflexivity.
  - vm_compute. lia.
  - exists it. split; [exact Hit|]. split; [exact H1|]. split; [exact H2|].
    vm_compute in Hit. by injection Hit as <-.
Defined.

(** ** Files and checkpoints *)

Section FileFacts.
Context {F M O : Type}.
Implicit Type fs : gmap string (file F M O).

Lemma path_exists_None fs p : fs !! p = None -> path_exists fs p = false.
Proof.
  intros H. unfold path_exists. rewrite H.
  apply bool_decide_eq_false_2. by intros [? ?].
Qed.

Lemma path_exists_Some fs p f : fs !! p = Some f -> path_exists fs p = true.
Proof.
  intros H. unfold path_exists. rewrite H.
  apply bool_decide_eq_true_2. by exists f.
Qed.

Lemma make_output_dir_lookup fs p :
  p ≠ Training.OUTPUT_MODEL_DIR -> Training.make_output_dir fs !! p = fs !! p.
Proof.
  intros Hp. unfold Training.make_output_dir.
  destruct (negb _); [|done]. by rewrite lookup_insert_ne.
Qed.
End FileFacts.

Lemma training_checkpoint_path :
  Training.CHECKPOINT = "./models/TextToImage_Resnet_BERT_textagg_out_size_1000.pth".
Proof. vm_compute. reflexivity. Qed.

Lemma evaluation_checkpoint_path :
  Evaluation.CHECKPOINT = "models/TextToImage_FasterRCNN_mean_textagg_out_size_4096.pth".
Proof. vm_compute. reflexivity. Qed.

Lemma training_paths_not_output_dir :
  Training.CHECKPOINT ≠ Training.OUTPUT_MODEL_DIR /\
  Training.TRAIN_TEXT_EMB ≠ Training.OUTPUT_MODEL_DIR /\
  Training.TEST_TEXT_EMB ≠ Training.OUTPUT_MODEL_DIR.
Proof. split_and!; vm_compute; discriminate. Qed.

Section TrainingFacts.
Context {F M O : Type}.
Variable cuda : bool.
Variable fresh_model : M.
Variable fresh_optimizer : O.
Implicit Type fs : gmap string (file F M O).

Lemma resume_spec fs :
  Training.resume fresh_model fresh_optimizer fs =
    match fs !! Training.CHECKPOINT with
    | Some (CheckpointFile c) => Ok (model_state_dict c, optimizer c, epoch c)
    | Some _ => Raise (UnpicklingError Training.CHECKPOINT)
    | None => Ok (fresh_model, fresh_optimizer, 0)
    end.
Proof.
  unfold Training.resume. destruct (fs !! Training.CHECKPOINT) as [f|] eqn:E.
  - rewrite (path_exists_Some _ _ _ E). unfold torch_load. rewrite E.
    by destruct f.
  - by rewrite (path_exists_None _ _ E).
Qed.

(** C4. With the two feature files in place, the training script reads
    [./models/<model_id>.pth] when it exists: a checkpoint there gives the
    model state, the optimizer state and the epoch that [fit] is called
    with; when there is no file at that path, [fit] is called with the
    freshly constructed model and optimizer and with [start_epoch = 0]. *)
Theorem training_resumes_from_checkpoint fs train test :
  fs !! Training.TRAIN_TEXT_EMB = Some (TextFeatures train) ->
  fs !! Training.TEST_TEXT_EMB = Some (TextFeatures test) ->
  match fs !! Training.CHECKPOINT with
  | Some (CheckpointFile c) =>
      Training.main cuda fresh_model fresh_optimizer fs =
        Ok (Training.make_output_dir fs,
            mk_fit_call train test (model_state_dict c) (optimizer c) 20 cuda 5
              Training.model_id (epoch c))
  | Some _ => aborts (Training.main cuda fresh_model fresh_optimizer fs)
  | None =>
      Training.main cuda fresh_model fresh_optimizer fs =
        Ok (Training.make_output_dir fs,
            mk_fit_call train test fresh_model fresh_optimizer 20 cuda 5
              Training.model_id 0)
  end.
Proof.
  intros Htr Hte. destruct training_paths_not_output_dir as (Hc & Ht1 & Ht2).
  unfold Training.main, Flickr30kEndToEnd, load_text_features.
  rewrite !make_output_dir_lookup, Htr, Hte by done.
  cbn [mbind result_bind]. rewrite resume_spec, make_output_dir_lookup by done.
  destruct (fs !! Training.CHECKPOINT) as [[]|]; try done;
    by eexists.
Qed.
End TrainingFacts.

Lemma training_resumes_from_checkpoint_witness :
  Training.main true 0 0 training_inputs_resumed =
    Ok (Training.make_output_dir training_inputs_resumed,
        mk_fit_call [] [] 41 42 20 true 5 Training.model_id 7).
Proof.
  apply (training_resumes_from_checkpoint true 0 0 training_inputs_resumed [] []).
  - vm_compute. reflexivity.
  - vm_compute. reflexivity.
Defined.

(** C3 as stated fails for the model checkpoint: with the checkpoint file
    missing the training script does not abort; it makes the output
    directory and goes on to call [fit] with the model and optimizer as
    constructed, from epoch 0. *)
Lemma missing_checkpoint_training_continues :
  training_inputs !! Training.CHECKPOINT = None /\
  Training.main true 0 0 training_inputs =
    Ok (<[Training.OUTPUT_MODEL_DIR := Directory]> training_inputs,
        mk_fit_call [] [] 0 0 20 true 5 Training.model_id 0).
Proof. split; vm_compute; reflexivity. Qed.

(** ** Retrieved positions and predicted labels *)

Lemma py_index_raises {A : Type} (l : list A) i e :
  py_index l i = Raise e -> e = IndexError.
Proof.
  unfold py_index. destruct (_ <? 0)%Z; [by intros [= <-]|].
  destruct (l !! _); [done | by intros [= <-]].
Qed.

Lemma py_index_out_of_range {A : Type} (l : list A) i :
  (Z.of_nat (length l) <= i \/ i < - Z.of_nat (length l))%Z ->
  py_index l i = Raise IndexError.
Proof.
  intros Hi. unfold py_index.
  destruct (Z.ltb_spec i 0) as [Hneg|Hpos].
  - destruct (Z.ltb_spec (Z.of_nat (length l) + i) 0) as [_|?]; [done | lia].
  - destruct (Z.ltb_spec i 0) as [?|_]; [lia|].
    rewrite lookup_ge_None_2; [done | lia].
Qed.

Lemma row_labels_valid (labels : list nat) (f : Z -> nat) row : forall acc,
  Forall (fun i => py_index labels i = Ok (f i)) row ->
  for_each (fun r i => x ← py_index labels i; Ok (r ++ [x])) row acc = Ok (acc ++ map f row).
Proof.
  induction row as [|i row IH]; intros acc H; cbn [for_each map].
  - by rewrite app_nil_r.
  - inversion H as [|? ? Hi Hrow]; subst. rewrite Hi. cbn [mbind result_bind].
    rewrite IH by done. by rewrite <- app_assoc.
Qed.

Lemma row_labels_invalid (labels : list nat) row : forall acc,
  Exists (fun i => (Z.of_nat (length labels) <= i \/ i < - Z.of_nat (length labels))%Z) row ->
  for_each (fun r i => x ← py_index labels i; Ok (r ++ [x])) row acc = Raise IndexError.
Proof.
  induction row as [|i row IH]; intros acc H; [by apply Exists_nil in H|].
  cbn [for_each]. apply Exists_cons in H as [Hi|Hrow].
  - by rewrite py_index_out_of_range.
  - destruct (py_index labels i) as [x|e] eqn:E; cbn [mbind result_bind].
    + by apply IH.
    + by rewrite (py_index_raises _ _ _ E).
Qed.

Local Abbreviation convert_row labels :=
  (fun (row : list nat) (i : Z) => x ← py_index labels i; Ok (row ++ [x])).
Local Abbreviation convert_rows labels :=
  (fun (acc : list (list nat)) (k_predictions : list Z) =>
     k_labels_pred ← for_each (convert_row labels) k_predictions [];
     Ok (acc ++ [k_labels_pred])).

Lemma convert_row_raises (labels : list nat) row e : forall acc,
  for_each (convert_row labels) row acc = Raise e -> e = IndexError.
Proof.
  induction row as [|i row IH]; intros acc; cbn [for_each]; [done|].
  destruct (py_index labels i) as [x|e'] eqn:Ei; cbn [mbind result_bind].
  - apply IH.
  - intros [= <-]. by eapply py_index_raises.
Qed.

Lemma convert_rows_raises (labels : list nat) found e : forall acc,
  for_each (convert_rows labels) found acc = Raise e -> e = IndexError.
Proof.
  induction found as [|row found IH]; intros acc; cbn [for_each]; [done|].
  destruct (for_each (convert_row labels) row []) as [r|e'] eqn:E; cbn [mbind result_bind].
  - apply IH.
  - intros [= <-]. by eapply convert_row_raises.
Qed.

Lemma convert_rows_valid (labels : list nat) (f : Z -> nat) found : forall acc,
  Forall (Forall (fun i => py_index labels i = Ok (f i))) found ->
  for_each (convert_rows labels) found acc = Ok (acc ++ map (map f) found).
Proof.
  induction found as [|row found IH]; intros acc H; cbn [for_each map].
  - by rewrite app_nil_r.
  - inversion H as [|? ? Hrow Hfound]; subst.
    rewrite (row_labels_valid labels f row [] Hrow). cbn [mbind result_bind app].
    rewrite IH by done. by rewrite <- app_assoc.
Qed.

Lemma convert_rows_invalid (labels : list nat) found : forall acc,
  Exists (Exists (fun i => (Z.of_nat (length labels) <= i \/
                            i < - Z.of_nat (length labels))%Z)) found ->
  for_each (convert_rows labels) found acc = Raise IndexError.
Proof.
  induction found as [|row found IH]; intros acc H; [by apply Exists_nil in H|].
  cbn [for_each]. apply Exists_cons in H as [Hrow|Hfound].
  - by rewrite row_labels_invalid.
  - destruct (for_each (convert_row labels) row []) as [r|e] eqn:E;
      cbn [mbind result_bind].
    + by apply IH.
    + by rewrite (convert_row_raises _ _ _ _ E).
Qed.

Lemma labels_in_range (data : list item) (found : list (list Z)) :
  Forall (Forall (fun i => (0 <= i < Z.of_nat (length data))%Z)) found ->
  labels_pred (image_labels data) found =
    Ok (map (map (fun i => Z.to_nat i + 1)) found).
Proof.
  intros H. unfold labels_pred.
  rewrite (convert_rows_valid _ (fun i => Z.to_nat i + 1)); [done|].
  eapply Forall_impl; [exact H|]. intros row Hrow. cbn beta.
  eapply Forall_impl; [exact Hrow|]. intros i Hi. cbn beta in Hi |- *.
  assert (Hid : Z.of_nat (Z.to_nat i) = i) by lia.
  rewrite <- Hid at 1. apply py_index_nat, image_labels_lookup. lia.
Qed.

Lemma predicted_labels_out_of_range (labels : list nat) (found : list (list Z)) :
  Exists (Exists (fun i => (Z.of_nat (length labels) <= i \/
                            i < - Z.of_nat (length labels))%Z)) found ->
  labels_pred labels found = Raise IndexError.
Proof. intros H. unfold labels_pred. by apply convert_rows_invalid. Qed.

(** ** The evaluation script, step by step *)

Lemma for_list_Forall2 {X Y : Type} (f : X -> result Y) xs ys :
  for_list f xs = Ok ys -> Forall2 (fun x y => f x = Ok y) xs ys.
Proof.
  revert ys. induction xs as [|x xs IH]; simpl; intros ys.
  - intros [= <-]. constructor.
  - destruct (f x) as [y|] eqn:Ey; [|done].
    destruct (for_list f xs) as [ys'|]; [|done].
    intros [= <-]. constructor; auto.
Qed.

Lemma imread_Ok {F M O : Type} (fs : gmap string (file F M O)) p u :
  imread fs p = Ok u -> fs !! p = Some Jpeg.
Proof. unfold imread. by destruct (fs !! p) as [[]|]. Qed.

Section EvaluationFacts.
Context {F M O : Type}.
Variable zero : F.
Variable cuda : bool.
Variable get_embedding_pair : M -> tensor2 F -> tensor2 F -> result (ndarray F * ndarray F).
Variable float32 : F -> F.
Variable l2sqr : list F -> list F -> F.
Variable fle : F -> F -> bool.
Variable fresh_model : M.
Variable random_choice : list nat -> nat -> result (list nat).
Implicit Type fs : gmap string (file F M O).

Local Abbreviation evaluate :=
  (Evaluation.evaluate zero cuda get_embedding_pair float32 l2sqr fle random_choice).
Local Abbreviation main :=
  (Evaluation.main zero cuda get_embedding_pair float32 l2sqr fle fresh_model random_choice).

(** The steps a run of [evaluate] that returns has gone through. *)
Lemma evaluate_Ok fs test_loader model out :
  evaluate fs test_loader model = Ok out ->
  exists file img txt found preds samples figures,
    let data := take num_samples file in
    json_load fs Evaluation.TEST_JSON = Ok file /\
    extract_embeddings zero cuda get_embedding_pair test_loader model Evaluation.out_size
      Evaluation.model_id num_samples = Ok (img, txt) /\
    Evaluation.search float32 l2sqr fle img txt = Ok found /\
    labels_pred (image_labels data) (snd found) = Ok preds /\
    random_choice (seq 0 (length data * 5)) 20 = Ok samples /\
    for_list (Evaluation.show_example fs (ground_truth data) (text_labels data) (snd found))
      samples = Ok figures /\
    out = mk_eval_out model data (fst found) (snd found)
            (map (fun i => [i]) (text_labels data)) preds
            (mapk (map (fun i => [i]) (text_labels data)) preds knn_k) figures.
Proof.
  unfold Evaluation.evaluate, Evaluation.quantitative, Evaluation.qualitative. intros H.
  apply bind_Ok in H as (q & Hq & H).
  apply bind_Ok in H as (figures & Hf & H).
  apply bind_Ok in Hq as (file & Hfile & Hq).
  apply bind_Ok in Hq as ([img txt] & Hex & Hq).
  apply bind_Ok in Hq as (found & Hs & Hq).
  apply bind_Ok in Hq as (preds & Hp & Hq).
  injection Hq as <-. cbn [q_model q_data q_index q_I q_t_labels q_labels_pred q_map_k] in *.
  apply bind_Ok in Hf as (samples & Hr & Hf).
  injection H as <-.
  by exists file, img, txt, found, preds, samples, figures.
Qed.

Lemma main_Ok fs out :
  main fs = Ok out ->
  exists imgs txts test_loader model,
    load_image_features fs Evaluation.TEST_IMG_EMB = Ok imgs /\
    load_text_features fs Evaluation.TEST_TEXT_EMB = Ok txts /\
    DataLoader (zip imgs txts) (length (zip imgs txts)) = Ok test_loader /\
    Evaluation.load_model fresh_model fs = Ok model /\
    evaluate fs test_loader model = Ok out.
Proof.
  unfold Evaluation.main, Evaluation.setup, Flickr30k. intros H.
  apply bind_Ok in H as ([test_loader model] & Hsetup & H).
  apply bind_Ok in Hsetup as (ds & Hds & Hsetup).
  apply bind_Ok in Hds as (imgs & Hi & Hds).
  apply bind_Ok in Hds as (txts & Ht & [= <-]).
  apply bind_Ok in Hsetup as (test_loader' & Hl & Hsetup).
  apply bind_Ok in Hsetup as (model' & Hm & [= -> ->]).
  by exists imgs, txts, test_loader, model.
Qed.

(** The files a figure names were all read. *)
Lemma show_example_files fs st text_labels labels sample fig name :
  Evaluation.show_example fs st text_labels labels sample = Ok fig ->
  name ∈ fig ->
  fs !! (Evaluation.IMAGES_DIR +:+ name) = Some Jpeg.
Proof.
  unfold Evaluation.show_example. intros H.
  apply bind_Ok in H as (query & _ & H).
  apply bind_Ok in H as (gt_image_id & _ & H).
  apply bind_Ok in H as (gt_image_filename & _ & H).
  apply bind_Ok in H as (u & Hgt & H).
  apply bind_Ok in H as (predictions & _ & H).
  apply bind_Ok in H as (shown & Hshown & [= <-]).
  intros [->|Hin]%elem_of_cons; [by eapply imread_Ok|].
  apply for_list_Forall2 in Hshown.
  clear -Hshown Hin. induction Hshown as [|pred y ps ys Hy _ IH]; [by apply elem_of_nil in Hin|].
  apply elem_of_cons in Hin as [->|Hin]; [|by apply IH].
  apply bind_Ok in Hy as (filename & _ & Hy).
  apply bind_Ok in Hy as (u & Hread & [= <-]).
  by eapply imread_Ok.
Qed.

Local Abbreviation quantitative :=
  (Evaluation.quantitative zero cuda get_embedding_pair float32 l2sqr fle).
Local Abbreviation main_scores :=
  (Evaluation.main_scores zero cuda get_embedding_pair float32 l2sqr fle fresh_model).

(** The steps a run that gets to the score has gone through. *)
Lemma quantitative_Ok fs test_loader model q :
  quantitative fs test_loader model = Ok q ->
  exists file img txt found,
    let data := take num_samples file in
    json_load fs Evaluation.TEST_JSON = Ok file /\
    extract_embeddings zero cuda get_embedding_pair test_loader model Evaluation.out_size
      Evaluation.model_id num_samples = Ok (img, txt) /\
    Evaluation.search float32 l2sqr fle img txt = Ok found /\
    labels_pred (image_labels data) (snd found) = Ok (q_labels_pred q) /\
    q = mk_eval_scores model data (fst found) (snd found)
          (map (fun i => [i]) (text_labels data)) (q_labels_pred q)
          (mapk (map (fun i => [i]) (text_labels data)) (q_labels_pred q) knn_k).
Proof.
  unfold Evaluation.quantitative. intros H.
  apply bind_Ok in H as (file & Hfile & H).
  apply bind_Ok in H as ([img txt] & Hex & H).
  apply bind_Ok in H as (found & Hs & H).
  apply bind_Ok in H as (preds & Hp & H).
  injection H as <-. cbn [q_labels_pred].
  by exists file, img, txt, found.
Qed.

Lemma main_scores_Ok fs q :
  main_scores fs = Ok q ->
  exists test_loader model,
    Evaluation.setup fresh_model fs = Ok (test_loader, model) /\
    quantitative fs test_loader model = Ok q.
Proof.
  unfold Evaluation.main_scores. intros H.
  apply bind_Ok in H as ([test_loader model] & Hsetup & H).
  by exists test_loader, model.
Qed.

(** A run that returns has been through the score. *)
Lemma main_reaches_scores fs out :
  main fs = Ok out ->
  exists q,
    main_scores fs = Ok q /\
    q_model q = eo_model out /\ q_data q = eo_data out /\ q_index q = eo_index out /\
    q_I q = eo_I out /\ q_t_labels q = eo_t_labels out /\
    q_labels_pred q = eo_labels_pred out /\ q_map_k q = eo_map_k out.
Proof.
  unfold Evaluation.main, Evaluation.main_scores, Evaluation.evaluate. intros H.
  apply bind_Ok in H as ([test_loader model] & -> & H).
  cbn [mbind result_bind].
  apply bind_Ok in H as (q & -> & H).
  apply bind_Ok in H as (figures & _ & [= <-]).
  exists q. by cbn.
Qed.

(** The run up to the score reads the two feature files, the checkpoint
    and the annotation, and nothing else of the file system. *)
Lemma main_scores_reads fs fs' :
  fs !! Evaluation.TEST_IMG_EMB = fs' !! Evaluation.TEST_IMG_EMB ->
  fs !! Evaluation.TEST_TEXT_EMB = fs' !! Evaluation.TEST_TEXT_EMB ->
  fs !! Evaluation.CHECKPOINT = fs' !! Evaluation.CHECKPOINT ->
  fs !! Evaluation.TEST_JSON = fs' !! Evaluation.TEST_JSON ->
  main_scores fs = main_scores fs'.
Proof.
  intros Himg Htxt Hck Hjson.
  unfold Evaluation.main_scores, Evaluation.setup, Flickr30k, load_image_features,
    load_text_features, Evaluation.load_model, path_exists, torch_load,
    Evaluation.quantitative, json_load.
  by rewrite Himg, Htxt, Hck, Hjson.
Qed.

(** The positions a run has retrieved when it gets to the score: one row of
    [k] positions of the index for each text embedding, all of them
    positions of the annotation since their conversion went through, and
    the predicted labels are these positions plus one. *)
Lemma scores_positions fs test_loader model q :
  quantitative fs test_loader model = Ok q ->
  length (q_I q) = num_samples * 5 /\
  Forall (fun row => length row = knn_k) (q_I q) /\
  Forall (Forall (fun i => (0 <= i < Z.of_nat (length (q_data q)))%Z)) (q_I q) /\
  q_labels_pred q = map (map (fun i => Z.to_nat i + 1)) (q_I q).
Proof.
  intros H. apply quantitative_Ok in H as (file & img & txt & found & H).
  destruct H as (_ & Hex & Hs & Hp & ->). cbn [q_I q_data q_labels_pred] in *.
  apply extract_embeddings_shape in Hex as [(Hi1 & Hi0 & _) (Ht1 & Ht0 & _)].
  rewrite search_spec in Hs by congruence. injection Hs as <-. cbn [snd] in *.
  set (ix := mk_index _ _) in *.
  assert (Hix : ntotal ix = num_samples).
  { unfold ntotal, ix. cbn [index_xb Evaluation.np_float32 rows].
    rewrite length_map. exact Hi0. }
  set (found := map (search_one l2sqr fle ix knn_k) _) in *.
  assert (Hrows : forall row, row ∈ found ->
            length row = knn_k /\ Forall (fun i => (0 <= i < Z.of_nat num_samples)%Z) row).
  { intros row (qv & -> & _)%list_elem_of_fmap. split; [apply search_one_length|].
    rewrite <- Hix. apply search_one_valid. rewrite Hix. apply knn_k_le_num_samples. }
  assert (Hvalid : Forall (Forall (fun i =>
            (0 <= i < Z.of_nat (length (take num_samples file)))%Z)) found).
  { apply Forall_forall. intros row Hrow. apply Forall_forall. intros i Hi.
    destruct (Hrows row Hrow) as [_ Hv]. rewrite Forall_forall in Hv.
    pose proof (Hv i Hi) as Hpos. split; [lia|].
    destruct (decide (i < Z.of_nat (length (take num_samples file)))%Z) as [|Hge]; [done|].
    exfalso. rewrite predicted_labels_out_of_range in Hp; [done|].
    apply Exists_exists. exists row. split; [done|].
    apply Exists_exists. exists i. split; [done|].
    left. rewrite image_labels_seq, length_seq. lia. }
  split_and!.
  - unfold found. cbn [Evaluation.np_float32 rows]. rewrite !length_map. exact Ht0.
  - apply Forall_forall. intros row Hrow. by apply Hrows.
  - exact Hvalid.
  - rewrite labels_in_range in Hp by done. congruence.
Qed.

(** C7. When the evaluation script gets to the score it prints, it has
    computed it with [mapk] at [k = 5] on the first [num_samples = 1000]
    entries of the annotation, in file order.  The ground truth passed for
    text query [m] is the one-element list holding [m / 5 + 1], the label of
    the image its caption belongs to.  The predictions passed are, for each
    of the [5 * num_samples] text embeddings extracted from the one batch of
    the loader, the labels [i + 1] of the [k] positions [i] the index built
    on the image embeddings returned for it, each a position of the
    annotation.  With an annotation of at least [num_samples] entries the
    two lists have the same length, so every text query is scored against
    its one label. *)
Theorem map_k_over_first_1000_items fs q :
  Evaluation.main_scores zero cuda get_embedding_pair float32 l2sqr fle fresh_model
    fs = Ok q ->
  exists file test_loader img txt,
    json_load fs Evaluation.TEST_JSON = Ok file /\
    q_data q = take num_samples file /\
    num_samples = 1000 /\
    q_map_k q = mapk (q_t_labels q) (q_labels_pred q) knn_k /\
    knn_k = 5 /\
    q_t_labels q = t_labels (q_data q) /\
    length (q_t_labels q) = 5 * length (q_data q) /\
    Forall (fun a => length a = 1) (q_t_labels q) /\
    (forall m, m < 5 * length (q_data q) -> q_t_labels q !! m = Some [m / 5 + 1]) /\
    Evaluation.setup fresh_model fs = Ok (test_loader, q_model q) /\
    extract_embeddings zero cuda get_embedding_pair test_loader (q_model q)
      Evaluation.out_size Evaluation.model_id num_samples = Ok (img, txt) /\
    Evaluation.search float32 l2sqr fle img txt = Ok (q_index q, q_I q) /\
    length (q_I q) = 5 * num_samples /\
    Forall (fun row => length row = knn_k) (q_I q) /\
    Forall (Forall (fun i => (0 <= i < Z.of_nat (length (q_data q)))%Z)) (q_I q) /\
    q_labels_pred q = map (map (fun i => Z.to_nat i + 1)) (q_I q) /\
    Forall (fun preds => length preds = knn_k) (q_labels_pred q) /\
    (num_samples <= length file ->
     length (q_t_labels q) = 5 * num_samples /\
     length (q_labels_pred q) = 5 * num_samples).
Proof.
  intros E. apply main_scores_Ok in E as (test_loader & model & Hsetup & E).
  destruct (scores_positions _ _ _ _ E) as (HlenI & Hk & Hvalid & Hpreds).
  apply quantitative_Ok in E as (file & img & txt & found & E).
  destruct E as (Hfile & Hex & Hs & _ & Hq).
  assert (Hd : q_data q = take num_samples file) by (by rewrite Hq).
  assert (Ht : q_t_labels q = t_labels (q_data q)) by (by rewrite Hq).
  assert (Hm : q_map_k q = mapk (q_t_labels q) (q_labels_pred q) knn_k)
    by (by rewrite Hq at 1 2).
  assert (Hmodel : q_model q = model) by (by rewrite Hq).
  assert (Hfound : found = (q_index q, q_I q)) by (rewrite Hq; by destruct found).
  assert (Hlen : length (q_t_labels q) = 5 * length (q_data q)).
  { rewrite Ht. unfold t_labels. rewrite length_map. apply flat_map_seq_length. }
  assert (HlenI' : length (q_I q) = 5 * num_samples) by lia.
  exists file, test_loader, img, txt. rewrite Hmodel, <- Hfound.
  split_and!; try done.
  - rewrite Ht. apply Forall_forall. intros a Ha.
    by apply list_elem_of_fmap in Ha as (i & -> & _).
  - intros m Hmlt. rewrite Ht. unfold t_labels.
    by rewrite list_lookup_fmap, text_labels_lookup.
  - rewrite Hpreds. apply Forall_forall. intros ps (row & -> & Hrow)%list_elem_of_fmap.
    rewrite length_map. rewrite Forall_forall in Hk. by apply Hk.
  - intros Hn. rewrite Hlen, Hd, length_take, Hpreds, length_map, HlenI. lia.
Qed.
End EvaluationFacts.

(** ** Missing files *)

Lemma for_list_raises {X Y : Type} (f : X -> result Y) pre x post e :
  Forall (fun x' => exists y, f x' = Ok y) pre ->
  f x = Raise e ->
  for_list f (pre ++ x :: post) = Raise e.
Proof.
  intros Hpre Hx. induction Hpre as [|x' pre [y Hy] _ IH]; cbn [app for_list].
  - by rewrite Hx.
  - by rewrite Hy, IH.
Qed.

Section MissingFiles.
Context {F M O : Type}.
Variable zero : F.
Variable cuda : bool.
Variable get_embedding_pair : M -> tensor2 F -> tensor2 F -> result (ndarray F * ndarray F).
Variable float32 : F -> F.
Variable l2sqr : list F -> list F -> F.
Variable fle : F -> F -> bool.
Variable fresh_model : M.
Variable fresh_optimizer : O.
Variable random_choice : list nat -> nat -> result (list nat).
Implicit Type fs : gmap string (file F M O).

Local Abbreviation eval_main :=
  (Evaluation.main zero cuda get_embedding_pair float32 l2sqr fle fresh_model random_choice).
Local Abbreviation eval_main_scores :=
  (Evaluation.main_scores zero cuda get_embedding_pair float32 l2sqr fle fresh_model).
Local Abbreviation train_main := (Training.main cuda fresh_model fresh_optimizer).

(** The evaluation script reads the image features first. *)
Lemma eval_main_image_features_missing fs :
  fs !! Evaluation.TEST_IMG_EMB = None ->
  eval_main fs = Raise (FileNotFoundError Evaluation.TEST_IMG_EMB).
Proof.
  intros Hnone.
  unfold Evaluation.main, Evaluation.setup, Flickr30k, load_image_features.
  by rewrite Hnone.
Qed.

Lemma eval_main_text_features_missing fs imgs :
  fs !! Evaluation.TEST_IMG_EMB = Some (ImageFeatures imgs) ->
  fs !! Evaluation.TEST_TEXT_EMB = None ->
  eval_main fs = Raise (FileNotFoundError Evaluation.TEST_TEXT_EMB).
Proof.
  intros Himg Hnone.
  unfold Evaluation.main, Evaluation.setup, Flickr30k, load_image_features,
    load_text_features.
  by rewrite Himg, Hnone.
Qed.

Lemma eval_main_annotation_missing fs test_loader model :
  Evaluation.setup fresh_model fs = Ok (test_loader, model) ->
  fs !! Evaluation.TEST_JSON = None ->
  eval_main fs = Raise (FileNotFoundError Evaluation.TEST_JSON).
Proof.
  intros Hsetup Hnone.
  unfold Evaluation.main. rewrite Hsetup. cbn [mbind result_bind].
  unfold Evaluation.evaluate, Evaluation.quantitative, json_load.
  by rewrite Hnone.
Qed.

(** What is left of [main] once the score is printed. *)
Lemma main_after_scores fs q :
  eval_main_scores fs = Ok q ->
  eval_main fs =
    (figures ← Evaluation.qualitative random_choice fs q;
     Ok (mk_eval_out (q_model q) (q_data q) (q_index q) (q_I q) (q_t_labels q)
           (q_labels_pred q) (q_map_k q) figures)).
Proof.
  unfold Evaluation.main, Evaluation.main_scores, Evaluation.evaluate.
  destruct (Evaluation.setup fresh_model fs) as [[test_loader model]|e]; [|done].
  cbn [mbind result_bind]. by intros ->.
Qed.

(** An exception of a figure, the figures before it shown, is the exception
    of the run. *)
Lemma main_figure_raises fs q pre sample post e :
  eval_main_scores fs = Ok q ->
  random_choice (seq 0 (length (q_data q) * 5)) 20 = Ok (pre ++ sample :: post) ->
  Forall (fun s => exists fig,
            Evaluation.show_example fs (ground_truth (q_data q)) (text_labels (q_data q))
              (q_I q) s = Ok fig) pre ->
  Evaluation.show_example fs (ground_truth (q_data q)) (text_labels (q_data q))
    (q_I q) sample = Raise e ->
  eval_main fs = Raise e.
Proof.
  intros Hq Hrand Hpre Hsample. rewrite (main_after_scores _ _ Hq).
  unfold Evaluation.qualitative. rewrite Hrand. cbn [mbind result_bind].
  by rewrite (for_list_raises _ _ _ _ _ Hpre Hsample).
Qed.

(** The image of the query's own item is read first. *)
Lemma show_example_ground_truth_missing fs st text_labels labels sample query gt_image_id
    gt_image_filename :
  dict_get (dict_sentences st) sample = Ok query ->
  py_index text_labels (Z.of_nat sample) = Ok gt_image_id ->
  py_index (dict_keys (gt st)) (Z.of_nat gt_image_id - 1)%Z = Ok gt_image_filename ->
  fs !! (Evaluation.IMAGES_DIR +:+ gt_image_filename) = None ->
  Evaluation.show_example fs st text_labels labels sample =
    Raise (FileNotFoundError (Evaluation.IMAGES_DIR +:+ gt_image_filename)).
Proof.
  intros Hquery Hid Hname Hnone. unfold Evaluation.show_example.
  rewrite Hquery. cbn [mbind result_bind]. rewrite Hid. cbn [mbind result_bind].
  rewrite Hname. cbn [mbind result_bind]. unfold imread. by rewrite Hnone.
Qed.

(** Then the retrieved images, in the order of the search. *)
Lemma show_example_retrieved_missing fs st text_labels labels sample query gt_image_id
    gt_image_filename pre pred post name :
  dict_get (dict_sentences st) sample = Ok query ->
  py_index text_labels (Z.of_nat sample) = Ok gt_image_id ->
  py_index (dict_keys (gt st)) (Z.of_nat gt_image_id - 1)%Z = Ok gt_image_filename ->
  fs !! (Evaluation.IMAGES_DIR +:+ gt_image_filename) = Some Jpeg ->
  py_index labels (Z.of_nat sample) = Ok (pre ++ pred :: post) ->
  Forall (fun p => exists shown,
            py_index (dict_keys (gt st)) p = Ok shown /\
            fs !! (Evaluation.IMAGES_DIR +:+ shown) = Some Jpeg) pre ->
  py_index (dict_keys (gt st)) pred = Ok name ->
  fs !! (Evaluation.IMAGES_DIR +:+ name) = None ->
  Evaluation.show_example fs st text_labels labels sample =
    Raise (FileNotFoundError (Evaluation.IMAGES_DIR +:+ name)).
Proof.
  intros Hquery Hid Hgt Hjpg Hpreds Hpre Hname Hnone. unfold Evaluation.show_example.
  rewrite Hquery. cbn [mbind result_bind]. rewrite Hid. cbn [mbind result_bind].
  rewrite Hgt. cbn [mbind result_bind]. unfold imread. rewrite Hjpg.
  cbn [mbind result_bind]. rewrite Hpreds. cbn [mbind result_bind].
  erewrite for_list_raises; [done| |].
  - eapply Forall_impl; [exact Hpre|]. intros p (shown & Hp & Hfile).
    exists shown. rewrite Hp. cbn [mbind result_bind]. by rewrite Hfile.
  - rewrite Hname. cbn [mbind result_bind]. by rewrite Hnone.
Qed.

Lemma train_main_train_features_missing fs :
  fs !! Training.TRAIN_TEXT_EMB = None ->
  train_main fs = Raise (FileNotFoundError Training.TRAIN_TEXT_EMB).
Proof.
  intros Hnone. destruct training_paths_not_output_dir as (_ & Ht1 & Ht2).
  unfold Training.main, Flickr30kEndToEnd, load_text_features.
  rewrite (make_output_dir_lookup fs Training.TRAIN_TEXT_EMB) by done. by rewrite Hnone.
Qed.

Lemma train_main_test_features_missing fs train :
  fs !! Training.TRAIN_TEXT_EMB = Some (TextFeatures train) ->
  fs !! Training.TEST_TEXT_EMB = None ->
  train_main fs = Raise (FileNotFoundError Training.TEST_TEXT_EMB).
Proof.
  intros Htrain Hnone. destruct training_paths_not_output_dir as (_ & Ht1 & Ht2).
  unfold Training.main, Flickr30kEndToEnd, load_text_features.
  rewrite !make_output_dir_lookup by done. by rewrite Htrain, Hnone.
Qed.

(** C3, amended.  A missing feature file, annotation file or image file
    aborts the run with [FileNotFoundError] for that file, at the place the
    script reads it:
    - evaluation, the image features (read first); the text features, the
      image features read; the annotation, the loader and the model set up;
    - evaluation, in the figure of a sample whose sentence and labels are
      found: the image of the sample's own item; or, that image read, the
      first retrieved image that is missing, those before it read;
    - an exception of a figure, the figures before it shown, is the
      exception of the run, and a run that returns has read every image of
      every figure;
    - training, the training text features (read first); the validation
      text features, the training ones read.
    A missing model checkpoint aborts neither script: [path.exists] finds it
    missing, the load is skipped, and the run goes on with the model (in
    training also the optimizer and epoch 0) as constructed. *)
Theorem missing_input_files fs :
  (fs !! Evaluation.TEST_IMG_EMB = None ->
   eval_main fs = Raise (FileNotFoundError Evaluation.TEST_IMG_EMB)) /\
  (forall imgs,
     fs !! Evaluation.TEST_IMG_EMB = Some (ImageFeatures imgs) ->
     fs !! Evaluation.TEST_TEXT_EMB = None ->
     eval_main fs = Raise (FileNotFoundError Evaluation.TEST_TEXT_EMB)) /\
  (forall test_loader model,
     Evaluation.setup fresh_model fs = Ok (test_loader, model) ->
     fs !! Evaluation.TEST_JSON = None ->
     eval_main fs = Raise (FileNotFoundError Evaluation.TEST_JSON)) /\
  (forall st text_labels labels sample query gt_image_id gt_image_filename,
     dict_get (dict_sentences st) sample = Ok query ->
     py_index text_labels (Z.of_nat sample) = Ok gt_image_id ->
     py_index (dict_keys (gt st)) (Z.of_nat gt_image_id - 1)%Z = Ok gt_image_filename ->
     (fs !! (Evaluation.IMAGES_DIR +:+ gt_image_filename) = None ->
      Evaluation.show_example fs st text_labels labels sample =
        Raise (FileNotFoundError (Evaluation.IMAGES_DIR +:+ gt_image_filename))) /\
     (forall pre pred post name,
        fs !! (Evaluation.IMAGES_DIR +:+ gt_image_filename) = Some Jpeg ->
        py_index labels (Z.of_nat sample) = Ok (pre ++ pred :: post) ->
        Forall (fun p => exists shown,
                  py_index (dict_keys (gt st)) p = Ok shown /\
                  fs !! (Evaluation.IMAGES_DIR +:+ shown) = Some Jpeg) pre ->
        py_index (dict_keys (gt st)) pred = Ok name ->
        fs !! (Evaluation.IMAGES_DIR +:+ name) = None ->
        Evaluation.show_example fs st text_labels labels sample =
          Raise (FileNotFoundError (Evaluation.IMAGES_DIR +:+ name)))) /\
  (forall q pre sample post e,
     eval_main_scores fs = Ok q ->
     random_choice (seq 0 (length (q_data q) * 5)) 20 = Ok (pre ++ sample :: post) ->
     Forall (fun s => exists fig,
               Evaluation.show_example fs (ground_truth (q_data q))
                 (text_labels (q_data q)) (q_I q) s = Ok fig) pre ->
     Evaluation.show_example fs (ground_truth (q_data q)) (text_labels (q_data q))
       (q_I q) sample = Raise e ->
     eval_main fs = Raise e) /\
  (forall out fig name,
     eval_main fs = Ok out -> fig ∈ eo_figures out -> name ∈ fig ->
     fs !! (Evaluation.IMAGES_DIR +:+ name) = Some Jpeg) /\
  (fs !! Training.TRAIN_TEXT_EMB = None ->
   train_main fs = Raise (FileNotFoundError Training.TRAIN_TEXT_EMB)) /\
  (forall train,
     fs !! Training.TRAIN_TEXT_EMB = Some (TextFeatures train) ->
     fs !! Training.TEST_TEXT_EMB = None ->
     train_main fs = Raise (FileNotFoundError Training.TEST_TEXT_EMB)) /\
  (fs !! Evaluation.CHECKPOINT = None ->
     Evaluation.load_model fresh_model fs = Ok fresh_model /\
     (forall test_loader model,
        Evaluation.setup fresh_model fs = Ok (test_loader, model) -> model = fresh_model) /\
     (forall out, eval_main fs = Ok out -> eo_model out = fresh_model)) /\
  (fs !! Training.CHECKPOINT = None ->
     Training.resume fresh_model fresh_optimizer fs = Ok (fresh_model, fresh_optimizer, 0) /\
     (forall train test,
        fs !! Training.TRAIN_TEXT_EMB = Some (TextFeatures train) ->
        fs !! Training.TEST_TEXT_EMB = Some (TextFeatures test) ->
        train_main fs =
          Ok (Training.make_output_dir fs,
              mk_fit_call train test fresh_model fresh_optimizer 20 cuda 5
                Training.model_id 0))).
Proof.
  split_and!.
  - apply eval_main_image_features_missing.
  - apply eval_main_text_features_missing.
  - apply eval_main_annotation_missing.
  - intros st text_labels labels sample query gt_image_id gt_image_filename Hq Hid Hname.
    split.
    + by apply (show_example_ground_truth_missing _ _ _ _ _ query gt_image_id).
    + intros pre pred post name Hjpg Hpreds Hpre Hpred Hnone.
      by apply (show_example_retrieved_missing _ _ _ _ _ query gt_image_id
                  gt_image_filename pre pred post).
  - apply main_figure_raises.
  - intros out fig name E Hfig Hname.
    apply main_Ok in E as (imgs & txts & test_loader & model & _ & _ & _ & _ & E).
    apply evaluate_Ok in E as (file & img & txt & found & preds & samples & figures & E).
    destruct E as (_ & _ & _ & _ & _ & Hfigs & ->). cbn [eo_figures] in Hfig.
    apply for_list_Forall2 in Hfigs.
    apply list_elem_of_lookup in Hfig as [i Hi].
    destruct (Forall2_lookup_r _ _ _ _ _ Hfigs Hi) as (sample & _ & Hshow).
    by eapply show_example_files.
  - apply train_main_train_features_missing.
  - apply train_main_test_features_missing.
  - intros Hnone.
    assert (Hload : Evaluation.load_model fresh_model fs = Ok fresh_model).
    { unfold Evaluation.load_model. by rewrite (path_exists_None _ _ Hnone). }
    split_and!; [done| |].
    + intros test_loader model Hsetup. unfold Evaluation.setup in Hsetup.
      apply bind_Ok in Hsetup as (ds & _ & Hsetup).
      apply bind_Ok in Hsetup as (loader & _ & Hsetup).
      rewrite Hload in Hsetup. cbn [mbind result_bind] in Hsetup. congruence.
    + intros out E.
      apply main_Ok in E as (imgs & txts & test_loader & model & _ & _ & _ & Hm & E).
      apply evaluate_Ok in E as (file & img & txt & found & preds & samples & figures & E).
      destruct E as (_ & _ & _ & _ & _ & _ & ->). cbn [eo_model]. congruence.
  - intros Hnone. split; [by rewrite resume_spec, Hnone|].
    intros train test Htrain Htest.
    destruct training_paths_not_output_dir as (Hck & Ht1 & Ht2).
    unfold Training.main, Flickr30kEndToEnd, load_text_features.
    rewrite !make_output_dir_lookup by done. rewrite Htrain, Htest.
    cbn [mbind result_bind]. rewrite resume_spec.
    rewrite make_output_dir_lookup by done. by rewrite Hnone.
Qed.
End MissingFiles.

(** ** mAP@k *)

Lemma precision_term_bounds (num_hits i : nat) :
  num_hits <= i ->
  (0 <= Z.of_nat (S num_hits) # Pos.of_succ_nat i)%Q /\
  (Z.of_nat (S num_hits) # Pos.of_succ_nat i <= 1)%Q.
Proof.
  intros H. unfold Qle. cbn [Qnum Qden].
  rewrite Zpos_P_of_succ_nat. lia.
Qed.

Lemma inject_nat_le (a b : nat) : a <= b -> (inject_Z (Z.of_nat a) <= inject_Z (Z.of_nat b))%Q.
Proof. intros H. rewrite <- Zle_Qle. lia. Qed.

Lemma inject_nat_S (a : nat) :
  (inject_Z (Z.of_nat (S a)) == inject_Z (Z.of_nat a) + 1)%Q.
Proof. rewrite Nat2Z.inj_succ. unfold Z.succ. by rewrite inject_Z_plus. Qed.

(** The hits counted so far are distinct relevant predictions, so there are
    at most [len(actual)] of them, and at most as many as predictions
    read. *)
Lemma apk_loop_bounds actual predicted : forall seen i num_hits score hits,
  NoDup hits ->
  (forall x, x ∈ hits -> x ∈ actual) ->
  (forall x, x ∈ hits -> x ∈ seen) ->
  length hits = num_hits ->
  num_hits <= i ->
  (0 <= score)%Q -> (score <= inject_Z (Z.of_nat num_hits))%Q ->
  (0 <= apk_loop actual seen i num_hits score predicted)%Q /\
  (apk_loop actual seen i num_hits score predicted <=
     inject_Z (Z.of_nat (length actual `min` (i + length predicted))))%Q.
Proof.
  induction predicted as [|p rest IH];
    intros seen i num_hits score hits Hnd Hact Hseen Hlen Hi H0 Hs.
  - cbn [apk_loop length]. split; [done|].
    eapply Qle_trans; [exact Hs|]. apply inject_nat_le.
    assert (length hits <= length actual).
    { apply submseteq_length, NoDup_submseteq; [done|]. intros x. apply Hact. }
    lia.
  - cbn [apk_loop length].
    replace (i + S (length rest)) with (S i + length rest) by lia.
    destruct (bool_decide (p ∈ actual) && negb (bool_decide (p ∈ seen))) eqn:E.
    + apply andb_true_iff in E as [Ea Es].
      apply bool_decide_eq_true in Ea. apply negb_true_iff, bool_decide_eq_false in Es.
      destruct (precision_term_bounds num_hits i Hi) as [Hp0 Hp1].
      apply (IH _ _ _ _ (p :: hits)).
      * apply NoDup_cons. split; [|done]. intros Hin. by apply Es, Hseen.
      * intros x [->|Hx]%elem_of_cons; auto.
      * intros x [->|Hx]%elem_of_cons; apply elem_of_app;
          [right; apply list_elem_of_here | left; auto].
      * simpl. by rewrite Hlen.
      * lia.
      * lra.
      * rewrite inject_nat_S. lra.
    + apply (IH _ _ _ _ hits); try done.
      * intros x Hx. apply elem_of_app. left. auto.
      * lia.
Qed.

Lemma apk_bounds actual predicted k :
  (0 <= apk actual predicted k)%Q /\ (apk actual predicted k <= 1)%Q.
Proof.
  unfold apk. destruct (Nat.eqb_spec (length actual `min` k) 0) as [|Hne]; [done|].
  destruct (apk_loop_bounds actual (take k predicted) [] 0 0 0%Q [])
    as [H0 H1]; try done; [apply NoDup_nil_2 | |].
  { intros x Hx. by apply elem_of_nil in Hx. }
  assert (Hpos : (0 < inject_Z (Z.of_nat (length actual `min` k)))%Q).
  { change 0%Q with (inject_Z 0). rewrite <- Zlt_Qlt. lia. }
  split.
  - apply Qle_shift_div_l; [done|]. lra.
  - apply Qle_shift_div_r; [done|]. rewrite Qmult_1_l.
    eapply Qle_trans; [exact H1|]. apply inject_nat_le.
    rewrite length_take. lia.
Qed.

Lemma Qsum_bounds (l : list Q) :
  Forall (fun s => (0 <= s)%Q /\ (s <= 1)%Q) l ->
  (0 <= Qsum l)%Q /\ (Qsum l <= inject_Z (Z.of_nat (length l)))%Q.
Proof.
  induction 1 as [|s l [Hs0 Hs1] _ [IH0 IH1]]; cbn [Qsum foldr length].
  - split; done.
  - fold (Qsum l). rewrite inject_nat_S. split; lra.
Qed.

Lemma mapk_bounds actual predicted k v :
  mapk actual predicted k = Some v -> (0 <= v)%Q /\ (v <= 1)%Q.
Proof.
  unfold mapk.
  set (scores := zip_with (fun a p => apk a p k) actual predicted).
  assert (Hall : Forall (fun s => (0 <= s)%Q /\ (s <= 1)%Q) scores).
  { apply Forall_forall. intros s Hs.
    apply elem_of_lookup_zip_with in Hs as (i & a & p & -> & _ & _).
    apply apk_bounds. }
  destruct (Qsum_bounds scores Hall) as [H0 H1].
  destruct scores as [|s others]; [done|]. intros [= <-].
  assert (Hpos : (0 < inject_Z (Z.of_nat (length (s :: others))))%Q).
  { change 0%Q with (inject_Z 0). rewrite <- Zlt_Qlt. simpl. lia. }
  split.
  - apply Qle_shift_div_l; [done|]. rewrite Qmult_0_l. exact H0.
  - apply Qle_shift_div_r; [done|]. rewrite Qmult_1_l. exact H1.
Qed.

(** C5. For lists of ground-truth label lists and of predicted label lists
    of the same length, with at least one query, [mapk] returns a value, and
    the value lies in [0, 1]. *)
Theorem mapk_in_unit_interval (actual predicted : list (list nat)) (k : nat) :
  length actual = length predicted ->
  actual <> [] ->
  exists v, mapk actual predicted k = Some v /\ (0 <= v)%Q /\ (v <= 1)%Q.
Proof.
  intros Hlen Hne.
  destruct (mapk actual predicted k) as [v|] eqn:E.
  - exists v. split; [done|]. by eapply mapk_bounds.
  - exfalso. unfold mapk in E.
    destruct actual as [|a actual]; [done|].
    destruct predicted as [|p predicted]; [done|]. done.
Qed.

Lemma mapk_in_unit_interval_witness :
  exists v, mapk [[1]; [1]; [2]] [[1; 2; 3]; [2; 1; 3]; [3; 1; 4]] 3 = Some v /\
            (0 <= v)%Q /\ (v <= 1)%Q.
Proof.
  apply mapk_in_unit_interval.
  - reflexivity.
  - discriminate.
Defined.

(** ** Triplets *)

(** C8. In every triplet the sampling produces, the anchor and the positive
    carry the same label and the negative carries another one. *)
Theorem triplet_labels {T I : Type} (dataset : list (I * list T)) (index : nat)
    (draw_caption draw_negative : nat) (t : triplet T I) :
  triplet_getitem dataset index draw_caption draw_negative = Some t ->
  label (anchor t) = label (positive t) /\ label (anchor t) <> label (negative t).
Proof.
  unfold triplet_getitem. intros H.
  apply bind_Some in H as ([image captions] & _ & H).
  apply bind_Some in H as (caption & _ & H).
  apply bind_Some in H as (negative_index & Hneg & H).
  apply bind_Some in H as ([negative_image others] & _ & [= <-]).
  cbn [anchor positive negative label]. split; [done|].
  apply list_elem_of_lookup_2, list_elem_of_filter in Hneg as [Hne _]. congruence.
Qed.

Lemma triplet_labels_witness :
  exists t, triplet_getitem [("img0", ["a"; "b"]); ("img1", ["c"]); ("img2", ["d"])] 1 4 7
            = Some t /\
            label (anchor t) = label (positive t) /\ label (anchor t) <> label (negative t).
Proof.
  exists (mk_triplet (mk_labelled "c" 1) (mk_labelled "img1" 1) (mk_labelled "img2" 2)).
  split; [reflexivity|].
  apply (triplet_labels [("img0", ["a"; "b"]); ("img1", ["c"]); ("img2", ["d"])] 1 4 7).
  reflexivity.
Defined.

(** The sampling produces a triplet for every item that has a caption, as
    soon as the dataset has another item to draw the negative from. *)
Lemma triplet_getitem_total {T I : Type} (dataset : list (I * list T)) (index : nat)
    (draw_caption draw_negative : nat) image captions :
  dataset !! index = Some (image, captions) ->
  captions <> [] ->
  2 <= length dataset ->
  is_Some (triplet_getitem dataset index draw_caption draw_negative).
Proof.
  intros Hitem Hcap Hlen. unfold triplet_getitem. rewrite Hitem. cbn [mbind option_bind].
  destruct (lookup_lt_is_Some_2 captions (draw_caption mod length captions)) as [c ->].
  { apply Nat.mod_upper_bound. by destruct captions. }
  cbn [mbind option_bind].
  set (others := filter (fun j => j ≠ index) (seq 0 (length dataset))).
  assert (Hother : exists j, j ∈ others).
  { exists (if decide (index = 0) then 1 else 0).
    apply list_elem_of_filter. split; [by destruct (decide (index = 0)); lia|].
    apply elem_of_seq. destruct (decide (index = 0)); lia. }
  assert (Hpos : 0 < length others).
  { destruct Hother as [j Hj]. destruct others; [by apply elem_of_nil in Hj | simpl; lia]. }
  destruct (lookup_lt_is_Some_2 others (draw_negative mod length others)) as [j Hj].
  { apply Nat.mod_upper_bound. lia. }
  rewrite Hj. cbn [mbind option_bind].
  assert (Hin : j < length dataset).
  { apply list_elem_of_lookup_2, list_elem_of_filter in Hj as [_ Hj].
    apply elem_of_seq in Hj. lia. }
  destruct (lookup_lt_is_Some_2 dataset j Hin) as [[negative_image ?] ->].
  by eexists.
Qed.

(** ** A run of the evaluation that returns *)

Lemma py_index_in_range {A : Type} (l : list A) (i : Z) :
  (0 <= i < Z.of_nat (length l))%Z ->
  exists x, py_index l i = Ok x /\ l !! Z.to_nat i = Some x.
Proof.
  intros Hi. destruct (lookup_lt_is_Some_2 l (Z.to_nat i)) as [x Hx]; [lia|].
  exists x. split; [|done]. rewrite <- (Z2Nat.id i) by lia. by apply py_index_nat.
Qed.

Lemma for_list_total {X Y : Type} (f : X -> result Y) xs :
  Forall (fun x => exists y, f x = Ok y) xs -> exists ys, for_list f xs = Ok ys.
Proof.
  induction 1 as [|x xs [y Hy] _ [ys IH]]; simpl.
  - by exists [].
  - rewrite Hy, IH. by eexists.
Qed.

Lemma for_each_total {S X : Type} (body : S -> X -> result S) xs :
  Forall (fun x => forall s, exists s', body s x = Ok s') xs ->
  forall s, exists s', for_each body xs s = Ok s'.
Proof.
  induction 1 as [|x xs Hx _ IH]; simpl; intros s.
  - by exists s.
  - destruct (Hx s) as [s1 ->]. apply IH.
Qed.

Lemma labels_pred_total (labels : list nat) (found : list (list Z)) :
  Forall (Forall (fun i => (0 <= i < Z.of_nat (length labels))%Z)) found ->
  exists preds, labels_pred labels found = Ok preds.
Proof.
  intros H. unfold labels_pred. apply for_each_total.
  eapply Forall_impl; [exact H|]. intros row Hrow acc. cbn beta.
  destruct (for_each_total
              (fun r i => x ← py_index labels i; Ok (r ++ [x])) row) with (s := @nil nat)
    as [r ->].
  - eapply Forall_impl; [exact Hrow|]. intros i Hi r. cbn beta.
    destruct (py_index_in_range labels i Hi) as (x & -> & _). by eexists.
  - by eexists.
Qed.

Section EvaluationRuns.
Context {F M O : Type}.
Variable zero : F.
Variable cuda : bool.
Variable get_embedding_pair : M -> tensor2 F -> tensor2 F -> result (ndarray F * ndarray F).
Variable float32 : F -> F.
Variable l2sqr : list F -> list F -> F.
Variable fle : F -> F -> bool.
Variable random_choice : list nat -> nat -> result (list nat).
Implicit Type fs : gmap string (file F M O).

Lemma show_example_total fs (data : list item) (found : list (list Z)) (s : nat) :
  Forall (fun it => length (sentences it) = 5) data ->
  NoDup (map filename data) ->
  (forall it, it ∈ data -> fs !! (Evaluation.IMAGES_DIR +:+ filename it) = Some Jpeg) ->
  length found = length data * 5 ->
  Forall (Forall (fun i => (0 <= i < Z.of_nat (length data))%Z)) found ->
  s < length data * 5 ->
  exists fig,
    Evaluation.show_example fs (ground_truth data) (text_labels data) found s = Ok fig.
Proof.
  intros H5 Hnd Hfiles Hlen Hvalid Hs. unfold Evaluation.show_example.
  destruct (ground_truth_inv data) as [Hd _].
  assert (Hkeys := ground_truth_keys data Hnd).
  assert (Hread : forall i : Z, (0 <= i < Z.of_nat (length data))%Z ->
            exists name, py_index (dict_keys (gt (ground_truth data))) i = Ok name /\
                         imread fs (Evaluation.IMAGES_DIR +:+ name) = Ok ()).
  { intros i Hi.
    destruct (py_index_in_range (dict_keys (gt (ground_truth data))) i) as (name & Hn & Hl).
    { by rewrite Hkeys, length_map. }
    exists name. split; [done|].
    rewrite Hkeys in Hl. apply list_lookup_fmap_Some in Hl as (it & -> & Hit).
    unfold imread. by rewrite (Hfiles it) by by eapply list_elem_of_lookup_2. }
  (* the query sentence *)
  destruct (all_sentences_lookup data s H5) as (it & c & _ & _ & Hc); [lia|].
  unfold dict_get. rewrite Hd, lookup_map_seq_0, list_lookup_fmap, Hc.
  cbn [fmap option_fmap option_map mbind result_bind].
  (* its label and the ground truth image *)
  rewrite (py_index_nat (text_labels data) s (s / 5 + 1))
    by (apply text_labels_lookup; lia).
  cbn [mbind result_bind].
  destruct (Hread (Z.of_nat (s / 5 + 1) - 1)%Z) as (name & Hname & Himg); [lia|].
  rewrite Hname. cbn [mbind result_bind]. rewrite Himg. cbn [mbind result_bind].
  (* the retrieved images *)
  destruct (lookup_lt_is_Some_2 found s) as [row Hrow]; [lia|].
  rewrite (py_index_nat found s row Hrow). cbn [mbind result_bind].
  destruct (for_list_total
              (fun pred => filename ← py_index (dict_keys (gt (ground_truth data))) pred;
                           _ ← imread fs (Evaluation.IMAGES_DIR +:+ filename);
                           Ok filename) row) as [shown ->].
  - eapply Forall_impl; [exact (Forall_lookup_1 _ _ _ _ Hvalid Hrow)|].
    intros i Hi. cbn beta. destruct (Hread i Hi) as (n & -> & Hn).
    cbn [mbind result_bind]. rewrite Hn. by eexists.
  - by eexists.
Qed.

(** With an annotation of at least [num_samples] entries and the embeddings
    extracted, the script gets to its score. *)
Lemma quantitative_total fs test_loader model file img txt :
  json_load fs Evaluation.TEST_JSON = Ok file ->
  num_samples <= length file ->
  extract_embeddings zero cuda get_embedding_pair test_loader model Evaluation.out_size
    Evaluation.model_id num_samples = Ok (img, txt) ->
  exists q,
    Evaluation.quantitative zero cuda get_embedding_pair float32 l2sqr fle
      fs test_loader model = Ok q /\
    q_model q = model /\
    q_data q = take num_samples file /\
    length (q_I q) = num_samples * 5 /\
    Forall (Forall (fun i => (0 <= i < Z.of_nat num_samples)%Z)) (q_I q).
Proof.
  intros Hfile Hn Hex.
  assert (Hdata : length (take num_samples file) = num_samples)
    by (rewrite length_take; lia).
  apply extract_embeddings_shape in Hex as Hshape.
  destruct Hshape as [(Hi1 & Hi0 & _) (Ht1 & Ht0 & _)].
  unfold Evaluation.quantitative. rewrite Hfile. cbn [mbind result_bind].
  rewrite Hex. cbn [mbind result_bind].
  rewrite search_spec by congruence. cbn [mbind result_bind fst snd].
  set (ix := mk_index (shape1 img) (rows (Evaluation.np_float32 float32 img))).
  set (found := map (search_one l2sqr fle ix knn_k)
                    (rows (Evaluation.np_float32 float32 txt))).
  assert (Hix : ntotal ix = num_samples).
  { unfold ntotal, ix. cbn [index_xb Evaluation.np_float32 rows].
    rewrite length_map. exact Hi0. }
  assert (Hvalid : Forall (Forall (fun i => (0 <= i < Z.of_nat num_samples)%Z)) found).
  { apply Forall_forall. intros row Hrow.
    apply list_elem_of_fmap in Hrow as (q & -> & _). rewrite <- Hix.
    apply search_one_valid. rewrite Hix. apply knn_k_le_num_samples. }
  assert (Hflen : length found = num_samples * 5).
  { unfold found. cbn [Evaluation.np_float32 rows]. rewrite !length_map. exact Ht0. }
  destruct (labels_pred_total (image_labels (take num_samples file)) found) as [preds ->].
  { rewrite image_labels_seq, length_seq, Hdata. exact Hvalid. }
  cbn [mbind result_bind]. eexists. split; [reflexivity|].
  cbn [q_model q_data q_I]. done.
Qed.

(** When the annotation has at least [num_samples] entries of five
    sentences each under distinct file names, the embeddings were extracted,
    the samples drawn are sentence numbers, and the images of the annotation
    are in place, the evaluation runs to its end. *)
Lemma evaluate_total fs test_loader model file img txt samples :
  json_load fs Evaluation.TEST_JSON = Ok file ->
  num_samples <= length file ->
  Forall (fun it => length (sentences it) = 5) (take num_samples file) ->
  NoDup (map filename (take num_samples file)) ->
  (forall it, it ∈ take num_samples file ->
     fs !! (Evaluation.IMAGES_DIR +:+ filename it) = Some Jpeg) ->
  extract_embeddings zero cuda get_embedding_pair test_loader model Evaluation.out_size
    Evaluation.model_id num_samples = Ok (img, txt) ->
  random_choice (seq 0 (length (take num_samples file) * 5)) 20 = Ok samples ->
  Forall (fun s => s < length (take num_samples file) * 5) samples ->
  exists out,
    Evaluation.evaluate zero cuda get_embedding_pair float32 l2sqr fle random_choice
      fs test_loader model = Ok out.
Proof.
  intros Hfile Hn H5 Hnd Hfiles Hex Hrand Hsamples.
  assert (Hdata : length (take num_samples file) = num_samples)
    by (rewrite length_take; lia).
  destruct (quantitative_total fs test_loader model file img txt Hfile Hn Hex)
    as (q & Hq & _ & Hqd & Hlen & Hvalid).
  unfold Evaluation.evaluate, Evaluation.qualitative. rewrite Hq.
  cbn [mbind result_bind]. rewrite Hqd, Hrand. cbn [mbind result_bind].
  destruct (for_list_total
              (Evaluation.show_example fs (ground_truth (take num_samples file))
                 (text_labels (take num_samples file)) (q_I q)) samples) as [figures ->].
  - eapply Forall_impl; [exact Hsamples|]. intros s Hs. cbn beta.
    apply show_example_total; rewrite ?Hdata; try done. by rewrite <- Hdata.
  - by eexists.
Qed.
End EvaluationRuns.

(** * Further properties of the two scripts *)

(** ** The dataloader of the evaluation script *)

Lemma chunks_one {A : Type} (l : list A) : chunks 1 (length l) l = [l].
Proof. cbn [chunks]. by rewrite firstn_all. Qed.

Lemma DataLoader_length {F : Type} (dataset : list (list F * list (list F))) :
  dataset <> [] ->
  DataLoader dataset (length dataset) = Ok [(map fst dataset, map snd dataset)].
Proof.
  intros Hne. unfold DataLoader.
  assert (Hl : 0 < length dataset) by (destruct dataset; [done | simpl; lia]).
  destruct (Nat.eqb_spec (length dataset) 0) as [?|_]; [lia|].
  replace ((length dataset + length dataset - 1) / length dataset) with 1.
  - by rewrite chunks_one.
  - apply (Nat.div_unique _ _ 1 (length dataset - 1)); lia.
Qed.

(** X1. The dataloader [main] builds, with [batch_size] set to the length of
    the dataset and no shuffling, yields exactly one batch, which holds the
    whole dataset in its order; on an empty dataset the batch size is 0 and
    building the loader raises [ValueError]. *)
Theorem DataLoader_whole_dataset {F : Type} (dataset : list (list F * list (list F))) :
  DataLoader dataset (length dataset) =
    match dataset with
    | [] => Raise ValueError
    | _ => Ok [(map fst dataset, map snd dataset)]
    end.
Proof. destruct dataset as [|x ds]; [done|]. by apply DataLoader_length. Qed.

(** ** More on the loop of extract_embeddings *)

Lemma concat_five_by_300_length {F : Type} (texts : tensor3 F) :
  five_by_300 texts -> length (concat (concat texts)) = length texts * 5 * 300.
Proof.
  unfold five_by_300. induction 1 as [|t texts Ht _ IH]; [done|].
  change (concat (t :: texts)) with (t ++ concat texts).
  rewrite concat_app, length_app, IH, Ht. cbn [length]. lia.
Qed.

Lemma chunks_length {A : Type} fuel c (l : list A) : length (chunks fuel c l) = fuel.
Proof. revert l. induction fuel as [|fuel IH]; intros l; simpl; [done|]. by rewrite IH. Qed.

Lemma reshape_five_by_300 {F : Type} (texts : tensor3 F) :
  five_by_300 texts ->
  exists text_batch,
    reshape (length texts * 5) 300 texts = Ok text_batch /\
    length text_batch = length texts * 5.
Proof.
  intros H. unfold reshape. rewrite (concat_five_by_300_length _ H), Nat.eqb_refl.
  eexists. split; [done|]. apply chunks_length.
Qed.

Lemma five_by_300_take {F : Type} (texts : tensor3 F) n :
  five_by_300 texts -> five_by_300 (take n texts).
Proof. apply Forall_take. Qed.

Lemma broadcast_rows_raises {F : Type} c (v : tensor2 F) e :
  broadcast_rows c v = Raise e -> e = ValueError.
Proof.
  induction v as [|r v IH]; simpl; [done|].
  destruct (broadcast_row c r) as [r'|e'] eqn:Er.
  - destruct (broadcast_rows c v) as [w|e'']; [done|]. intros [= <-]. by apply IH.
  - intros [= <-]. unfold broadcast_row in Er.
    destruct (length r =? c); [done|]. by destruct r as [|x [|y r]]; inversion Er.
Qed.

(** A value of two or more rows that does not have the row count of the
    clipped slice cannot be broadcast. *)
Lemma np_setslice_past_the_end {F : Type} (a : ndarray F) lo hi (v : ndarray F) :
  lo <= shape0 a -> shape0 a < hi -> shape0 v = hi - lo -> 2 <= shape0 v ->
  np_setslice a lo hi v = Raise ValueError.
Proof.
  intros Hlo Hhi Hv H2. unfold np_setslice, broadcast_to, broadcast_cols.
  replace (lo `min` shape0 a) with lo by lia.
  replace ((hi `min` shape0 a) `max` lo) with (shape0 a) by lia.
  destruct (_ || _); [|done].
  destruct (broadcast_rows (shape1 a) (rows v)) as [w|e] eqn:Ew.
  - apply broadcast_rows_spec in Ew as [Hw _]. unfold shape0 in Hv, H2.
    destruct (Nat.eqb_spec (length w) (shape0 a - lo)) as [?|_]; [lia|].
    destruct w as [|r [|r2 w]]; simpl in Hw; try done; lia.
  - by rewrite (broadcast_rows_raises _ _ _ Ew).
Qed.

Lemma writes_to_covered t i w1 w2 :
  covers t i w2 = true -> 1 <= writes_to t i [w1; w2].
Proof.
  intros H. unfold writes_to. rewrite filter_cons.
  destruct (decide (covers t i w1 = true)); rewrite filter_cons, decide_True by done;
    simpl; lia.
Qed.

Section LoopFacts.
Context {F M : Type}.
Variable zero : F.
Variable cuda : bool.
Variable get_embedding_pair : M -> tensor2 F -> tensor2 F -> result (ndarray F * ndarray F).

Local Abbreviation extract_batch' := (extract_batch get_embedding_pair).
Local Abbreviation extract_loop' := (extract_loop zero cuda get_embedding_pair).
Local Abbreviation extract_embeddings' := (extract_embeddings zero cuda get_embedding_pair).

(** What a batch that is processed adds to the log and to the offset. *)
Lemma extract_batch_log model n st images texts st' :
  extract_batch' model n st (images, texts) = Ok st' ->
  k st' = k st + length (take n images) /\
  writes st' = writes st ++
    [mk_write ImageRows (k st) (k st + length (take n images));
     mk_write TextRows (k st) (k st + length (take n texts) * 5)].
Proof.
  unfold extract_batch. intros H.
  apply bind_Ok in H as (tb & _ & H).
  apply bind_Ok in H as ([im_emb text_emb] & _ & H).
  apply bind_Ok in H as (ie & _ & H).
  apply bind_Ok in H as (te & _ & H). injection H as <-. split; reflexivity.
Qed.

Lemma for_each_log model n loader : forall st st',
  for_each (fun st b => extract_batch' model n st b) loader st = Ok st' ->
  exists more, writes st' = writes st ++ more.
Proof.
  induction loader as [|[images texts] loader IH]; cbn [for_each]; intros st st'.
  - intros [= <-]. exists []. by rewrite app_nil_r.
  - destruct (extract_batch' model n st (images, texts)) as [st1|] eqn:E; [|done].
    intros H. apply IH in H as [more ->].
    apply extract_batch_log in E as [_ ->]. rewrite <- app_assoc. by eexists.
Qed.

Lemma writes_to_app t i log1 log2 :
  writes_to t i (log1 ++ log2) = writes_to t i log1 + writes_to t i log2.
Proof. unfold writes_to. by rewrite filter_app, length_app. Qed.

(** X2. Whenever [extract_embeddings] returns, the image array has exactly
    [num_samples] rows and the text array [5 * num_samples] rows, whatever
    the number of batches and of items in them: the arrays are sized by
    the argument and not by the data. *)
Theorem extract_embeddings_row_counts dataloader model out_size model_id n img txt :
  extract_embeddings' dataloader model out_size model_id n = Ok (img, txt) ->
  length (rows img) = n /\ length (rows txt) = n * 5.
Proof.
  intros H. apply extract_embeddings_shape in H as [(_ & Hi & _) (_ & Ht & _)]. done.
Qed.

(** X3. With two batches or more, the text slice of the second batch starts
    at the number of images of the first one, not at five times that: when
    both batches have an item, text row [n1] (with [n1] the size of the first
    batch after truncation) is written by the first batch and again by the
    second. *)
Theorem second_batch_overwrites_text_rows images1 texts1 images2 texts2 rest model
    out_size model_id n st :
  extract_loop' ((images1, texts1) :: (images2, texts2) :: rest) model out_size
    model_id n = Ok st ->
  1 <= length (take n images1) ->
  length (take n texts1) = length (take n images1) ->
  1 <= length (take n texts2) ->
  2 <= writes_to TextRows (length (take n images1)) (writes st).
Proof.
  unfold extract_loop. destruct cuda; [|done]. cbn [for_each].
  intros H H1 Ht1 H2.
  destruct (extract_batch' model n _ (images1, texts1)) as [st1|] eqn:E1; [|done].
  destruct (extract_batch' model n st1 (images2, texts2)) as [st2|] eqn:E2; [|done].
  apply for_each_log in H as [more ->].
  apply extract_batch_log in E1 as [Hk1 Hw1]. apply extract_batch_log in E2 as [_ ->].
  cbn [k writes] in Hk1, Hw1. rewrite Hw1, Hk1, !Nat.add_0_l, !writes_to_app.
  set (n1 := length (take n images1)) in *.
  assert (1 <= writes_to TextRows n1
                 [mk_write ImageRows 0 n1; mk_write TextRows 0 (length (take n texts1) * 5)]).
  { apply writes_to_covered. unfold covers. cbn [w_target w_lo w_hi].
    rewrite bool_decide_eq_true_2 by done. cbn [andb].
    apply andb_true_iff. split; [by apply Nat.leb_le; lia | apply Nat.ltb_lt; lia]. }
  assert (1 <= writes_to TextRows n1
                 [mk_write ImageRows n1 (n1 + length (take n images2));
                  mk_write TextRows n1 (n1 + length (take n texts2) * 5)]).
  { apply writes_to_covered. unfold covers. cbn [w_target w_lo w_hi].
    rewrite bool_decide_eq_true_2 by done. cbn [andb].
    apply andb_true_iff. split; [by apply Nat.leb_le | apply Nat.ltb_lt; lia]. }
  lia.
Qed.
End LoopFacts.

Lemma constant_encoder_emits_rows width : emits_rows (constant_encoder width) () width.
Proof.
  intros images text_batch. eexists _, _. split; [reflexivity|].
  unfold shape0, well_shaped. cbn [shape1 rows]. rewrite !length_map.
  split; split_and!; try done;
    apply Forall_forall; intros r (x & -> & _)%list_elem_of_fmap; apply length_replicate.
Qed.

Lemma toy_batch_five_by_300 n : five_by_300 (snd (toy_batch n)).
Proof. apply Forall_replicate. reflexivity. Qed.

Lemma extract_embeddings_row_counts_witness :
  exists img txt,
    extract_embeddings 0%Z true (constant_encoder 1024) [toy_batch 1; toy_batch 1] tt 4096
      "TextToImage_FasterRCNN_mean_textagg_out_size_4096" 3 = Ok (img, txt) /\
    length (rows img) = 3 /\ length (rows txt) = 3 * 5.
Proof.
  destruct (extract_embeddings 0%Z true (constant_encoder 1024) [toy_batch 1; toy_batch 1]
              tt 4096 "TextToImage_FasterRCNN_mean_textagg_out_size_4096" 3)
    as [[img txt]|e] eqn:E; [|vm_compute in E; discriminate].
  exists img, txt. split; [reflexivity|].
  exact (extract_embeddings_row_counts 0%Z true (constant_encoder 1024) _ _ _ _ _ _ _ E).
Defined.

Lemma second_batch_overwrites_text_rows_witness :
  exists st,
    extract_loop 0%Z true (constant_encoder 1024) [toy_batch 2; toy_batch 1] tt 4096
      "TextToImage_FasterRCNN_mean_textagg_out_size_4096" 4 = Ok st /\
    2 <= writes_to TextRows 2 (writes st).
Proof.
  destruct (extract_loop 0%Z true (constant_encoder 1024) [toy_batch 2; toy_batch 1]
              tt 4096 "TextToImage_FasterRCNN_mean_textagg_out_size_4096" 4)
    as [st|e] eqn:E; [|vm_compute in E; discriminate].
  exists st. split; [reflexivity|].
  apply (second_batch_overwrites_text_rows 0%Z true (constant_encoder 1024)
           (fst (toy_batch 2)) (snd (toy_batch 2)) (fst (toy_batch 1)) (snd (toy_batch 1))
           [] tt 4096 "TextToImage_FasterRCNN_mean_textagg_out_size_4096" 4 st E).
  - vm_compute. lia.
  - reflexivity.
  - vm_compute. lia.
Defined.

Section Overflow.
Context {F M : Type}.
Variable zero : F.
Variable get_embedding_pair : M -> tensor2 F -> tensor2 F -> result (ndarray F * ndarray F).

(** A batch written at offset 0 into arrays that have room for it. *)
Lemma extract_batch_at_0 model n st images texts :
  emits_rows get_embedding_pair model 1024 ->
  five_by_300 texts ->
  length texts = length images ->
  shaped n st -> k st = 0 ->
  exists st', extract_batch get_embedding_pair model n st (images, texts) = Ok st'.
Proof.
  intros Hnet Htx Hlen [(Hi1 & Hi0 & _) (Ht1 & Ht0 & _)] Hk.
  destruct (reshape_five_by_300 (take n texts)) as (tb & Hre & Htb);
    [by apply five_by_300_take|].
  destruct (Hnet (take n images) tb)
    as (ie & te & Hgep & (Hie1 & Hie0 & Hiew) & (Hte1 & Hte0 & Htew)).
  assert (Hnt : length (take n texts) = length (take n images))
    by (rewrite !length_take; lia).
  rewrite Hnt in Hre, Htb.
  erewrite (extract_batch_from_0 get_embedding_pair model images texts n
              (length (take n images)) tb ie te); try done; [by eexists | congruence].
Qed.

(** X4. The loop does not write past the end of its arrays: with a network
    that returns one row of 1024 components per image and per sentence, when
    a second batch of two items or more brings the number of images over
    [num_samples], the slice assignment of its image embeddings cannot be
    broadcast to the clipped slice and [extract_embeddings] raises
    [ValueError]. *)
Theorem batch_past_the_end_raises images1 texts1 images2 texts2 model out_size
    model_id n :
  emits_rows get_embedding_pair model 1024 ->
  five_by_300 texts1 -> five_by_300 texts2 ->
  length texts1 = length images1 -> length texts2 = length images2 ->
  n < length (take n images1) + length (take n images2) ->
  2 <= length (take n images2) ->
  extract_embeddings zero true get_embedding_pair
    [(images1, texts1); (images2, texts2)] model out_size model_id n = Raise ValueError.
Proof.
  intros Hnet Htx1 Htx2 Hl1 Hl2 Hover H2.
  unfold extract_embeddings, extract_loop. cbn [for_each].
  set (st0 := mk_loop _ _ 0 []).
  assert (Hst0 : shaped n st0).
  { split; simpl; split_and!; auto using np_zeros_well_shaped, np_zeros_shape0. }
  destruct (extract_batch_at_0 model n st0 images1 texts1) as [st1 E1]; try done.
  rewrite E1.
  assert (Hst1 := extract_batch_shaped _ _ _ _ _ _ Hst0 E1).
  apply extract_batch_log in E1 as [Hk1 _]. cbn [k st0] in Hk1.
  destruct Hst1 as [(Hi1 & Hi0 & _) _].
  unfold extract_batch.
  destruct (reshape_five_by_300 (take n texts2)) as (tb & -> & Htb);
    [by apply five_by_300_take|].
  cbn [mbind result_bind].
  destruct (Hnet (take n images2) tb) as (ie & te & -> & (_ & Hie & _) & _).
  cbn [mbind result_bind].
  rewrite (np_setslice_past_the_end (image_embeddings st1)); [reflexivity | | | |].
  - rewrite Hi0, Hk1, length_take. lia.
  - rewrite Hi0. lia.
  - lia.
  - lia.
Qed.
End Overflow.

Lemma batch_past_the_end_raises_witness :
  extract_embeddings 0%Z true (constant_encoder 1024) [toy_batch 2; toy_batch 2] tt 4096
    "TextToImage_FasterRCNN_mean_textagg_out_size_4096" 3 = Raise ValueError.
Proof.
  apply (batch_past_the_end_raises 0%Z (constant_encoder 1024)
           (fst (toy_batch 2)) (snd (toy_batch 2)) (fst (toy_batch 2)) (snd (toy_batch 2))).
  - apply constant_encoder_emits_rows.
  - apply toy_batch_five_by_300.
  - apply toy_batch_five_by_300.
  - reflexivity.
  - reflexivity.
  - vm_compute. lia.
  - vm_compute. lia.
Defined.

(** ** More on the ground truth *)

(** X5. For every annotation, whatever the number of sentences of its
    entries, the loop numbers the sentences in file order: [count] ends at
    the number of sentences, [dict_sentences] has one entry for each, and key
    [m] holds the raw text of sentence number [m]; a key from [count] on is
    missing. *)
Theorem dict_sentences_in_file_order (data : list item) :
  count (ground_truth data) = length (all_sentences data) /\
  size (dict_sentences (ground_truth data)) = length (all_sentences data) /\
  (forall m, dict_sentences (ground_truth data) !! m = raw <$> all_sentences data !! m) /\
  (forall m, count (ground_truth data) <= m ->
             dict_get (dict_sentences (ground_truth data)) m = Raise KeyError).
Proof.
  destruct (ground_truth_inv data) as [Hd Hc]. split_and!.
  - exact Hc.
  - by rewrite Hd, map_seq_size, length_fmap.
  - intros m. by rewrite Hd, lookup_map_seq_0, list_lookup_fmap.
  - intros m Hm. unfold dict_get.
    rewrite Hd, lookup_map_seq_0, list_lookup_fmap, lookup_ge_None_2; [done|]. lia.
Qed.

(** The keys after some items: no key twice, and the keys are the file
    names met. *)
Lemma ground_truth_keys_inv data : forall st,
  NoDup (dict_keys (gt st)) ->
  NoDup (dict_keys (gt (foldl add_item st data))) /\
  (forall f, f ∈ dict_keys (gt (foldl add_item st data)) <->
             f ∈ dict_keys (gt st) \/ f ∈ map filename data).
Proof.
  induction data as [|it data IH]; intros st Hnd; cbn [foldl map].
  - split; [done|]. intros f. split; [by left|].
    intros [?|H]; [done | by apply elem_of_nil in H].
  - assert (Hk : dict_keys (gt (add_item st it)) =
                 if bool_decide (filename it ∈ dict_keys (gt st)) then dict_keys (gt st)
                 else dict_keys (gt st) ++ [filename it]).
    { unfold add_item. rewrite add_sentences_gt. cbn [gt]. apply dict_set_keys. }
    destruct (IH (add_item st it)) as [Hnd' Hel].
    { rewrite Hk. case_bool_decide as Hin; [done|].
      apply NoDup_app. split_and!; [done | | apply NoDup_singleton].
      intros f Hf Hf'. apply list_elem_of_singleton in Hf'. by subst. }
    split; [done|]. intros f. rewrite Hel, Hk, elem_of_cons.
    case_bool_decide as Hin.
    + split; [tauto|]. intros [?|[->|?]]; tauto.
    + rewrite elem_of_app, list_elem_of_singleton. tauto.
Qed.

(** X6. The keys of the ground truth are the file names of the annotation
    without repetition; they are as many as the entries exactly when the
    file names are all distinct, and only then does position [i] of
    [list(gt)] name the image of entry [i] for every [i]. *)
Theorem ground_truth_keys_distinct_names (data : list item) :
  NoDup (dict_keys (gt (ground_truth data))) /\
  (forall f, f ∈ dict_keys (gt (ground_truth data)) <-> f ∈ map filename data) /\
  length (dict_keys (gt (ground_truth data))) <= length data /\
  (length (dict_keys (gt (ground_truth data))) = length data <->
   NoDup (map filename data)) /\
  (NoDup (map filename data) ->
   dict_keys (gt (ground_truth data)) = map filename data).
Proof.
  destruct (ground_truth_keys_inv data (mk_gt [] ∅ 0)) as [Hnd Hel]; [apply NoDup_nil_2|].
  fold (ground_truth data) in Hnd, Hel.
  assert (Hel' : forall f, f ∈ dict_keys (gt (ground_truth data)) <-> f ∈ map filename data).
  { intros f. rewrite Hel. cbn [gt dict_keys map]. split; [|by right].
    intros [H|?]; [by apply elem_of_nil in H | done]. }
  assert (Hsub : dict_keys (gt (ground_truth data)) ⊆+ map filename data).
  { apply NoDup_submseteq; [done|]. intros f. apply Hel'. }
  split_and!; [done | done | | | apply ground_truth_keys].
  - apply submseteq_length in Hsub. by rewrite length_map in Hsub.
  - split.
    + intros Hlen. rewrite <- (submseteq_length_Permutation _ _ Hsub); [done|].
      rewrite length_map. lia.
    + intros H. by rewrite ground_truth_keys, length_map.
Qed.

(** ** Retrieved positions and predicted labels, as theorems *)

(** X7. The predicted labels are the retrieved positions plus one: on rows
    of positions inside the annotation, the conversion of lines 129-132
    succeeds and turns position [i] into label [i + 1], row by row and in
    order. *)
Theorem predicted_labels_are_positions_plus_one (data : list item) (found : list (list Z)) :
  Forall (Forall (fun i => (0 <= i < Z.of_nat (length data))%Z)) found ->
  labels_pred (image_labels data) found =
    Ok (map (map (fun i => Z.to_nat i + 1)) found).
Proof. apply labels_in_range. Qed.

Lemma predicted_labels_are_positions_plus_one_witness :
  labels_pred (image_labels (toy_data 3)) [[0; 2]; [1; 1]]%Z = Ok [[1; 3]; [2; 2]].
Proof.
  apply (predicted_labels_are_positions_plus_one (toy_data 3) [[0; 2]; [1; 1]]%Z).
  repeat constructor; vm_compute; congruence.
Defined.

(** X8. A retrieved position that lies outside the labels, at or past
    [len(image_labels)] or below [-len(image_labels)], makes the conversion
    raise [IndexError]: so it does when the annotation has fewer entries than
    the index has vectors and one of the missing positions is retrieved. *)
Theorem predicted_labels_index_error (labels : list nat) (found : list (list Z)) :
  Exists (Exists (fun i => (Z.of_nat (length labels) <= i \/
                            i < - Z.of_nat (length labels))%Z)) found ->
  labels_pred labels found = Raise IndexError.
Proof. apply predicted_labels_out_of_range. Qed.

Lemma predicted_labels_index_error_witness :
  labels_pred (image_labels (toy_data 2)) [[0; 1]; [1; 2]]%Z = Raise IndexError.
Proof.
  apply predicted_labels_index_error.
  apply Exists_cons_tl, Exists_cons_hd, Exists_cons_tl, Exists_cons_hd.
  left. vm_compute. congruence.
Defined.

(** ** Checkpoints and the output directory *)

Section ScriptFiles.
Context {F M O : Type}.
Variable zero : F.
Variable cuda : bool.
Variable get_embedding_pair : M -> tensor2 F -> tensor2 F -> result (ndarray F * ndarray F).
Variable float32 : F -> F.
Variable l2sqr : list F -> list F -> F.
Variable fle : F -> F -> bool.
Variable fresh_model : M.
Variable random_choice : list nat -> nat -> result (list nat).
Implicit Type fs : gmap string (file F M O).

Local Abbreviation eval_main :=
  (Evaluation.main zero cuda get_embedding_pair float32 l2sqr fle fresh_model random_choice).

Lemma load_model_spec fs :
  Evaluation.load_model fresh_model fs =
    match fs !! Evaluation.CHECKPOINT with
    | Some (CheckpointFile c) => Ok (model_state_dict c)
    | Some _ => Raise (UnpicklingError Evaluation.CHECKPOINT)
    | None => Ok fresh_model
    end.
Proof.
  unfold Evaluation.load_model. destruct (fs !! Evaluation.CHECKPOINT) as [f|] eqn:E.
  - rewrite (path_exists_Some _ _ _ E). unfold torch_load. rewrite E. by destruct f.
  - by rewrite (path_exists_None _ _ E).
Qed.

Lemma eval_main_model fs out :
  eval_main fs = Ok out -> Evaluation.load_model fresh_model fs = Ok (eo_model out).
Proof.
  intros E. apply main_Ok in E as (imgs & txts & test_loader & model & _ & _ & _ & Hm & E).
  apply evaluate_Ok in E as (file & img & txt & found & preds & samples & figures & E).
  by destruct E as (_ & _ & _ & _ & _ & _ & ->).
Qed.

(** X9. The evaluation script takes from a checkpoint at
    [models/<model_id>.pth] the model state only, and every later step runs
    with it; a file at that path that is not a checkpoint aborts the run;
    with no file there the run keeps the model as constructed. *)
Theorem evaluation_model_comes_from_checkpoint fs :
  match fs !! Evaluation.CHECKPOINT with
  | Some (CheckpointFile c) =>
      forall out, eval_main fs = Ok out -> eo_model out = model_state_dict c
  | Some _ => aborts (eval_main fs)
  | None => forall out, eval_main fs = Ok out -> eo_model out = fresh_model
  end.
Proof.
  pose proof (load_model_spec fs) as Hspec.
  destruct (fs !! Evaluation.CHECKPOINT) as [[]|];
    try (intros out E; apply eval_main_model in E; congruence);
    (destruct (eval_main fs) as [out|e] eqn:E; [|by exists e];
     apply eval_main_model in E; congruence).
Qed.

End ScriptFiles.


(** ** The dataloader and the loop together *)

Lemma zip_collate {F : Type} (imgs : tensor2 F) (txts : tensor3 F) :
  length txts = length imgs ->
  map fst (zip imgs txts) = imgs /\ map snd (zip imgs txts) = txts.
Proof.
  intros H. split.
  - change (map fst ?l) with (l.*1). apply fst_zip. lia.
  - change (map snd ?l) with (l.*2). apply snd_zip. lia.
Qed.

Section WholeDataset.
Context {F M : Type}.
Variable zero : F.
Variable get_embedding_pair : M -> tensor2 F -> tensor2 F -> result (ndarray F * ndarray F).

Lemma extract_whole_dataset (imgs : tensor2 F) (txts : tensor3 F) model out_size
    model_id n :
  emits_rows get_embedding_pair model 1024 ->
  five_by_300 txts ->
  length txts = length imgs ->
  n <= length imgs ->
  exists text_batch im_emb text_emb,
    reshape (n * 5) 300 (take n txts) = Ok text_batch /\
    get_embedding_pair model (take n imgs) text_batch = Ok (im_emb, text_emb) /\
    extract_embeddings zero true get_embedding_pair [(imgs, txts)] model out_size
      model_id n = Ok (im_emb, text_emb).
Proof.
  intros Hnet Htx Hlen Hn.
  destruct (reshape_five_by_300 (take n txts)) as (tb & Hre & Htb);
    [by apply five_by_300_take|].
  assert (Hni : length (take n imgs) = n) by (rewrite length_take; lia).
  assert (Hnt : length (take n txts) = n) by (rewrite length_take; lia).
  rewrite Hnt in Hre, Htb.
  destruct (Hnet (take n imgs) tb)
    as (ie & te & Hgep & (Hie1 & Hie0 & Hiew) & (Hte1 & Hte0 & Htew)).
  exists tb, ie, te. split; [done|]. split; [done|].
  unfold extract_embeddings, extract_loop. cbn [for_each].
  rewrite (extract_batch_from_0 get_embedding_pair model imgs txts n n tb ie te);
    try done; try congruence; try apply np_zeros_shape0.
  cbn [mbind result_bind image_embeddings text_embeddings np_zeros rows].
  rewrite !drop_replicate, !Nat.sub_diag. cbn [replicate].
  by rewrite !app_nil_r, !ndarray_eta.
Qed.

(** X11. From the dataset to the arrays: on a dataset of at least
    [num_samples] items with five sentences of 300 features each, with a
    network that returns one row of 1024 components per image and per
    sentence, the dataloader of [main] gives one batch and
    [extract_embeddings] returns exactly the embeddings the network computes
    for the first [num_samples] items. *)
Theorem main_extracts_first_samples (imgs : tensor2 F) (txts : tensor3 F) model :
  emits_rows get_embedding_pair model 1024 ->
  five_by_300 txts ->
  length txts = length imgs ->
  num_samples <= length imgs ->
  exists test_loader text_batch im_emb text_emb,
    DataLoader (zip imgs txts) (length (zip imgs txts)) = Ok test_loader /\
    reshape (num_samples * 5) 300 (take num_samples txts) = Ok text_batch /\
    get_embedding_pair model (take num_samples imgs) text_batch = Ok (im_emb, text_emb) /\
    extract_embeddings zero true get_embedding_pair test_loader model Evaluation.out_size
      Evaluation.model_id num_samples = Ok (im_emb, text_emb).
Proof.
  intros Hnet Htx Hlen Hn.
  destruct (extract_whole_dataset imgs txts model Evaluation.out_size Evaluation.model_id
              num_samples Hnet Htx Hlen Hn) as (tb & ie & te & Hre & Hgep & Hex).
  destruct (zip_collate imgs txts Hlen) as [Hfst Hsnd].
  exists [(imgs, txts)], tb, ie, te. split_and!; try done.
  rewrite DataLoader_length, Hfst, Hsnd; [done|].
  intros Hnil. apply (f_equal length) in Hnil. rewrite length_zip in Hnil.
  pose proof knn_k_le_num_samples. unfold knn_k in *. simpl in Hnil. lia.
Qed.
End WholeDataset.

Lemma main_extracts_first_samples_witness :
  exists test_loader text_batch im_emb text_emb,
    DataLoader (zip (fst (toy_batch num_samples)) (snd (toy_batch num_samples)))
      (length (zip (fst (toy_batch num_samples)) (snd (toy_batch num_samples))))
      = Ok test_loader /\
    reshape (num_samples * 5) 300 (take num_samples (snd (toy_batch num_samples)))
      = Ok text_batch /\
    constant_encoder 1024 () (take num_samples (fst (toy_batch num_samples))) text_batch
      = Ok (im_emb, text_emb) /\
    extract_embeddings 0%Z true (constant_encoder 1024) test_loader () Evaluation.out_size
      Evaluation.model_id num_samples = Ok (im_emb, text_emb).
Proof.
  apply (main_extracts_first_samples 0%Z (constant_encoder 1024)).
  - apply constant_encoder_emits_rows.
  - apply toy_batch_five_by_300.
  - unfold toy_batch. cbn [fst snd]. by rewrite !length_replicate.
  - unfold toy_batch. cbn [fst]. by rewrite length_replicate.
Defined.

(** ** The figures *)

Lemma py_index_nat_Ok {A : Type} (l : list A) (i : nat) x :
  py_index l (Z.of_nat i) = Ok x -> l !! i = Some x.
Proof.
  unfold py_index. destruct (Z.ltb_spec (Z.of_nat i) 0) as [?|_]; [lia|].
  destruct (Z.ltb_spec (Z.of_nat i) 0) as [?|_]; [lia|].
  rewrite Nat2Z.id. by destruct (l !! i) as [y|]; intros [= <-].
Qed.

Lemma text_labels_length data : length (text_labels data) = 5 * length data.
Proof. apply flat_map_seq_length. Qed.

(** X12. With distinct file names, the figure of sentence number [s] shows
    first the image of the annotation entry [s / 5], the one the sentence
    belongs to, and then, for the positions retrieved for [s] in their
    order, the image at each position of the file names. *)
Theorem figure_shows_ground_truth_then_retrieved {F M O : Type}
    (fs : gmap string (file F M O)) (data : list item) (found : list (list Z))
    (s : nat) (fig : list string) :
  NoDup (map filename data) ->
  Evaluation.show_example fs (ground_truth data) (text_labels data) found s = Ok fig ->
  exists it row shown,
    data !! (s / 5) = Some it /\ found !! s = Some row /\
    fig = filename it :: shown /\
    Forall2 (fun pred name => py_index (map filename data) pred = Ok name) row shown.
Proof.
  intros Hnd H. pose proof (ground_truth_keys data Hnd) as Hkeys.
  unfold Evaluation.show_example in H. rewrite Hkeys in H.
  apply bind_Ok in H as (query & _ & H).
  apply bind_Ok in H as (gt_image_id & Hid & H).
  apply bind_Ok in H as (gt_image_filename & Hname & H).
  apply bind_Ok in H as (u & _ & H).
  apply bind_Ok in H as (predictions & Hrow & H).
  apply bind_Ok in H as (shown & Hshown & [= <-]).
  apply py_index_nat_Ok in Hid, Hrow.
  assert (Hs : s < 5 * length data).
  { rewrite <- text_labels_length. by eapply lookup_lt_Some. }
  rewrite text_labels_lookup in Hid by done.
  assert (gt_image_id = s / 5 + 1) as -> by congruence.
  replace (Z.of_nat (s / 5 + 1) - 1)%Z with (Z.of_nat (s / 5)) in Hname by lia.
  apply py_index_nat_Ok, list_lookup_fmap_Some in Hname as (it & -> & Hit).
  exists it, predictions, shown. split_and!; try done.
  apply for_list_Forall2 in Hshown.
  eapply Forall2_impl; [exact Hshown|]. intros pred name Hp. cbn beta in Hp.
  apply bind_Ok in Hp as (filename & Hf & Hp).
  apply bind_Ok in Hp as (u' & _ & [= <-]). done.
Qed.

Lemma figure_shows_ground_truth_then_retrieved_witness :
  exists it row shown,
    toy_data 3 !! (7 / 5) = Some it /\
    replicate 15 [2; 0]%Z !! 7 = Some row /\
    ["1.jpg"; "2.jpg"; "0.jpg"] = filename it :: shown /\
    Forall2 (fun pred name => py_index (map filename (toy_data 3)) pred = Ok name) row shown.
Proof.
  apply (figure_shows_ground_truth_then_retrieved (toy_images 3) (toy_data 3)
           (replicate 15 [2; 0]%Z) 7).
  - apply (bool_decide_unpack _). vm_compute. reflexivity.
  - vm_compute. reflexivity.
Defined.

(** ** A whole run of the evaluation script *)

Section WholeRun.
Context {F M O : Type}.
Variable zero : F.
Variable get_embedding_pair : M -> tensor2 F -> tensor2 F -> result (ndarray F * ndarray F).
Variable float32 : F -> F.
Variable l2sqr : list F -> list F -> F.
Variable fle : F -> F -> bool.
Variable fresh_model : M.
Variable random_choice : list nat -> nat -> result (list nat).
Implicit Type fs : gmap string (file F M O).

Local Abbreviation eval_main :=
  (Evaluation.main zero true get_embedding_pair float32 l2sqr fle fresh_model random_choice).

(** The run of [main] under its preconditions. *)
Lemma eval_main_total fs imgs txts model entries samples :
  fs !! Evaluation.TEST_IMG_EMB = Some (ImageFeatures imgs) ->
  fs !! Evaluation.TEST_TEXT_EMB = Some (TextFeatures txts) ->
  five_by_300 txts ->
  length txts = length imgs ->
  num_samples <= length imgs ->
  Evaluation.load_model fresh_model fs = Ok model ->
  emits_rows get_embedding_pair model 1024 ->
  fs !! Evaluation.TEST_JSON = Some (Annotation entries) ->
  num_samples <= length entries ->
  Forall (fun it => length (sentences it) = 5) (take num_samples entries) ->
  NoDup (map filename (take num_samples entries)) ->
  (forall it, it ∈ take num_samples entries ->
     fs !! (Evaluation.IMAGES_DIR +:+ filename it) = Some Jpeg) ->
  random_choice (seq 0 (length (take num_samples entries) * 5)) 20 = Ok samples ->
  Forall (fun s => s < length (take num_samples entries) * 5) samples ->
  exists out,
    eval_main fs = Ok out /\
    eo_model out = model /\
    eo_data out = take num_samples entries /\
    length (eo_I out) = num_samples * 5 /\
    length (eo_figures out) = length samples.
Proof.
  intros Himg Htxt Htx Hlen Hn Hmodel Hnet Hjson Hne H5 Hnd Hfiles Hrand Hvalid.
  destruct (extract_whole_dataset zero get_embedding_pair imgs txts model
              Evaluation.out_size Evaluation.model_id num_samples Hnet Htx Hlen Hn)
    as (tb & ie & te & _ & _ & Hex).
  assert (Hjl : json_load fs Evaluation.TEST_JSON = Ok entries)
    by (unfold json_load; by rewrite Hjson).
  assert (exists out, Evaluation.evaluate zero true get_embedding_pair float32 l2sqr fle
                        random_choice fs [(imgs, txts)] model = Ok out) as [out Hout]
    by (eapply evaluate_total; eauto).
  exists out.
  assert (Hmain : eval_main fs = Ok out).
  { unfold Evaluation.main, Evaluation.setup, Flickr30k, load_image_features,
      load_text_features.
    rewrite Himg, Htxt. cbn [mbind result_bind].
    destruct (zip_collate imgs txts Hlen) as [Hfst Hsnd].
    rewrite DataLoader_length, Hfst, Hsnd.
    - cbn [mbind result_bind]. rewrite Hmodel. exact Hout.
    - intros Hnil. apply (f_equal length) in Hnil. rewrite length_zip in Hnil.
      pose proof knn_k_le_num_samples. unfold knn_k in *. simpl in Hnil. lia. }
  split; [exact Hmain|].
  apply evaluate_Ok in Hout
    as (file' & img & txt & found & preds & samples' & figures & E).
  destruct E as (Hf' & Hex' & Hs & _ & Hr' & Hfigs & ->).
  cbn [eo_model eo_data eo_I eo_figures].
  assert (file' = entries) as -> by congruence.
  assert (samples' = samples) as -> by congruence.
  split_and!; try done.
  - apply extract_embeddings_shape in Hex' as [(Hi1 & _) (Ht1 & Ht0 & _)].
    rewrite search_spec in Hs by congruence. injection Hs as <-. cbn [snd].
    cbn [Evaluation.np_float32 rows]. rewrite !length_map. exact Ht0.
  - apply for_list_Forall2, Forall2_length in Hfigs. done.
Qed.

(** X13. The evaluation script runs to its end on a machine with CUDA when
    the two feature files hold at least [num_samples] items of five
    sentences of 300 features, the checkpoint (if any) loads, the network
    returns rows of 1024 components, the annotation has at least
    [num_samples] entries of five sentences under distinct file names with
    their images in place, and the samples drawn are sentence numbers.  The
    run then evaluates the first [num_samples] entries, searches with
    [5 * num_samples] queries and shows one figure for each sample. *)
Theorem main_runs_to_end fs imgs txts model entries samples :
  fs !! Evaluation.TEST_IMG_EMB = Some (ImageFeatures imgs) ->
  fs !! Evaluation.TEST_TEXT_EMB = Some (TextFeatures txts) ->
  five_by_300 txts ->
  length txts = length imgs ->
  num_samples <= length imgs ->
  Evaluation.load_model fresh_model fs = Ok model ->
  emits_rows get_embedding_pair model 1024 ->
  fs !! Evaluation.TEST_JSON = Some (Annotation entries) ->
  num_samples <= length entries ->
  Forall (fun it => length (sentences it) = 5) (take num_samples entries) ->
  NoDup (map filename (take num_samples entries)) ->
  (forall it, it ∈ take num_samples entries ->
     fs !! (Evaluation.IMAGES_DIR +:+ filename it) = Some Jpeg) ->
  random_choice (seq 0 (length (take num_samples entries) * 5)) 20 = Ok samples ->
  Forall (fun s => s < length (take num_samples entries) * 5) samples ->
  exists out,
    eval_main fs = Ok out /\
    eo_model out = model /\
    eo_data out = take num_samples entries /\
    length (eo_I out) = num_samples * 5 /\
    length (eo_figures out) = length samples.
Proof. apply eval_main_total. Qed.
End WholeRun.

Lemma toy_data_five_sentences n : Forall (fun it => length (sentences it) = 5) (toy_data n).
Proof.
  unfold toy_data. apply Forall_forall. intros it (i & -> & _)%list_elem_of_fmap.
  reflexivity.
Qed.

Lemma toy_images_lookup n it :
  it ∈ toy_data n -> toy_images n !! (Evaluation.IMAGES_DIR +:+ filename it) = Some Jpeg.
Proof.
  unfold toy_images. induction (toy_data n) as [|it' l IH]; intros Hin.
  - by apply elem_of_nil in Hin.
  - cbn [map list_to_map foldr]. unfold uncurry. cbn [fst snd].
    destruct (decide (Evaluation.IMAGES_DIR +:+ filename it' =
                      Evaluation.IMAGES_DIR +:+ filename it)) as [->|Hne].
    + apply lookup_insert_eq.
    + rewrite lookup_insert_ne by done. apply IH.
      apply elem_of_cons in Hin as [->|?]; [done | done].
Qed.

Lemma images_dir_apart name :
  Evaluation.IMAGES_DIR +:+ name ≠ Evaluation.CHECKPOINT /\
  Evaluation.IMAGES_DIR +:+ name ≠ Evaluation.TEST_IMG_EMB /\
  Evaluation.IMAGES_DIR +:+ name ≠ Evaluation.TEST_TEXT_EMB /\
  Evaluation.IMAGES_DIR +:+ name ≠ Evaluation.TEST_JSON.
Proof. split_and!; intros H; vm_compute in H; discriminate H. Qed.

Lemma toy_test_set_lookups n :
  toy_test_set n !! Evaluation.CHECKPOINT = Some (CheckpointFile (mk_checkpoint () 0 0)) /\
  toy_test_set n !! Evaluation.TEST_IMG_EMB = Some (ImageFeatures (fst (toy_batch n))) /\
  toy_test_set n !! Evaluation.TEST_TEXT_EMB = Some (TextFeatures (snd (toy_batch n))) /\
  toy_test_set n !! Evaluation.TEST_JSON = Some (Annotation (toy_data n)) /\
  (forall it, it ∈ toy_data n ->
     toy_test_set n !! (Evaluation.IMAGES_DIR +:+ filename it) = Some Jpeg).
Proof.
  unfold toy_test_set. split_and!.
  - apply lookup_insert_eq.
  - rewrite lookup_insert_ne by (intros H; vm_compute in H; discriminate H).
    apply lookup_insert_eq.
  - rewrite !lookup_insert_ne by (intros H; vm_compute in H; discriminate H).
    apply lookup_insert_eq.
  - rewrite !lookup_insert_ne by (intros H; vm_compute in H; discriminate H).
    apply lookup_insert_eq.
  - intros it Hit. destruct (images_dir_apart (filename it)) as (H1 & H2 & H3 & H4).
    rewrite !lookup_insert_ne by done. by apply toy_images_lookup.
Qed.

Lemma toy_data_take_all n : take n (toy_data n) = toy_data n.
Proof. apply take_ge. unfold toy_data. by rewrite length_map, length_seq. Qed.

Lemma toy_data_length n : length (toy_data n) = n.
Proof. unfold toy_data. by rewrite length_map, length_seq. Qed.

Lemma toy_data_names_distinct : NoDup (map filename (toy_data num_samples)).
Proof. apply (bool_decide_unpack _). vm_compute. reflexivity. Qed.

Lemma toy_load_model :
  Evaluation.load_model () (toy_test_set num_samples) = Ok ().
Proof.
  destruct (toy_test_set_lookups num_samples) as (Hck & _).
  unfold Evaluation.load_model. rewrite (path_exists_Some _ _ _ Hck).
  unfold torch_load. by rewrite Hck.
Qed.

Lemma toy_samples_valid :
  Forall (fun s => s < length (take num_samples (toy_data num_samples)) * 5)
    (take 20 (seq 0 (length (take num_samples (toy_data num_samples)) * 5))).
Proof. apply Forall_take, Forall_seq. intros j Hj. lia. Qed.

(** A run on the small test set. *)
Lemma toy_run_returns :
  exists out,
    Evaluation.main 0%Z true (constant_encoder 1024) (fun x => x) (fun _ _ => 0%Z) Z.leb ()
      (fun population size => Ok (take size population)) (toy_test_set num_samples) = Ok out.
Proof.
  destruct (toy_test_set_lookups num_samples) as (_ & Himg & Htxt & Hjson & Hjpg).
  destruct (eval_main_total 0%Z (constant_encoder 1024) (fun x => x) (fun _ _ => 0%Z)
              Z.leb () (fun population size => Ok (take size population))
              (toy_test_set num_samples) (fst (toy_batch num_samples))
              (snd (toy_batch num_samples)) () (toy_data num_samples)
              (take 20 (seq 0 (length (take num_samples (toy_data num_samples)) * 5))))
    as (out & Hmain & _).
  - exact Himg.
  - exact Htxt.
  - apply toy_batch_five_by_300.
  - unfold toy_batch. cbn [fst snd]. by rewrite !length_replicate.
  - unfold toy_batch. cbn [fst]. by rewrite length_replicate.
  - apply toy_load_model.
  - apply constant_encoder_emits_rows.
  - exact Hjson.
  - rewrite toy_data_length. apply Nat.le_refl.
  - rewrite toy_data_take_all. apply toy_data_five_sentences.
  - rewrite toy_data_take_all. apply toy_data_names_distinct.
  - rewrite toy_data_take_all. exact Hjpg.
  - reflexivity.
  - apply toy_samples_valid.
  - by exists out.
Defined.

Lemma main_runs_to_end_witness :
  exists out,
    Evaluation.main 0%Z true (constant_encoder 1024) (fun x => x) (fun _ _ => 0%Z) Z.leb ()
      (fun population size => Ok (take size population)) (toy_test_set num_samples) = Ok out /\
    eo_data out = take num_samples (toy_data num_samples) /\
    length (eo_I out) = num_samples * 5 /\
    length (eo_figures out) = 20.
Proof.
  destruct (toy_test_set_lookups num_samples) as (_ & Himg & Htxt & Hjson & Hjpg).
  destruct (main_runs_to_end 0%Z (constant_encoder 1024) (fun x => x) (fun _ _ => 0%Z)
              Z.leb () (fun population size => Ok (take size population))
              (toy_test_set num_samples) (fst (toy_batch num_samples))
              (snd (toy_batch num_samples)) () (toy_data num_samples)
              (take 20 (seq 0 (length (take num_samples (toy_data num_samples)) * 5))))
    as (out & Hmain & _ & Hdata & Hlen & Hfigs).
  - exact Himg.
  - exact Htxt.
  - apply toy_batch_five_by_300.
  - unfold toy_batch. cbn [fst snd]. by rewrite !length_replicate.
  - unfold toy_batch. cbn [fst]. by rewrite length_replicate.
  - apply toy_load_model.
  - apply constant_encoder_emits_rows.
  - exact Hjson.
  - rewrite toy_data_length. apply Nat.le_refl.
  - rewrite toy_data_take_all. apply toy_data_five_sentences.
  - rewrite toy_data_take_all. apply toy_data_names_distinct.
  - rewrite toy_data_take_all. exact Hjpg.
  - reflexivity.
  - apply toy_samples_valid.
  - exists out. split; [exact Hmain|]. split; [exact Hdata|]. split; [exact Hlen|].
    rewrite Hfigs, length_take, length_seq, toy_data_take_all, toy_data_length.
    vm_compute. reflexivity.
Defined.

(** ** What counts as a hit *)

Section Hits.
Context {F M O : Type}.
Variable zero : F.
Variable cuda : bool.
Variable get_embedding_pair : M -> tensor2 F -> tensor2 F -> result (ndarray F * ndarray F).
Variable float32 : F -> F.
Variable l2sqr : list F -> list F -> F.
Variable fle : F -> F -> bool.
Variable fresh_model : M.
Variable random_choice : list nat -> nat -> result (list nat).
Implicit Type fs : gmap string (file F M O).

Local Abbreviation eval_main :=
  (Evaluation.main zero cuda get_embedding_pair float32 l2sqr fle fresh_model random_choice).

(** The rows of labels of a run that returns: positions of the index, and
    positions of the annotation as well, since their conversion to labels
    went through. *)
Lemma eval_main_positions fs out :
  eval_main fs = Ok out ->
  Forall (Forall (fun i => (0 <= i < Z.of_nat (length (eo_data out)))%Z)) (eo_I out) /\
  labels_pred (image_labels (eo_data out)) (eo_I out) = Ok (eo_labels_pred out) /\
  eo_t_labels out = t_labels (eo_data out).
Proof.
  intros E. apply main_Ok in E as (imgs & txts & test_loader & model & _ & _ & _ & _ & E).
  apply evaluate_Ok in E as (file & img & txt & found & preds & samples & figures & E).
  destruct E as (_ & Hex & Hs & Hp & _ & _ & ->).
  cbn [eo_data eo_I eo_labels_pred eo_t_labels]. split_and!; [|done|done].
  apply extract_embeddings_shape in Hex as [(Hi1 & Hi0 & _) (Ht1 & _)].
  rewrite search_spec in Hs by congruence. injection Hs as <-. cbn [snd] in *.
  set (ix := mk_index _ _) in *.
  assert (Hix : ntotal ix = num_samples).
  { unfold ntotal, ix. cbn [index_xb Evaluation.np_float32 rows].
    rewrite length_map. exact Hi0. }
  apply Forall_forall. intros row Hrow. apply Forall_forall. intros i Hi.
  assert (Hpos : (0 <= i < Z.of_nat num_samples)%Z).
  { apply list_elem_of_fmap in Hrow as (q & -> & _).
    pose proof (proj1 (search_one_valid l2sqr fle ix knn_k q
                         ltac:(rewrite Hix; apply knn_k_le_num_samples))) as Hv.
    rewrite Forall_forall in Hv. rewrite <- Hix. by apply Hv. }
  split; [lia|].
  destruct (decide (i < Z.of_nat (length (take num_samples file)))%Z) as [|Hge]; [done|].
  exfalso. rewrite predicted_labels_out_of_range in Hp; [done|].
  apply Exists_exists. exists row. split; [done|].
  apply Exists_exists. exists i. split; [done|].
  left. rewrite image_labels_seq, length_seq. lia.
Qed.

(** X14. In a run that returns, the predicted labels are the retrieved
    positions plus one, and a predicted label of query [m] is the relevant
    label of [m] exactly when the position retrieved is [m / 5], the entry
    the sentence belongs to. *)
Theorem hit_iff_own_image_retrieved fs out :
  Evaluation.main zero cuda get_embedding_pair float32 l2sqr fle fresh_model random_choice
    fs = Ok out ->
  eo_labels_pred out = map (map (fun i => Z.to_nat i + 1)) (eo_I out) /\
  (forall m actual row i,
     eo_t_labels out !! m = Some actual -> eo_I out !! m = Some row -> i ∈ row ->
     (Z.to_nat i + 1 ∈ actual <-> i = Z.of_nat (m / 5))).
Proof.
  intros E. apply eval_main_positions in E as (Hvalid & Hp & Ht). split.
  - rewrite labels_in_range in Hp by done. congruence.
  - intros m actual row i Hm Hrow Hi. rewrite Ht in Hm.
    unfold t_labels in Hm. apply list_lookup_fmap_Some in Hm as (l & -> & Hl).
    assert (Hlt : m < 5 * length (eo_data out)).
    { rewrite <- text_labels_length. by eapply lookup_lt_Some. }
    rewrite text_labels_lookup in Hl by done. assert (l = m / 5 + 1) as -> by congruence.
    assert (0 <= i)%Z.
    { rewrite Forall_forall in Hvalid.
      pose proof (Hvalid row ltac:(by eapply list_elem_of_lookup_2)) as Hr.
      rewrite Forall_forall in Hr. by apply Hr. }
    rewrite list_elem_of_singleton. lia.
Qed.

(** X15. Without CUDA the evaluation script cannot return: the model is
    moved to the device before the first batch, whatever the files hold, and
    the guards on [cuda] inside the loop are never reached. *)
Theorem evaluation_needs_cuda fs :
  cuda = false -> aborts (eval_main fs).
Proof.
  intros Hc. destruct (eval_main fs) as [out|e] eqn:E; [|by exists e].
  exfalso. apply main_Ok in E as (imgs & txts & test_loader & model & _ & _ & _ & _ & E).
  apply evaluate_Ok in E as (file & img & txt & found & preds & samples & figures & E).
  destruct E as (_ & Hex & _). unfold extract_embeddings, extract_loop in Hex.
  by rewrite Hc in Hex.
Qed.
End Hits.

Lemma hit_iff_own_image_retrieved_witness :
  exists out,
    Evaluation.main 0%Z true (constant_encoder 1024) (fun x => x) (fun _ _ => 0%Z) Z.leb ()
      (fun population size => Ok (take size population)) (toy_test_set num_samples) = Ok out /\
    eo_labels_pred out = map (map (fun i => Z.to_nat i + 1)) (eo_I out).
Proof.
  destruct toy_run_returns as [out Hout]. exists out. split; [exact Hout|].
  exact (proj1 (hit_iff_own_image_retrieved 0%Z true (constant_encoder 1024) (fun x => x)
                  (fun _ _ => 0%Z) Z.leb () (fun population size => Ok (take size population))
                  (toy_test_set num_samples) out Hout)).
Defined.

Lemma evaluation_needs_cuda_witness :
  aborts (Evaluation.main 0%Z false (constant_encoder 1024) (fun x => x) (fun _ _ => 0%Z)
            Z.leb () (fun population size => Ok (take size population))
            (toy_test_set num_samples)).
Proof.
  apply (evaluation_needs_cuda 0%Z false (constant_encoder 1024) (fun x => x)
           (fun _ _ => 0%Z) Z.leb () (fun population size => Ok (take size population))
           (toy_test_set num_samples)).
  reflexivity.
Defined.

(** ** Distinct retrievals *)

Section Distinct.
Context {F M O : Type}.
Variable zero : F.
Variable cuda : bool.
Variable get_embedding_pair : M -> tensor2 F -> tensor2 F -> result (ndarray F * ndarray F).
Variable float32 : F -> F.
Variable l2sqr : list F -> list F -> F.
Variable fle : F -> F -> bool.
Variable fresh_model : M.
Variable random_choice : list nat -> nat -> result (list nat).
Implicit Type fs : gmap string (file F M O).

(** X16. In a run of the evaluation script that returns, the search has
    given each of the [5 * num_samples] text queries [k = 5] positions that
    are pairwise distinct, so no image is retrieved, shown or counted twice
    for one query. *)
Theorem retrieved_positions_distinct fs out :
  Evaluation.main zero cuda get_embedding_pair float32 l2sqr fle fresh_model random_choice
    fs = Ok out ->
  length (eo_I out) = num_samples * 5 /\
  Forall (fun row => length row = knn_k /\ NoDup row) (eo_I out) /\
  Forall (fun preds => length preds = knn_k /\ NoDup preds) (eo_labels_pred out).
Proof.
  intros E. pose proof E as E'.
  apply eval_main_positions in E' as (Hvalid & Hp & _).
  rewrite labels_in_range in Hp by done. injection Hp as Hp.
  apply main_Ok in E as (imgs & txts & test_loader & model & _ & _ & _ & _ & E).
  apply evaluate_Ok in E as (file & img & txt & found & preds & samples & figures & E).
  destruct E as (_ & Hex & Hs & _ & _ & _ & ->).
  cbn [eo_I eo_labels_pred eo_data] in *. subst preds.
  apply extract_embeddings_shape in Hex as [(Hi1 & Hi0 & _) (Ht1 & Ht0 & _)].
  rewrite search_spec in Hs by congruence. injection Hs as <-. cbn [snd] in *.
  set (ix := mk_index _ _) in *.
  assert (Hix : knn_k <= ntotal ix).
  { unfold ntotal, ix. cbn [index_xb Evaluation.np_float32 rows].
    rewrite length_map. unfold shape0 in Hi0. rewrite Hi0. apply knn_k_le_num_samples. }
  assert (Hrows : Forall (fun row => length row = knn_k /\ NoDup row)
                    (map (search_one l2sqr fle ix knn_k)
                         (rows (Evaluation.np_float32 float32 txt)))).
  { apply Forall_forall. intros row (q & -> & _)%list_elem_of_fmap. split.
    - apply search_one_length.
    - by apply search_one_valid. }
  split_and!.
  - cbn [Evaluation.np_float32 rows]. rewrite !length_map. exact Ht0.
  - exact Hrows.
  - apply Forall_forall. intros ps (row & -> & Hrow)%list_elem_of_fmap.
    rewrite Forall_forall in Hrows, Hvalid.
    destruct (Hrows row Hrow) as [Hlen Hnd]. pose proof (Hvalid row Hrow) as Hv.
    split; [by rewrite length_map|].
    apply NoDup_fmap_2_strong; [|done].
    intros i j Hi Hj Heq. rewrite Forall_forall in Hv.
    pose proof (Hv i Hi). pose proof (Hv j Hj). lia.
Qed.
End Distinct.

Lemma retrieved_positions_distinct_witness :
  exists out,
    Evaluation.main 0%Z true (constant_encoder 1024) (fun x => x) (fun _ _ => 0%Z) Z.leb ()
      (fun population size => Ok (take size population)) (toy_test_set num_samples) = Ok out /\
    length (eo_I out) = num_samples * 5 /\
    Forall (fun row => length row = knn_k /\ NoDup row) (eo_I out).
Proof.
  destruct toy_run_returns as [out Hout]. exists out. split; [exact Hout|].
  destruct (retrieved_positions_distinct 0%Z true (constant_encoder 1024) (fun x => x)
              (fun _ _ => 0%Z) Z.leb () (fun population size => Ok (take size population))
              (toy_test_set num_samples) out Hout) as (H1 & H2 & _).
  split; [exact H1 | exact H2].
Defined.

(** ** The runs of the claims on the small test set *)

Lemma toy_scores_returns :
  exists q,
    Evaluation.main_scores 0%Z true (constant_encoder 1024) (fun x => x) (fun _ _ => 0%Z)
      Z.leb () (toy_test_set num_samples) = Ok q /\
    q_data q = toy_data num_samples.
Proof.
  destruct toy_run_returns as [out Hout].
  apply main_reaches_scores in Hout as (q & Hq & _).
  exists q. split; [exact Hq|].
  destruct (toy_test_set_lookups num_samples) as (_ & _ & _ & Hjson & _).
  apply main_scores_Ok in Hq as (test_loader & model & _ & Hquant).
  apply quantitative_Ok in Hquant as (file & img & txt & found & Hfile & _ & _ & _ & Heq).
  unfold json_load in Hfile. rewrite Hjson in Hfile.
  assert (file = toy_data num_samples) as -> by congruence.
  rewrite Heq. cbn [q_data]. apply toy_data_take_all.
Qed.

Lemma map_k_over_first_1000_items_witness :
  exists q file,
    Evaluation.main_scores 0%Z true (constant_encoder 1024) (fun x => x) (fun _ _ => 0%Z)
      Z.leb () (toy_test_set num_samples) = Ok q /\
    json_load (toy_test_set num_samples) Evaluation.TEST_JSON = Ok file /\
    q_data q = take num_samples file /\
    q_map_k q = mapk (q_t_labels q) (q_labels_pred q) knn_k /\
    q_t_labels q = t_labels (q_data q) /\
    q_labels_pred q = map (map (fun i => Z.to_nat i + 1)) (q_I q).
Proof.
  destruct toy_scores_returns as (q & Hq & _). exists q.
  destruct (map_k_over_first_1000_items 0%Z true (constant_encoder 1024) (fun x => x)
              (fun _ _ => 0%Z) Z.leb () (toy_test_set num_samples) q Hq)
    as (file & test_loader & img & txt & Hfile & Hd & _ & Hmap & _ & Ht & _ & _ & _ & _ & _
        & _ & _ & _ & _ & Hpreds & _).
  exists file. split_and!; assumption.
Defined.

Lemma toy_scores_image_missing :
  exists q,
    Evaluation.main_scores 0%Z true (constant_encoder 1024) (fun x => x) (fun _ _ => 0%Z)
      Z.leb () (toy_test_set_image_missing num_samples) = Ok q /\
    q_data q = toy_data num_samples.
Proof.
  destruct toy_scores_returns as (q & Hq & Hd). exists q. split; [|exact Hd].
  destruct (images_dir_apart (filename (toy_item 0))) as (N1 & N2 & N3 & N4).
  rewrite <- Hq. unfold toy_test_set_image_missing.
  apply main_scores_reads; by rewrite lookup_delete_ne.
Qed.

Lemma toy_first_figure_lookups :
  dict_get (dict_sentences (ground_truth (toy_data num_samples))) 0 = Ok "caption 0 of 0" /\
  py_index (text_labels (toy_data num_samples)) (Z.of_nat 0) = Ok 1 /\
  py_index (dict_keys (gt (ground_truth (toy_data num_samples)))) (Z.of_nat 1 - 1)%Z =
    Ok (filename (toy_item 0)).
Proof. split_and!; vm_compute; reflexivity. Qed.

Lemma missing_input_files_witness :
  Evaluation.main 0%Z true (constant_encoder 1024) (fun x => x) (fun _ _ => 0%Z) Z.leb ()
    (fun population size => Ok (take size population))
    (∅ : gmap string (file Z unit nat)) =
    Raise (FileNotFoundError Evaluation.TEST_IMG_EMB) /\
  Evaluation.main 0%Z true (constant_encoder 1024) (fun x => x) (fun _ _ => 0%Z) Z.leb ()
    (fun population size => Ok (take size population)) image_features_only =
    Raise (FileNotFoundError Evaluation.TEST_TEXT_EMB) /\
  Evaluation.main 0%Z true (constant_encoder 1024) (fun x => x) (fun _ _ => 0%Z) Z.leb ()
    (fun population size => Ok (take size population)) features_only =
    Raise (FileNotFoundError Evaluation.TEST_JSON) /\
  Evaluation.main 0%Z true (constant_encoder 1024) (fun x => x) (fun _ _ => 0%Z) Z.leb ()
    (fun population size => Ok (take size population))
    (toy_test_set_image_missing num_samples) =
    Raise (FileNotFoundError (Evaluation.IMAGES_DIR +:+ filename (toy_item 0))) /\
  Evaluation.show_example first_image_only (ground_truth (toy_data 2))
    (text_labels (toy_data 2)) [[0%Z; 1%Z]] 0 =
    Raise (FileNotFoundError (Evaluation.IMAGES_DIR +:+ filename (toy_item 1))) /\
  Training.main true 0 0 (∅ : gmap string (file Z nat nat)) =
    Raise (FileNotFoundError Training.TRAIN_TEXT_EMB) /\
  Training.main true 0 0 training_features_only =
    Raise (FileNotFoundError Training.TEST_TEXT_EMB) /\
  Evaluation.load_model () (features_only : gmap string (file Z unit nat)) = Ok () /\
  Training.main true 0 0 training_inputs =
    Ok (Training.make_output_dir training_inputs,
        mk_fit_call [] [] 0 0 20 true 5 Training.model_id 0).
Proof.
  pose proof (missing_input_files 0%Z true (constant_encoder 1024) (fun x => x)
                (fun _ _ => 0%Z) Z.leb () 0 (fun population size => Ok (take size population)))
    as Heval.
  pose proof (missing_input_files 0%Z true (fun _ : nat => constant_encoder 1024 ())
                (fun x => x) (fun _ _ => 0%Z) Z.leb 0 0
                (fun population size => Ok (take size population)))
    as Htrain.
  split_and!.
  - destruct (Heval ∅) as (H & _). apply H. reflexivity.
  - destruct (Heval image_features_only) as (_ & H & _).
    apply (H (fst (toy_batch 1))); vm_compute; reflexivity.
  - destruct (Heval features_only) as (_ & _ & H & _).
    destruct (Evaluation.setup () features_only) as [[test_loader model]|e] eqn:E;
      [|vm_compute in E; discriminate E].
    apply (H test_loader model); [reflexivity|]. vm_compute. reflexivity.
  - destruct (Heval (toy_test_set_image_missing num_samples)) as (_ & _ & _ & Hshow & Hrun & _).
    destruct toy_scores_image_missing as (q & Hq & Hd).
    destruct toy_first_figure_lookups as (H1 & H2 & H3).
    apply (Hrun q [] 0 (seq 1 19)); [exact Hq | | constructor |].
    + rewrite Hd, toy_data_length. vm_compute. reflexivity.
    + rewrite Hd.
      apply (proj1 (Hshow (ground_truth (toy_data num_samples))
                      (text_labels (toy_data num_samples)) (q_I q) 0 "caption 0 of 0" 1
                      (filename (toy_item 0)) H1 H2 H3)).
      apply lookup_delete_eq.
  - destruct (Heval first_image_only) as (_ & _ & _ & Hshow & _).
    apply (proj2 (Hshow (ground_truth (toy_data 2)) (text_labels (toy_data 2))
                    [[0%Z; 1%Z]] 0 "caption 0 of 0" 1 (filename (toy_item 0))
                    ltac:(vm_compute; reflexivity) ltac:(vm_compute; reflexivity)
                    ltac:(vm_compute; reflexivity))
             [0%Z] 1%Z [] (filename (toy_item 1))).
    + vm_compute. reflexivity.
    + vm_compute. reflexivity.
    + constructor; [|constructor].
      exists (filename (toy_item 0)). split; vm_compute; reflexivity.
    + vm_compute. reflexivity.
    + vm_compute. reflexivity.
  - destruct (Htrain ∅) as (_ & _ & _ & _ & _ & _ & H & _). apply H. reflexivity.
  - destruct (Htrain training_features_only) as (_ & _ & _ & _ & _ & _ & _ & H & _).
    apply (H []); vm_compute; reflexivity.
  - destruct (Heval features_only) as (_ & _ & _ & _ & _ & _ & _ & _ & H & _).
    apply H. vm_compute. reflexivity.
  - destruct (Htrain training_inputs) as (_ & _ & _ & _ & _ & _ & _ & _ & _ & H).
    apply (H ltac:(vm_compute; reflexivity)); vm_compute; reflexivity.
Defined.

